(** * ai-codereviewer: the test-coverage heuristic and the review pipeline

    A shallow embedding of the action's entry point (the file with
    [getPRDetails], [analyzeCode], [needsTests], [analyzeTests] and [main]),
    followed by the properties of the pipeline that were checked against it.

    Conventions.
    - A JavaScript string is a [string]: the bytes of its UTF-8 encoding.
      Substring tests, [split] and [slice] at an index found by
      [lastIndexOf] read the same on bytes as on characters.  [trim] removes
      the white space of ECMAScript in that encoding.  [toLowerCase] maps the
      ASCII letters; it is the JavaScript method on ASCII text ([JS.isASCII]),
      and a property that rests on the lower-case form of a free text is
      stated for ASCII text.
    - [undefined] / [null] fields are [option]s; truthiness is written out.
    - Calls that leave the process (platform API, AI backend, webhook) are
      recorded in a trace, and their answers come from a [World], which also
      supplies the built-ins that are not spelled out ([JSON.parse], the URL
      parser, the conversion of strings and objects to numbers).
    - A computation ends in a value, in an exception, or in a promise that
      never settles. *)

From Stdlib Require Import String Ascii List Bool Arith ZArith QArith Lia.
Import ListNotations.
Open Scope string_scope.
Open Scope list_scope.

(* ================================================================== *)
(** ** String built-ins used by the action *)
(* ================================================================== *)

Module JS.

Definition toLowerCaseChar (c : ascii) : ascii :=
  let n := nat_of_ascii c in
  if (65 <=? n)%nat && (n <=? 90)%nat then ascii_of_nat (n + 32) else c.

(** [s.toLowerCase()] on ASCII text: the letters A to Z are mapped, every
    other byte is kept. *)
Fixpoint toLowerCase (s : string) : string :=
  match s with
  | EmptyString => EmptyString
  | String c s' => String (toLowerCaseChar c) (toLowerCase s')
  end.

(** [s.startsWith(p)] *)
Fixpoint startsWith (s p : string) : bool :=
  match p, s with
  | EmptyString, _ => true
  | String _ _, EmptyString => false
  | String a p', String b s' => Ascii.eqb a b && startsWith s' p'
  end.

(** [s.includes(sub)] *)
Fixpoint includes (s sub : string) : bool :=
  startsWith s sub ||
  match s with
  | EmptyString => false
  | String _ s' => includes s' sub
  end.

(** [s.endsWith(p)] *)
Fixpoint endsWith (s p : string) : bool :=
  String.eqb s p ||
  match s with
  | EmptyString => false
  | String _ s' => endsWith s' p
  end.

(** White space removed by [trim]: the WhiteSpace and LineTerminator code
    points of ECMAScript, by the length of their UTF-8 encoding.
    One byte: TAB, LF, VT, FF, CR and SPACE. *)
Definition isWhiteSpace (c : ascii) : bool :=
  let n := nat_of_ascii c in
  ((9 <=? n)%nat && (n <=? 13)%nat) || (n =? 32)%nat.

(** Two bytes: U+00A0. *)
Definition isWhiteSpace2 (a b : ascii) : bool :=
  Ascii.eqb a "194" && Ascii.eqb b "160".

(** Three bytes: U+1680, U+2000 to U+200A, U+2028, U+2029, U+202F, U+205F,
    U+3000 and U+FEFF. *)
Definition isWhiteSpace3 (a b c : ascii) : bool :=
  let n := nat_of_ascii c in
  (Ascii.eqb a "225" && Ascii.eqb b "154" && Ascii.eqb c "128")
  || (Ascii.eqb a "226" && Ascii.eqb b "128"
      && (((128 <=? n)%nat && (n <=? 138)%nat)
          || (n =? 168)%nat || (n =? 169)%nat || (n =? 175)%nat))
  || (Ascii.eqb a "226" && Ascii.eqb b "129" && Ascii.eqb c "159")
  || (Ascii.eqb a "227" && Ascii.eqb b "128" && Ascii.eqb c "128")
  || (Ascii.eqb a "239" && Ascii.eqb b "187" && Ascii.eqb c "191").

(** [s.trimStart()] *)
Fixpoint trimStart (s : string) : string :=
  match s with
  | EmptyString => EmptyString
  | String a s1 =>
      if isWhiteSpace a then trimStart s1
      else
        match s1 with
        | EmptyString => s
        | String b s2 =>
            if isWhiteSpace2 a b then trimStart s2
            else
              match s2 with
              | EmptyString => s
              | String c s3 => if isWhiteSpace3 a b c then trimStart s3 else s
              end
        end
  end.

(** A string of white space only. *)
Definition blank (s : string) : bool := String.eqb (trimStart s) EmptyString.

(** [s.trimEnd()]: the string up to its longest blank end. *)
Fixpoint trimEnd (s : string) : string :=
  match s with
  | EmptyString => EmptyString
  | String a s' => if blank s then EmptyString else String a (trimEnd s')
  end.

(** [s.trim()] *)
Definition trim (s : string) : string := trimEnd (trimStart s).

(** The bytes that start the encoding of a white space character. *)
Definition startsWhiteSpace (a : ascii) : bool :=
  isWhiteSpace a || existsb (Ascii.eqb a) [ "194"; "225"; "226"; "227"; "239" ]%char.

(** [s.lastIndexOf(p)], the scan carrying the index of the head of [s]. *)
Fixpoint lastIndexOf_from (i : Z) (s p : string) : Z :=
  match s with
  | EmptyString => match p with EmptyString => i | _ => (-1)%Z end
  | String _ s' =>
      let r := lastIndexOf_from (i + 1) s' p in
      if (0 <=? r)%Z then r else if startsWith s p then i else (-1)%Z
  end.

Definition lastIndexOf (s p : string) : Z := lastIndexOf_from 0 s p.

Fixpoint drop (n : nat) (s : string) : string :=
  match n, s with
  | O, _ => s
  | S _, EmptyString => EmptyString
  | S n', String _ s' => drop n' s'
  end.

Fixpoint take (n : nat) (s : string) : string :=
  match n, s with
  | O, _ => EmptyString
  | S _, EmptyString => EmptyString
  | S n', String c s' => String c (take n' s')
  end.

(** [s.slice(start)]: a negative [start] counts from the end. *)
Definition slice (s : string) (start : Z) : string :=
  let len := Z.of_nat (String.length s) in
  let from := if (start <? 0)%Z then Z.max (len + start) 0 else Z.min start len in
  drop (Z.to_nat from) s.

(** [s.replace(/p/, r)] for a pattern [p] without metacharacters: the
    leftmost occurrence of [p] is replaced. *)
Fixpoint replaceFirst (s p r : string) : string :=
  if startsWith s p then (r ++ drop (String.length p) s)%string
  else match s with
       | EmptyString => EmptyString
       | String c s' => String c (replaceFirst s' p r)
       end.

(** [s.replace(/p$/, r)] for a literal [p]: only a match that ends the
    string counts. *)
Definition replaceAtEnd (s p r : string) : string :=
  if endsWith s p
  then (take (String.length s - String.length p) s ++ r)%string
  else s.

Fixpoint allChars (f : ascii -> bool) (s : string) : bool :=
  match s with
  | EmptyString => true
  | String c s' => f c && allChars f s'
  end.

(** Text made of ASCII characters only. *)
Definition isASCII (s : string) : bool :=
  allChars (fun c => (nat_of_ascii c <? 128)%nat) s.

Definition notSlashOrDot (c : ascii) : bool :=
  negb (Ascii.eqb c "/" || Ascii.eqb c ".").

(** [s.replace(/\.[^/.]+$/, '')]: the leftmost dot that is followed, up to
    the end of the string, by one or more characters other than [/] and
    [.], is removed together with what follows it. *)
Fixpoint stripExtension (s : string) : string :=
  match s with
  | EmptyString => EmptyString
  | String c s' =>
      if Ascii.eqb c "." && negb (String.eqb s' EmptyString) && allChars notSlashOrDot s'
      then EmptyString
      else String c (stripExtension s')
  end.

(** [s.split(sep)] for a one-character separator. *)
Fixpoint split (sep : ascii) (s : string) : list string :=
  match s with
  | EmptyString => [EmptyString]
  | String c s' =>
      match split sep s' with
      | h :: t => if Ascii.eqb c sep then EmptyString :: h :: t else String c h :: t
      | [] => [String c EmptyString]
      end
  end.

(** [arr.join(sep)] *)
Fixpoint join (sep : string) (l : list string) : string :=
  match l with
  | [] => EmptyString
  | [x] => x
  | x :: l' => (x ++ sep ++ join sep l')%string
  end.

End JS.

(* ================================================================== *)
(** ** minimatch

    The glob matcher of the [minimatch] package with its default options,
    for patterns made of literal characters, [*] and [**].  Every entry of
    [TEST_PATTERNS] is of that form.  Other glob syntax (braces, [?],
    classes, extglobs, a leading [!] or [#]) is not interpreted; it can only
    come in through the [exclude] input, and what is proved of that input is
    proved for patterns of the form above ([supported], [plain]). *)
(* ================================================================== *)

Module Minimatch.

(** [s.split(/\/+/)]: a run of slashes separates once. *)
Fixpoint slashSplit_aux (afterSlash : bool) (s : string) : list string :=
  match s with
  | EmptyString => [EmptyString]
  | String c s' =>
      if Ascii.eqb c "/" then
        if afterSlash then slashSplit_aux true s'
        else EmptyString :: slashSplit_aux true s'
      else
        match slashSplit_aux false s' with
        | h :: t => String c h :: t
        | [] => [String c EmptyString]
        end
  end.

Definition slashSplit (s : string) : list string := slashSplit_aux false s.

Inductive part : Type :=
| GLOBSTAR
| Part (p : string).

Definition parse (p : string) : part :=
  if String.eqb p "**" then GLOBSTAR else Part p.

(** A path part against a pattern part in which [*] stands for any run of
    characters (the part holds no slash). *)
Fixpoint wild (p f : string) {struct p} : bool :=
  match p with
  | EmptyString => String.eqb f EmptyString
  | String c p' =>
      if Ascii.eqb c "*" then
        (fix star (f : string) : bool :=
           wild p' f ||
           match f with
           | EmptyString => false
           | String _ f' => star f'
           end) f
      else
        match f with
        | EmptyString => false
        | String d f' => Ascii.eqb c d && wild p' f'
        end
  end.

Definition startsWithDot (f : string) : bool := JS.startsWith f ".".

(** The regular expression minimatch builds for a part: one that starts
    with a wildcard does not match a dot file, nor the empty part. *)
Definition partMatch (p f : string) : bool :=
  if JS.startsWith p "*"
  then negb (startsWithDot f) && negb (String.eqb f EmptyString) && wild p f
  else wild p f.

(** [matchOne(file, pattern, partial = false)] *)
Fixpoint matchOne (pattern : list part) (file : list string) {struct pattern} : bool :=
  match pattern, file with
  | [], [] => true
  | [], [f] => String.eqb f EmptyString
  | [], _ :: _ :: _ => false
  | _ :: _, [] => false
  | GLOBSTAR :: rest, _ :: _ =>
      match rest with
      | [] => forallb (fun f => negb (startsWithDot f)) file
      | _ :: _ =>
          (fix swallow (file : list string) : bool :=
             match file with
             | [] => false
             | swallowee :: file' =>
                 matchOne rest file ||
                 (negb (startsWithDot swallowee) && swallow file')
             end) file
      end
  | Part p :: rest, f :: file' => partMatch p f && matchOne rest file'
  end.

(** [minimatch(f, pattern)] *)
Definition minimatch (f pattern : string) : bool :=
  if String.eqb pattern EmptyString then String.eqb f EmptyString
  else matchOne (map parse (slashSplit pattern)) (slashSplit f).

End Minimatch.

Export Minimatch.

(* ================================================================== *)
(** ** The parsed diff *)
(* ================================================================== *)

(** A line of a hunk: [ln] / [ln2] are the line numbers parse-diff attaches
    where they exist. *)
Record Change : Type := mkChange {
  ln : option Z;
  ln2 : option Z;
  change_content : string
}.

Record Chunk : Type := mkChunk {
  content : string;
  changes : list Change
}.

(** [to] is [undefined] for a file without destination path. *)
Record File : Type := mkFile {
  to : option string;
  chunks : list Chunk
}.

(** Truthiness of a [string | undefined]. *)
Definition truthy (o : option string) : bool :=
  match o with
  | Some s => negb (String.eqb s EmptyString)
  | None => false
  end.

(** [o || ''] and [o ?? ''] give the same string. *)
Definition orEmpty (o : option string) : string :=
  match o with
  | Some s => s
  | None => EmptyString
  end.

(* ================================================================== *)
(** ** Test-requirement classifier *)
(* ================================================================== *)

Definition TEST_PATTERNS : list string :=
  [ "**/test/**"; "**/tests/**"; "**/*test*"; "**/*Test*"; "**/*spec*"; "**/*Spec*";
    "**/test_*.py"; "**/*_test.py"; "**/tests.py"; "**/conftest.py";
    "**/*.test.ts"; "**/*.test.js"; "**/*.spec.ts"; "**/*.spec.js";
    "**/__tests__/**"; "**/testing/**"; "**/pytest/**"; "**/unittest/**" ].

Definition testableExtensions : list string :=
  [ ".py"; ".js"; ".ts"; ".jsx"; ".tsx"; ".vue"; ".rb"; ".php"; ".java"; ".go";
    ".cs"; ".cpp"; ".rs" ].

Definition excludePatterns : list string :=
  [ ".config."; ".conf."; ".d.ts"; "settings.py"; "urls.py"; "wsgi.py"; "asgi.py";
    "manage.py" ].

Definition matchesTestPattern (filename : string) : bool :=
  existsb (fun pattern => minimatch filename pattern) TEST_PATTERNS.

Definition extensionOf (filename : string) : string :=
  JS.slice filename (JS.lastIndexOf filename ".").

Definition needsTests (file : File) : bool :=
  let filename := orEmpty (to file) in
  if matchesTestPattern filename then false
  else
    let ext := extensionOf filename in
    existsb (String.eqb ext) testableExtensions &&
    negb (existsb (fun pattern => JS.includes filename pattern) excludePatterns).

(* ================================================================== *)
(** ** Test-satisfaction matcher *)
(* ================================================================== *)

Record TestAnalysisResult : Type := mkTestAnalysisResult {
  hasTests : bool;
  missingTests : list string;
  affectedFiles : list string
}.

Definition isTestFile (file : File) : bool :=
  truthy (to file) &&
  (matchesTestPattern (orEmpty (to file)) ||
   JS.includes (JS.toLowerCase (orEmpty (to file))) "test").

Definition possibleTestPatterns (file : string) : list string :=
  let baseNameWithoutExt := JS.stripExtension file in
  [ (baseNameWithoutExt ++ "_test")%string;
    ("test_" ++ baseNameWithoutExt)%string;
    (baseNameWithoutExt ++ ".test")%string;
    (baseNameWithoutExt ++ ".spec")%string;
    JS.replaceFirst baseNameWithoutExt "src/" "test/";
    JS.replaceFirst baseNameWithoutExt "src/" "tests/";
    JS.replaceFirst baseNameWithoutExt "app/" "tests/";
    JS.replaceAtEnd baseNameWithoutExt "views.py" "tests.py";
    JS.replaceAtEnd baseNameWithoutExt "models.py" "tests.py" ].

Definition isMissingTest (testFiles : list string) (file : string) : bool :=
  negb (existsb (fun testFile =>
          existsb (fun pattern =>
            JS.includes (JS.toLowerCase testFile) (JS.toLowerCase pattern))
            (possibleTestPatterns file))
          testFiles).

Definition analyzeTests (parsedDiff : list File) : TestAnalysisResult :=
  let affectedFiles :=
    map (fun file => orEmpty (to file))
        (filter (fun file => truthy (to file) && needsTests file) parsedDiff) in
  let testFiles :=
    map (fun file => orEmpty (to file)) (filter isTestFile parsedDiff) in
  let missingTests := filter (isMissingTest testFiles) affectedFiles in
  {| hasTests := (0 <? length testFiles)%nat;
     missingTests := missingTests;
     affectedFiles := affectedFiles |}.

(* ================================================================== *)
(** ** Exemption keywords and the chat command *)
(* ================================================================== *)

Definition EXEMPTION_KEYWORDS : list string :=
  [ "no tests needed"; "test exempt"; "skip tests"; "sem necessidade de teste";
    "não requer teste" ].

Definition hasTestExemption (description : string) : bool :=
  existsb (fun keyword =>
             JS.includes (JS.toLowerCase description) (JS.toLowerCase keyword))
          EXEMPTION_KEYWORDS.

Definition isCodeReviewCommand (comment : string) : bool :=
  JS.startsWith (JS.trim comment) "/code_review".

(* ================================================================== *)
(** ** Inputs of a run: configuration, event payload, outside world *)
(* ================================================================== *)

(** The action inputs read at load time. *)
Record Config : Type := mkConfig {
  AI_PROVIDER : string;
  API_KEY : string;
  AVALIAR_TEST_PR : bool;
  WEBHOOK_URL : string;
  exclude : string
}.

Record Issue : Type := mkIssue {
  issue_number : Z;
  issue_user_login : string;
  issue_pull_request : bool       (* [issue.pull_request] is present *)
}.

Record PullRequest : Type := mkPullRequest {
  pull_request_number : Z;
  pull_request_user_login : string
}.

(** The event payload, [JSON.parse] of the file at GITHUB_EVENT_PATH. *)
Record Event : Type := mkEvent {
  action : option string;
  comment : option string;        (* [comment.body] when [comment] is present *)
  issue : option Issue;
  pull_request : option PullRequest;
  repository_owner_login : string;
  repository_name : string
}.

(** Values [JSON.parse] returns; an object holds each key once. *)
#[warnings="-register-all"]
Inductive json : Type :=
| JNull
| JBool (b : bool)
| JNum (q : Q)
| JStr (s : string)
| JArr (items : list json)
| JObj (fields : list (string * json)).

(** A JavaScript number. *)
Inductive number : Type :=
| NaN
| Infinity (negative : bool)
| Finite (q : Q).

(** What the AI backend does with one request. *)
Inductive Reply : Type :=
| Rejects
| Resolves (text : string).

(** The answers of everything outside the process.  The backend is asked
    by position: [backend n] answers the request that follows [n] earlier
    ones in the run.  For the webhook, either a response arrives or the
    request emits 'error'.  The last four fields are built-ins of the
    language that are not spelled out here. *)
Record World : Type := mkWorld {
  pulls_get : option (option string * option string);   (* title, body *)
  users_getByUsername : option (option string);         (* name *)
  pulls_get_diff : option (option (list File));         (* parseDiff of a non-empty diff *)
  issues_createComment_ok : bool;
  pulls_createReview_ok : bool;
  webhook_responds : bool;
  backend : nat -> Reply;
  JSON_parse : string -> option json;                   (* [None]: SyntaxError *)
  URL_valid : string -> bool;                           (* [new URL(s)] does not throw *)
  StringToNumber : string -> number;                    (* [Number(s)] for a string *)
  ObjectToNumber : json -> option number                (* [Number(v)] for an array or an
                                                           object; [None]: TypeError *)
}.

Record PRDetails : Type := mkPRDetails {
  owner : string;
  repo : string;
  pull_number : Z;
  title : string;
  description : string;
  author_login : string;
  author_name : string
}.

(* ================================================================== *)
(** ** Calls that leave the process, and the monad that records them *)
(* ================================================================== *)

(** A prompt is a fixed text around the values kept here: the path of the
    file, the title and the description of the pull request and the hunk
    for a review; the description for the exemption message. *)
Inductive Prompt : Type :=
| ReviewPrompt (file_to : option string) (pr_title pr_description : string) (chunk : Chunk)
| ExemptionPrompt (pr_description : string).

(** The fixed texts the action posts; each stands for a non-empty string. *)
Inductive Message : Type :=
| TestWarning (missingTests : list string)
| LGTMWithExemption (reason : string)
| LGTM.

Inductive ReviewEvent : Type := COMMENT | APPROVE.

(** A comment of a review: [body] is the value of [reviewComment] as it
    came, [line] the number made of [lineNumber]. *)
Record ReviewComment : Type := mkReviewComment {
  body : option json;
  path : string;
  line : number
}.

(** The [analysis] and [metadata] parts of the webhook payload that come
    from the run (dates and labels of the event are left out). *)
Record WebhookData : Type := mkWebhookData {
  wh_pull_request : PRDetails;
  wh_missing_tests : list string;
  wh_affected_files : list string;
  wh_has_tests : bool;
  wh_total_files_analyzed : nat;
  wh_is_exempt : bool;
  wh_reason : string;
  wh_needs_tests : bool;
  wh_action : option string;
  wh_comment_command : bool
}.

Inductive Call : Type :=
| PullsGet (owner repo : string) (pull_number : Z)
| UsersGetByUsername (username : string)
| PullsGetDiff (owner repo : string) (pull_number : Z)
| IssuesCreateComment (owner repo : string) (issue_number : Z) (body : Message)
| SendWebhook (url : string) (data : WebhookData)
| ProcessReason (prompt : Prompt) (jsonResponse : bool)
| GetResponse (prompt : Prompt)
| PullsCreateReview (owner repo : string) (pull_number : Z)
    (comments : list ReviewComment) (event : ReviewEvent) (body : option Message).

Inductive Error : Type :=
| CouldNotDeterminePullRequestNumber
| ApiKeyRequired
| EmptyCompletion
| BackendFault
| PlatformFault
| WebhookFault
| SyntaxError
| TypeError.

(** How a computation ends: with a value, with an exception, or, for an
    awaited promise that never settles, not at all. *)
Inductive Outcome (A : Type) : Type :=
| Ok (a : A)
| Throw (e : Error)
| Pending.
Arguments Ok {A} a.
Arguments Throw {A} e.
Arguments Pending {A}.

(** Sequencing of computations that make no call. *)
Definition andThen {A B} (o : Outcome A) (k : A -> Outcome B) : Outcome B :=
  match o with
  | Ok a => k a
  | Throw e => Throw e
  | Pending => Pending
  end.

(** A computation reads the trace of the calls made so far and extends it. *)
Definition M (A : Type) : Type := list Call -> Outcome A * list Call.

Definition ret {A} (a : A) : M A := fun t => (Ok a, t).

Definition throw {A} (e : Error) : M A := fun t => (Throw e, t).

Definition bind {A B} (m : M A) (k : A -> M B) : M B :=
  fun t =>
    match m t with
    | (Ok a, t') => k a t'
    | (Throw e, t') => (Throw e, t')
    | (Pending, t') => (Pending, t')
    end.

(** [try { m } catch (e) { handler }]: what never settles is not caught. *)
Definition tryCatch {A} (m : M A) (handler : Error -> M A) : M A :=
  fun t =>
    match m t with
    | (Ok a, t') => (Ok a, t')
    | (Throw e, t') => handler e t'
    | (Pending, t') => (Pending, t')
    end.

(** Issue a call and wait for it: the promise resolves with the answer, or
    rejects with [e] when there is none. *)
Definition request {A} (c : Call) (answer : option A) (e : Error) : M A :=
  fun t => (match answer with Some a => Ok a | None => Throw e end, t ++ [c]).

Definition perform (c : Call) (ok : bool) (e : Error) : M unit :=
  request c (if ok then Some tt else None) e.

(** Issue a call whose promise is never resolved: it stays pending when
    the call is answered, and rejects with [e] when it is not. *)
Definition unresolved {A} (c : Call) (answered : bool) (e : Error) : M A :=
  fun t => (if answered then Pending else Throw e, t ++ [c]).

Declare Scope action_scope.
Delimit Scope action_scope with action.
Notation "x <- m ;; k" := (bind m (fun x => k))
  (at level 61, m at next level, right associativity) : action_scope.
Notation "m ;; k" := (bind m (fun _ => k))
  (at level 61, right associativity) : action_scope.
Open Scope action_scope.

(** [emits P m]: whatever the trace so far, [m] only adds calls that
    satisfy [P]. *)
Definition emits {A} (P : Call -> bool) (m : M A) : Prop :=
  forall t, exists l, snd (m t) = t ++ l /\ forallb P l = true.

(** [settles m]: the promise of [m] is resolved or rejected. *)
Definition settles {A} (m : M A) : Prop :=
  forall t, fst (m t) <> Pending.

Definition anyCall (c : Call) : bool := true.

(** The calls that go to the AI backend, named after the provider method
    that issues them. *)
Definition isBackendCall (c : Call) : bool :=
  match c with ProcessReason _ _ | GetResponse _ => true | _ => false end.

Definition isIssueComment (c : Call) : bool :=
  match c with IssuesCreateComment _ _ _ _ => true | _ => false end.

Definition isReview (c : Call) : bool :=
  match c with PullsCreateReview _ _ _ _ _ _ => true | _ => false end.

Definition isApproval (c : Call) : bool :=
  match c with PullsCreateReview _ _ _ _ APPROVE _ => true | _ => false end.

Definition isReviewRequest (c : Call) : bool :=
  match c with ProcessReason (ReviewPrompt _ _ _ _) _ => true | _ => false end.

Definition isWebhook (c : Call) : bool :=
  match c with SendWebhook _ _ => true | _ => false end.

(* ================================================================== *)
(** ** Pull request details and diff *)
(* ================================================================== *)

(** [eventData.issue] when [eventData.issue?.pull_request] is truthy. *)
Definition pullRequestIssue (eventData : Event) : option Issue :=
  match issue eventData with
  | Some i => if issue_pull_request i then Some i else None
  | None => None
  end.

(** [eventData.issue?.pull_request] *)
Definition issueIsPullRequest (eventData : Event) : bool :=
  match pullRequestIssue eventData with
  | Some _ => true
  | None => false
  end.

(** The branch of [getPRDetails] that finds the number and the author. *)
Definition pullNumberAndAuthor (eventData : Event) : Outcome (Z * string) :=
  match pullRequestIssue eventData with
  | Some i => Ok (issue_number i, issue_user_login i)
  | None =>
      match pull_request eventData with
      | Some pr => Ok (pull_request_number pr, pull_request_user_login pr)
      | None => Throw CouldNotDeterminePullRequestNumber
      end
  end.

Definition liftOutcome {A} (o : Outcome A) : M A := fun t => (o, t).

Definition getPRDetails (w : World) (eventData : Event) : M PRDetails :=
  let owner := repository_owner_login eventData in
  let repo := repository_name eventData in
  found <- liftOutcome (pullNumberAndAuthor eventData) ;;
  let '(pullNumber, login) := found in
  prData <- request (PullsGet owner repo pullNumber) (pulls_get w) PlatformFault ;;
  userName <- request (UsersGetByUsername login) (users_getByUsername w) PlatformFault ;;
  ret {| owner := owner;
         repo := repo;
         pull_number := pullNumber;
         title := orEmpty (fst prData);
         description := orEmpty (snd prData);
         author_login := login;
         author_name := if truthy userName then orEmpty userName else login |}.

(** [getDiff] followed by [parseDiff]; [None] when the diff is empty. *)
Definition getDiff (w : World) (owner repo : string) (pull_number : Z)
  : M (option (list File)) :=
  request (PullsGetDiff owner repo pull_number) (pulls_get_diff w) PlatformFault.

(* ================================================================== *)
(** ** AI providers *)
(* ================================================================== *)

Inductive AIProvider : Type := GeminiProvider | OpenAIProvider.

Definition getAIProvider (cfg : Config) : M AIProvider :=
  if String.eqb (API_KEY cfg) EmptyString then throw ApiKeyRequired
  else if String.eqb (AI_PROVIDER cfg) "gemini" then ret GeminiProvider
  else ret OpenAIProvider.

Definition aiRequests (t : list Call) : nat := length (filter isBackendCall t).

(** A request to the backend: the one that follows [n] earlier ones gets
    the answer [backend w n]. *)
Definition ask (w : World) (c : Call) : M string :=
  fun t =>
    request c
      (match backend w (aiRequests t) with
       | Rejects => None
       | Resolves text => Some text
       end)
      BackendFault t.

(** [provider.processReason(prompt, jsonResponse)]: the OpenAI provider
    throws on an empty completion, the Gemini one returns the text as is. *)
Definition processReason (w : World) (provider : AIProvider) (prompt : Prompt)
    (jsonResponse : bool) : M string :=
  text <- ask w (ProcessReason prompt jsonResponse) ;;
  match provider with
  | OpenAIProvider =>
      if String.eqb text EmptyString then throw EmptyCompletion else ret text
  | GeminiProvider => ret text
  end.

(** [v.name] for a value [v] of [JSON.parse]; reading a property of [null]
    is a TypeError. *)
Fixpoint lookup (name : string) (fields : list (string * json)) : option json :=
  match fields with
  | [] => None
  | (k, v) :: fields' => if String.eqb k name then Some v else lookup name fields'
  end.

Definition getProperty (v : json) (name : string) : Outcome (option json) :=
  match v with
  | JNull => Throw TypeError
  | JObj fields => Ok (lookup name fields)
  | _ => Ok None
  end.

(** [text.match(/\{[\s\S]*\}/)]: from the first opening brace to the last
    closing brace after it. *)
Fixpoint fromFirstBrace (s : string) : option string :=
  match s with
  | EmptyString => None
  | String c s' => if Ascii.eqb c "{" then Some s else fromFirstBrace s'
  end.

Fixpoint upToLastBrace (s : string) : option string :=
  match s with
  | EmptyString => None
  | String c s' =>
      match upToLastBrace s' with
      | Some r => Some (String c r)
      | None => if Ascii.eqb c "}" then Some (String c EmptyString) else None
      end
  end.

Definition matchBraces (text : string) : option string :=
  match fromFirstBrace text with
  | Some (String c s') =>
      match upToLastBrace s' with
      | Some r => Some (String c r)
      | None => None
      end
  | _ => None
  end.

Definition isArray (v : option json) : bool :=
  match v with Some (JArr _) => true | _ => false end.

(** [provider.getResponse(prompt)].  Both classes catch every failure and
    return [null]; the Gemini one also checks that [reviews] is an array.
    [main] does not reach this method: [getAIResponse] calls
    [processReason]. *)
Definition getResponse (w : World) (provider : AIProvider) (prompt : Prompt)
  : M (option json) :=
  tryCatch
    (text <- ask w (GetResponse prompt) ;;
     match provider with
     | OpenAIProvider =>
         let res := if String.eqb (JS.trim text) EmptyString then "{}" else JS.trim text in
         match JSON_parse w res with
         | None => throw SyntaxError
         | Some parsed => liftOutcome (getProperty parsed "reviews")
         end
     | GeminiProvider =>
         match matchBraces text with
         | None => ret None
         | Some jsonMatch =>
             match JSON_parse w jsonMatch with
             | None => throw SyntaxError
             | Some parsed =>
                 reviews <- liftOutcome (getProperty parsed "reviews") ;;
                 if negb (isArray reviews) then ret None else ret reviews
             end
         end
     end)
    (fun _ => ret None).

Definition truthyValue (v : option json) : bool :=
  match v with
  | None => false
  | Some JNull => false
  | Some (JBool b) => b
  | Some (JNum q) => negb (Qeq_bool q 0)
  | Some (JStr s) => negb (String.eqb s EmptyString)
  | Some (JArr _) => true
  | Some (JObj _) => true
  end.

Definition getAIResponse (cfg : Config) (w : World) (prompt : Prompt)
  : M (option json) :=
  tryCatch
    (provider <- getAIProvider cfg ;;
     response <- processReason w provider prompt true ;;
     match JSON_parse w response with
     | None => throw SyntaxError
     | Some parsed => liftOutcome (getProperty parsed "reviews")
     end)
    (fun error => throw error).

(* ================================================================== *)
(** ** Review of the hunks *)
(* ================================================================== *)

Definition createPrompt (file : File) (chunk : Chunk) (prDetails : PRDetails) : Prompt :=
  ReviewPrompt (to file) (title prDetails) (description prDetails) chunk.

(** [Number(value)]: [undefined] gives NaN, [null] and the booleans give 0
    and 1, a number is kept; a string is read by the built-in conversion; an
    array or an object goes through its conversion to a primitive, which can
    throw a TypeError. *)
Definition Number (w : World) (value : option json) : Outcome number :=
  match value with
  | None => Ok NaN
  | Some JNull => Ok (Finite 0)
  | Some (JBool b) => Ok (Finite (if b then 1 else 0))
  | Some (JNum q) => Ok (Finite q)
  | Some (JStr s) => Ok (StringToNumber w s)
  | Some v =>
      match ObjectToNumber w v with
      | Some n => Ok n
      | None => Throw TypeError
      end
  end.

(** The callback of [flatMap] in [createComment]. *)
Definition commentOf (w : World) (file : File) (aiResponse : json)
  : Outcome (list ReviewComment) :=
  if negb (truthy (to file)) then Ok []
  else
    andThen (getProperty aiResponse "reviewComment") (fun reviewComment =>
    andThen (getProperty aiResponse "lineNumber") (fun lineNumber =>
    andThen (Number w lineNumber) (fun line =>
    Ok [ {| body := reviewComment; path := orEmpty (to file); line := line |} ]))).

Fixpoint flatMap (f : json -> Outcome (list ReviewComment)) (l : list json)
  : Outcome (list ReviewComment) :=
  match l with
  | [] => Ok []
  | x :: l' =>
      andThen (f x) (fun cs =>
      andThen (flatMap f l') (fun cs' =>
      Ok (cs ++ cs')))
  end.

(** [aiResponses.flatMap(...)]: only an array has [flatMap]. *)
Definition createComment (w : World) (file : File) (chunk : Chunk) (aiResponses : json)
  : Outcome (list ReviewComment) :=
  match aiResponses with
  | JArr items => flatMap (commentOf w file) items
  | _ => Throw TypeError
  end.

Fixpoint analyzeChunks (cfg : Config) (w : World) (prDetails : PRDetails) (file : File)
    (chunks : list Chunk) (comments : list ReviewComment) : M (list ReviewComment) :=
  match chunks with
  | [] => ret comments
  | chunk :: chunks' =>
      let prompt := createPrompt file chunk prDetails in
      aiResponse <- getAIResponse cfg w prompt ;;
      match aiResponse with
      | Some reviews =>
          if truthyValue aiResponse then
            newComments <- liftOutcome (createComment w file chunk reviews) ;;
            analyzeChunks cfg w prDetails file chunks' (comments ++ newComments)
          else analyzeChunks cfg w prDetails file chunks' comments
      | None => analyzeChunks cfg w prDetails file chunks' comments
      end
  end.

(** [file.to === "/dev/null"] *)
Definition isDeleted (file : File) : bool :=
  match to file with
  | Some p => String.eqb p "/dev/null"
  | None => false
  end.

Fixpoint analyzeFiles (cfg : Config) (w : World) (prDetails : PRDetails)
    (parsedDiff : list File) (comments : list ReviewComment) : M (list ReviewComment) :=
  match parsedDiff with
  | [] => ret comments
  | file :: parsedDiff' =>
      if isDeleted file then analyzeFiles cfg w prDetails parsedDiff' comments
      else
        comments' <- analyzeChunks cfg w prDetails file (chunks file) comments ;;
        analyzeFiles cfg w prDetails parsedDiff' comments'
  end.

Definition analyzeCode (cfg : Config) (w : World) (parsedDiff : list File)
    (prDetails : PRDetails) : M (list ReviewComment) :=
  analyzeFiles cfg w prDetails parsedDiff [].

(** [body] is left out of the request when it is falsy; every [Message]
    is a non-empty text. *)
Definition createReviewComment (w : World) (owner repo : string) (pull_number : Z)
    (comments : list ReviewComment) (event : ReviewEvent) (body : option Message) : M unit :=
  perform (PullsCreateReview owner repo pull_number comments event body)
          (pulls_createReview_ok w) PlatformFault.

(* ================================================================== *)
(** ** Exemption details *)
(* ================================================================== *)

Record ExemptionDetails : Type := mkExemptionDetails {
  isExempt : bool;
  reason : string
}.

Definition fallbackReason : string :=
  "Isenção de testes solicitada, mas nenhuma justificativa detalhada foi fornecida.".

Definition extractTestExemptionReason (cfg : Config) (w : World) (description : string)
  : M (option string) :=
  tryCatch
    (provider <- getAIProvider cfg ;;
     response <- processReason w provider (ExemptionPrompt description) false ;;
     if String.eqb response EmptyString then ret None
     else ret (Some (JS.trim response)))
    (fun _ => ret None).

Definition getTestExemptionDetails (cfg : Config) (w : World) (description : string)
  : M ExemptionDetails :=
  let isExempt := hasTestExemption description in
  if negb isExempt then ret {| isExempt := false; reason := EmptyString |}
  else
    detailedReason <- extractTestExemptionReason cfg w description ;;
    ret {| isExempt := true;
           reason := if truthy detailedReason then orEmpty detailedReason
                     else fallbackReason |}.

(* ================================================================== *)
(** ** Webhook *)
(* ================================================================== *)

(** The promise [sendWebhook] returns.  [new URL] throws inside its
    executor on a text that is no URL: the promise is rejected and no
    request is made.  Otherwise the request is sent.  The promise is
    rejected when the request emits 'error'.  It is resolved only by the
    'end' event of the response, and nothing reads the response, so that
    event is never emitted: once a response has arrived the promise stays
    pending. *)
Definition sendWebhook (cfg : Config) (w : World) (data : WebhookData) : M unit :=
  if String.eqb (WEBHOOK_URL cfg) EmptyString then ret tt
  else if negb (URL_valid w (WEBHOOK_URL cfg)) then throw TypeError
  else unresolved (SendWebhook (WEBHOOK_URL cfg) data) (webhook_responds w) WebhookFault.

(* ================================================================== *)
(** ** main *)
(* ================================================================== *)

Definition triggerActions : list string := [ "opened"; "reopened"; "synchronize" ].

(** The event gate at the head of [main]: [true] iff the run goes on to
    fetch the pull request; on [false], [main] returns at once. *)
Definition shouldProcessPR (eventData : Event) : bool :=
  match comment eventData with
  | Some commentBody =>
      if negb (issueIsPullRequest eventData) then false
      else if negb (isCodeReviewCommand commentBody) then false
      else true
  | None =>
      match pull_request eventData, action eventData with
      | Some _, Some a => existsb (String.eqb a) triggerActions
      | _, _ => false
      end
  end.

(** The guard of the warning, which is also the first half of the guard of
    the approval with exemption. *)
Definition testsRequiredAndAbsent (testAnalysis : TestAnalysisResult) : bool :=
  (0 <? length (affectedFiles testAnalysis))%nat && negb (hasTests testAnalysis).

(** What [main] holds when it reaches the review of the code. *)
Record Stage : Type := mkStage {
  stage_prDetails : PRDetails;
  stage_parsedDiff : list File;
  stage_testAnalysis : TestAnalysisResult;
  stage_testExemptionDetails : ExemptionDetails;
  stage_hasIssues : bool
}.

Definition webhookData (eventData : Event) (prDetails : PRDetails)
    (parsedDiff : list File) (testAnalysis : TestAnalysisResult)
    (testExemptionDetails : ExemptionDetails) : WebhookData :=
  {| wh_pull_request := prDetails;
     wh_missing_tests := missingTests testAnalysis;
     wh_affected_files := affectedFiles testAnalysis;
     wh_has_tests := hasTests testAnalysis;
     wh_total_files_analyzed := length parsedDiff;
     wh_is_exempt := isExempt testExemptionDetails;
     wh_reason := reason testExemptionDetails;
     wh_needs_tests := testsRequiredAndAbsent testAnalysis;
     wh_action := action eventData;
     wh_comment_command := match comment eventData with Some _ => true | None => false end |}.

(** [main] from its start to the end of the test check; [None] is a
    [return] out of [main]. *)
Definition testPhase (cfg : Config) (w : World) (eventData : Event) : M (option Stage) :=
  if negb (shouldProcessPR eventData) then ret None
  else
    prDetails <- getPRDetails w eventData ;;
    diff <- getDiff w (owner prDetails) (repo prDetails) (pull_number prDetails) ;;
    match diff with
    | None => ret None
    | Some parsedDiff =>
        let testAnalysis := analyzeTests parsedDiff in
        testExemptionDetails <- getTestExemptionDetails cfg w (description prDetails) ;;
        let stage hasIssues :=
          {| stage_prDetails := prDetails;
             stage_parsedDiff := parsedDiff;
             stage_testAnalysis := testAnalysis;
             stage_testExemptionDetails := testExemptionDetails;
             stage_hasIssues := hasIssues |} in
        if testsRequiredAndAbsent testAnalysis && negb (isExempt testExemptionDetails) then
          perform (IssuesCreateComment (owner prDetails) (repo prDetails)
                     (pull_number prDetails) (TestWarning (missingTests testAnalysis)))
                  (issues_createComment_ok w) PlatformFault ;;
          (if negb (String.eqb (WEBHOOK_URL cfg) EmptyString) then
             tryCatch
               (sendWebhook cfg w
                  (webhookData eventData prDetails parsedDiff testAnalysis
                     testExemptionDetails))
               (fun _ => ret tt)
           else ret tt) ;;
          if AVALIAR_TEST_PR cfg then ret None else ret (Some (stage true))
        else ret (Some (stage false))
    end.

(** The files handed to the review: those no [exclude] pattern matches. *)
Definition filteredDiff (cfg : Config) (parsedDiff : list File) : list File :=
  let patterns := map JS.trim (JS.split "," (exclude cfg)) in
  filter (fun file =>
            negb (existsb (fun pattern => minimatch (orEmpty (to file)) pattern) patterns))
         parsedDiff.

Definition approvalBody (s : Stage) : Message :=
  if testsRequiredAndAbsent (stage_testAnalysis s)
     && isExempt (stage_testExemptionDetails s)
  then LGTMWithExemption (reason (stage_testExemptionDetails s))
  else LGTM.

(** [main] from the review of the code to its end. *)
Definition reviewPhase (cfg : Config) (w : World) (s : Stage) : M unit :=
  let prDetails := stage_prDetails s in
  hasIssues <-
    (if negb (AVALIAR_TEST_PR cfg) then
       comments <- analyzeCode cfg w (filteredDiff cfg (stage_parsedDiff s)) prDetails ;;
       if (0 <? length comments)%nat then
         createReviewComment w (owner prDetails) (repo prDetails) (pull_number prDetails)
           comments COMMENT None ;;
         ret true
       else ret (stage_hasIssues s)
     else ret (stage_hasIssues s)) ;;
  if negb hasIssues then
    createReviewComment w (owner prDetails) (repo prDetails) (pull_number prDetails)
      [] APPROVE (Some (approvalBody s))
  else ret tt.

Definition main (cfg : Config) (w : World) (eventData : Event) : M unit :=
  tryCatch
    (reached <- testPhase cfg w eventData ;;
     match reached with
     | None => ret tt
     | Some s => reviewPhase cfg w s
     end)
    (fun error => throw error).

(** A run starts with no call made. *)
Definition run (cfg : Config) (w : World) (eventData : Event) : Outcome unit * list Call :=
  main cfg w eventData [].

(* ================================================================== *)
(** ** Concrete inputs used by the examples below *)
(* ================================================================== *)

(** A changed file with no hunk, and one with a single one-line hunk. *)
Definition fileAt (p : string) : File := mkFile (Some p) [].

Definition hunk : Chunk :=
  mkChunk "@@ -1,2 +1,3 @@" [ mkChange (Some 1%Z) None "+x" ].

Definition changed (p : string) : File := mkFile (Some p) [ hunk ].

(** A "pull request opened" event and a "/code_review" comment on a pull
    request. *)
Definition prOpened : Event :=
  mkEvent (Some "opened") None None (Some (mkPullRequest 7 "alice")) "acme" "widgets".

Definition reviewCommand : Event :=
  mkEvent (Some "created") (Some "  /code_review please") (Some (mkIssue 7 "alice" true))
          None "acme" "widgets".

(** A no-break space, U+00A0, and a comment that starts with one. *)
Definition nbsp : string := String "194" (String "160" EmptyString).

Definition nbspCommand : Event :=
  mkEvent (Some "created") (Some (nbsp ++ "/code_review")%string)
          (Some (mkIssue 7 "alice" true)) None "acme" "widgets".

Definition quote : string := String (ascii_of_nat 34) EmptyString.

(** The text [{"reviews":[]}] and its value. *)
Definition noReviewsText : string :=
  ("{" ++ quote ++ "reviews" ++ quote ++ ":[]}")%string.

Definition noReviews : json := JObj [ ("reviews", JArr []) ].

(** The text [{"reviews":[{"lineNumber":"12","reviewComment":"rename"}]}]
    and its value. *)
Definition oneReviewText : string :=
  ("{" ++ quote ++ "reviews" ++ quote ++ ":[{" ++ quote ++ "lineNumber" ++ quote ++ ":"
       ++ quote ++ "12" ++ quote ++ "," ++ quote ++ "reviewComment" ++ quote ++ ":"
       ++ quote ++ "rename" ++ quote ++ "}]}")%string.

Definition oneReview : json :=
  JObj [ ("reviews",
          JArr [ JObj [ ("lineNumber", JStr "12"); ("reviewComment", JStr "rename") ] ]) ].

(** The text [{"reviews":"none"}] and its value: valid JSON in which
    [reviews] is not an array. *)
Definition textReviewsText : string :=
  ("{" ++ quote ++ "reviews" ++ quote ++ ":" ++ quote ++ "none" ++ quote ++ "}")%string.

Definition textReviews : json := JObj [ ("reviews", JStr "none") ].

(** [JSON.parse] on the texts that occur in the examples: the three above,
    and text that is not JSON. *)
Definition parseExample (text : string) : option json :=
  if String.eqb text noReviewsText then Some noReviews
  else if String.eqb text oneReviewText then Some oneReview
  else if String.eqb text textReviewsText then Some textReviews
  else None.

(** [Number] on the one string that is a line number in the examples. *)
Definition numberExample (s : string) : number :=
  if String.eqb s "12" then Finite 12 else NaN.

(** A world in which the platform accepts every call, the pull request has
    the given description and diff, and the backend answers with [replies]
    in turn. *)
Definition exampleWorld (description : string) (files : list File) (replies : list Reply)
  : World :=
  {| pulls_get := Some (Some "Add util", Some description);
     users_getByUsername := Some (Some "Alice");
     pulls_get_diff := Some (Some files);
     issues_createComment_ok := true;
     pulls_createReview_ok := true;
     webhook_responds := true;
     backend := fun n => nth n replies Rejects;
     JSON_parse := parseExample;
     URL_valid := fun _ => true;
     StringToNumber := numberExample;
     ObjectToNumber := fun _ => Some NaN |}.

(** The same platform, but the pull request has an empty diff. *)
Definition emptyDiffWorld : World :=
  {| pulls_get := Some (Some "Add util", Some EmptyString);
     users_getByUsername := Some (Some "Alice");
     pulls_get_diff := Some None;
     issues_createComment_ok := true;
     pulls_createReview_ok := true;
     webhook_responds := true;
     backend := fun _ => Rejects;
     JSON_parse := parseExample;
     URL_valid := fun _ => true;
     StringToNumber := numberExample;
     ObjectToNumber := fun _ => Some NaN |}.

Definition exampleConfig (testsOnly : bool) : Config :=
  {| AI_PROVIDER := "gemini";
     API_KEY := "key";
     AVALIAR_TEST_PR := testsOnly;
     WEBHOOK_URL := EmptyString;
     exclude := EmptyString |}.


Definition exampleComment : ReviewComment :=
  {| body := Some (JStr "rename"); path := "src/util.ts"; line := Finite 12 |}.

(** The details [getPRDetails] returns for an event with number [n] and
    author [login], given the answers of the platform. *)
Definition prDetailsOf (eventData : Event) (n : Z) (login : string)
    (prData : option string * option string) (userName : option string) : PRDetails :=
  {| owner := repository_owner_login eventData;
     repo := repository_name eventData;
     pull_number := n;
     title := orEmpty (fst prData);
     description := orEmpty (snd prData);
     author_login := login;
     author_name := if truthy userName then orEmpty userName else login |}.

(** The three reads every processed run starts with. *)
Definition fetchCalls (pr : PRDetails) : list Call :=
  [ PullsGet (owner pr) (repo pr) (pull_number pr);
    UsersGetByUsername (author_login pr);
    PullsGetDiff (owner pr) (repo pr) (pull_number pr) ].

Definition warningCall (pr : PRDetails) (testAnalysis : TestAnalysisResult) : Call :=
  IssuesCreateComment (owner pr) (repo pr) (pull_number pr)
    (TestWarning (missingTests testAnalysis)).

Definition approvalCall (s : Stage) : Call :=
  PullsCreateReview (owner (stage_prDetails s)) (repo (stage_prDetails s))
    (pull_number (stage_prDetails s)) [] APPROVE (Some (approvalBody s)).

Definition commentsCall (s : Stage) (comments : list ReviewComment) : Call :=
  PullsCreateReview (owner (stage_prDetails s)) (repo (stage_prDetails s))
    (pull_number (stage_prDetails s)) comments COMMENT None.

(** How a call to [createReview] ends. *)
Definition reviewOutcome (w : World) : Outcome unit :=
  if pulls_createReview_ok w then Ok tt else Throw PlatformFault.


Definition isExemptionRequest (c : Call) : bool :=
  match c with ProcessReason (ExemptionPrompt _) false => true | _ => false end.

(** The hunks [analyzeCode] sends for review, in the order it walks them:
    those of the files that are not deleted, each with its file. *)
Definition reviewableHunks (parsedDiff : list File) : list (File * Chunk) :=
  flat_map (fun file =>
              if isDeleted file then []
              else map (fun chunk => (file, chunk)) (chunks file))
           parsedDiff.

(** The request [analyzeCode] issues for a hunk. *)
Definition reviewRequest (prDetails : PRDetails) (hunkOf : File * Chunk) : Call :=
  ProcessReason (createPrompt (fst hunkOf) (snd hunkOf) prDetails) true.

(** The webhook request is made: a URL is configured and it parses. *)
Definition webhookSent (cfg : Config) (w : World) : bool :=
  negb (String.eqb (WEBHOOK_URL cfg) EmptyString) && URL_valid w (WEBHOOK_URL cfg).

(** The body of the loops of [analyzeCode] for one hunk: the comments it
    adds. *)
Definition reviewHunk (cfg : Config) (w : World) (prDetails : PRDetails)
    (hunkOf : File * Chunk) : M (list ReviewComment) :=
  analyzeChunks cfg w prDetails (fst hunkOf) [ snd hunkOf ] [].

(** The number [createComment] makes of the [lineNumber] of an element. *)
Definition lineOf (w : World) (item : json) : Outcome number :=
  andThen (getProperty item "lineNumber") (Number w).

(** The line of the element can be made. *)
Definition converts (w : World) (item : json) : bool :=
  match lineOf w item with
  | Ok _ => true
  | _ => false
  end.

(** The hunks are reviewed in turn from the trace [t], and [result] is
    where that ends: after the last hunk, or at the first hunk whose review
    throws, right after its request. *)
Fixpoint inTurn (cfg : Config) (w : World) (prDetails : PRDetails)
    (hunks : list (File * Chunk)) (t : list Call)
    (result : Outcome (list ReviewComment) * list Call) : Prop :=
  match hunks with
  | [] => snd result = t /\ exists comments, fst result = Ok comments
  | h :: hunks' =>
      match fst (reviewHunk cfg w prDetails h t) with
      | Ok _ => inTurn cfg w prDetails hunks' (t ++ [ reviewRequest prDetails h ]) result
      | Throw e => result = (Throw e, t ++ [ reviewRequest prDetails h ])
      | Pending => False
      end
  end.

(** The calls that change something outside: comments, reviews, webhook
    and requests to the backend; the three reads are the rest. *)
Definition isRead (c : Call) : bool :=
  match c with
  | PullsGet _ _ _ | UsersGetByUsername _ | PullsGetDiff _ _ _ => true
  | _ => false
  end.

(** [v.name] where [v] is not [null]: the value, or [undefined]. *)
Definition property (v : json) (name : string) : option json :=
  match getProperty v name with
  | Ok value => value
  | _ => None
  end.

(** The characters that mean something in a glob pattern. *)
Definition isGlobMeta (c : ascii) : bool :=
  existsb (Ascii.eqb c)
    [ "*"; "?"; "["; "]"; "{"; "}"; "("; ")"; "!"; "+"; "@"; "#"; "|"; "\" ]%char.

(** A string without glob characters. *)
Definition plain (s : string) : bool := JS.allChars (fun c => negb (isGlobMeta c)) s.



(** The directory names among [TEST_PATTERNS]. *)
Definition testDirectories : list string :=
  [ "test"; "tests"; "__tests__"; "testing"; "pytest"; "unittest" ].

(* ================================================================== *)
(** * Properties *)
(* ================================================================== *)

(* ------------------------------------------------------------------ *)
(** ** Strings *)
(* ------------------------------------------------------------------ *)

Section StringFacts.

Import JS.

Lemma append_assoc (a b c : string) : ((a ++ b) ++ c = a ++ (b ++ c))%string.
Proof. induction a as [|x a IH]; simpl; [reflexivity | now rewrite IH]. Qed.

Lemma startsWith_app (p rest : string) : startsWith (p ++ rest)%string p = true.
Proof.
  induction p as [|c p IH]; simpl.
  - destruct rest; reflexivity.
  - now rewrite Ascii.eqb_refl.
Qed.

Lemma startsWith_split (s p : string) :
  startsWith s p = true -> exists rest, s = (p ++ rest)%string.
Proof.
  revert s; induction p as [|c p IH]; intros s H.
  - exists s; reflexivity.
  - destruct s as [|d s]; simpl in H; [discriminate|].
    apply andb_true_iff in H as [Hc Hs].
    apply Ascii.eqb_eq in Hc; subst d.
    destruct (IH _ Hs) as [rest ->].
    exists rest; reflexivity.
Qed.

Lemma startsWith_prefix (a b p : string) :
  startsWith a p = true -> startsWith (a ++ b)%string p = true.
Proof.
  intros H; destruct (startsWith_split _ _ H) as [rest ->].
  rewrite append_assoc. apply startsWith_app.
Qed.

Lemma length_app (a b : string) :
  String.length (a ++ b) = (String.length a + String.length b)%nat.
Proof. induction a as [|x a IH]; simpl; [reflexivity | now rewrite IH]. Qed.

(** One step of [trimStart]: nothing is removed, or one white space
    character [c] is. *)
Lemma trimStart_step (s : string) :
  trimStart s = s \/
  exists c rest,
    s = (c ++ rest)%string /\ c <> EmptyString /\
    forall x, trimStart (c ++ x) = trimStart x.
Proof.
  destruct s as [|a s1]; [now left|].
  destruct (isWhiteSpace a) eqn:Ha.
  { right. exists (String a EmptyString), s1. split; [reflexivity|].
    split; [discriminate|]. intros x. cbn [append trimStart]. now rewrite Ha. }
  destruct s1 as [|b s2]; [left; cbn [trimStart]; now rewrite Ha|].
  destruct (isWhiteSpace2 a b) eqn:Hab.
  { right. exists (String a (String b EmptyString)), s2. split; [reflexivity|].
    split; [discriminate|]. intros x. cbn [append trimStart]. now rewrite Ha, Hab. }
  destruct s2 as [|c s3]; [left; cbn [trimStart]; now rewrite Ha, Hab|].
  destruct (isWhiteSpace3 a b c) eqn:Habc.
  - right. exists (String a (String b (String c EmptyString))), s3. split; [reflexivity|].
    split; [discriminate|]. intros x. cbn [append trimStart]. now rewrite Ha, Hab, Habc.
  - left. cbn [trimStart]. now rewrite Ha, Hab, Habc.
Qed.

Lemma trimStart_split (s : string) :
  exists ws, blank ws = true /\ s = (ws ++ trimStart s)%string.
Proof.
  remember (String.length s) as n eqn:Hn.
  revert s Hn. induction n as [n IH] using lt_wf_ind. intros s Hn.
  destruct (trimStart_step s) as [Hkeep | [c [rest [Hs [Hc Hskip]]]]].
  - exists EmptyString. split; [reflexivity | now rewrite Hkeep].
  - subst s. rewrite length_app in Hn.
    destruct (IH (String.length rest)) with (s := rest) as [ws [Hws Hrest]];
      [destruct c; [contradiction | simpl in Hn; lia] | reflexivity |].
    exists (c ++ ws)%string. split.
    + unfold blank in *. now rewrite Hskip.
    + rewrite Hskip, append_assoc. now rewrite <- Hrest.
Qed.

Lemma trimStart_app_blank (ws s : string) :
  blank ws = true -> trimStart (ws ++ s)%string = trimStart s.
Proof.
  remember (String.length ws) as n eqn:Hn.
  revert ws Hn. induction n as [n IH] using lt_wf_ind. intros ws Hn Hws.
  unfold blank in Hws. apply String.eqb_eq in Hws.
  destruct (trimStart_step ws) as [Hkeep | [c [rest [Hc [Hne Hskip]]]]].
  - rewrite Hkeep in Hws. now subst ws.
  - subst ws. rewrite length_app in Hn. rewrite Hskip in Hws.
    rewrite append_assoc, Hskip.
    apply (IH (String.length rest)); [|reflexivity|].
    + destruct c; [contradiction | simpl in Hn; lia].
    + unfold blank. now rewrite Hws.
Qed.

Lemma trimStart_cons (c : ascii) (s : string) :
  startsWhiteSpace c = false -> trimStart (String c s) = String c s.
Proof.
  unfold startsWhiteSpace. cbn [existsb]. intros H.
  repeat (apply orb_false_iff in H as [? H]).
  destruct s as [|b [|d s]]; cbn [trimStart];
    unfold isWhiteSpace2, isWhiteSpace3;
    repeat match goal with Heq : _ = false |- _ => rewrite Heq; clear Heq end;
    reflexivity.
Qed.

Lemma blank_cons (c : ascii) (s : string) :
  startsWhiteSpace c = false -> blank (String c s) = false.
Proof. intros Hc. unfold blank. now rewrite trimStart_cons. Qed.

Lemma trimEnd_prefix (s : string) : exists tail, s = (trimEnd s ++ tail)%string.
Proof.
  induction s as [|c s [tail Hs]].
  - exists EmptyString; reflexivity.
  - cbn [trimEnd]. destruct (blank (String c s)).
    + exists (String c s); reflexivity.
    + exists tail; simpl. now rewrite <- Hs.
Qed.

Lemma trimEnd_cons (c : ascii) (s : string) :
  startsWhiteSpace c = false -> trimEnd (String c s) = String c (trimEnd s).
Proof. intros Hc. cbn [trimEnd]. now rewrite blank_cons. Qed.

(** The command test, in terms of the text of the comment. *)
Lemma isCodeReviewCommand_iff (body : string) :
  isCodeReviewCommand body = true <->
  exists ws rest,
    blank ws = true /\ body = (ws ++ "/code_review" ++ rest)%string.
Proof.
  unfold isCodeReviewCommand, trim; split.
  - intros H.
    destruct (trimStart_split body) as [ws [Hws Hbody]].
    destruct (trimEnd_prefix (trimStart body)) as [tail Htail].
    rewrite Htail in Hbody.
    apply startsWith_prefix with (b := tail) in H.
    destruct (startsWith_split _ _ H) as [rest Hrest].
    exists ws, rest; split; [exact Hws|].
    now rewrite Hbody, Hrest.
  - intros [ws [rest [Hws ->]]].
    rewrite trimStart_app_blank by exact Hws.
    cbn [append].
    rewrite trimStart_cons by reflexivity.
    repeat (rewrite trimEnd_cons by reflexivity).
    apply (startsWith_app "/code_review" (trimEnd rest)).
Qed.

Lemma length_drop (n : nat) (s : string) :
  String.length (drop n s) = (String.length s - n)%nat.
Proof.
  revert s; induction n as [|n IH]; intros [|c s]; simpl; auto.
Qed.

Lemma lastIndexOf_from_absent (s p : string) (i : Z) :
  p <> EmptyString -> includes s p = false -> lastIndexOf_from i s p = (-1)%Z.
Proof.
  intros Hp; revert i; induction s as [|c s IH]; intros i H; simpl in *.
  - destruct p; [contradiction | reflexivity].
  - apply orb_false_iff in H as [Hhead Htail].
    rewrite (IH (i + 1)%Z Htail). simpl.
    destruct p as [|d p]; [contradiction|]. simpl in Hhead.
    destruct s; simpl in *; now rewrite Hhead.
Qed.

(** Without a dot, [lastIndexOf] is -1 and the "extension" is the last
    character of the name (nothing for the empty name). *)
Lemma extensionOf_no_dot (filename : string) :
  includes filename "." = false -> (String.length (extensionOf filename) <= 1)%nat.
Proof.
  intros H. unfold extensionOf, lastIndexOf.
  rewrite lastIndexOf_from_absent by (congruence || exact H).
  unfold slice. change (-1 <? 0)%Z with true. cbv iota.
  rewrite length_drop. lia.
Qed.

Lemma short_not_testable (ext : string) :
  (String.length ext <= 1)%nat -> existsb (String.eqb ext) testableExtensions = false.
Proof.
  destruct ext as [|c [|d ext]]; simpl; intros H.
  - reflexivity.
  - destruct (Ascii.eqb c "."); reflexivity.
  - lia.
Qed.

Lemma allChars_app (f : ascii -> bool) (a b : string) :
  allChars f (a ++ b)%string = allChars f a && allChars f b.
Proof.
  induction a as [|c a IH]; simpl; [reflexivity|]. now rewrite IH, andb_assoc.
Qed.





End StringFacts.


(* ------------------------------------------------------------------ *)
(** ** Globs *)
(* ------------------------------------------------------------------ *)

Section GlobFacts.

Import JS.

Lemma wild_star (f : string) : wild "*" f = true.
Proof.
  induction f as [|c f IH]; [reflexivity|].
  simpl in *. exact IH.
Qed.

(** A literal followed by a star asks for a prefix. *)
Lemma wild_prefix (lit f : string) :
  allChars (fun c => negb (Ascii.eqb c "*")) lit = true ->
  wild (lit ++ "*") f = startsWith f lit.
Proof.
  revert f; induction lit as [|c lit IH]; intros f Hlit.
  - cbn [append]. rewrite (wild_star f). now destruct f.
  - simpl in Hlit. apply andb_true_iff in Hlit as [Hc Hlit].
    apply negb_true_iff in Hc.
    cbn [append]. change (wild (String c (lit ++ "*")) f)
      with (if Ascii.eqb c "*" then
              (fix star (f : string) : bool :=
                 wild (lit ++ "*") f ||
                 match f with
                 | EmptyString => false
                 | String _ f' => star f'
                 end) f
            else match f with
                 | EmptyString => false
                 | String d f' => Ascii.eqb c d && wild (lit ++ "*") f'
                 end).
    rewrite Hc. destruct f as [|d f]; [reflexivity|].
    simpl. now rewrite IH.
Qed.

(** A literal between two stars asks for a substring. *)
Lemma wild_substring (lit f : string) :
  allChars (fun c => negb (Ascii.eqb c "*")) lit = true ->
  wild (String "*" (lit ++ "*")) f = includes f lit.
Proof.
  intros Hlit.
  change (wild (String "*" (lit ++ "*")) f)
    with ((fix star (f : string) : bool :=
             wild (lit ++ "*") f ||
             match f with
             | EmptyString => false
             | String _ f' => star f'
             end) f).
  induction f as [|c f IH].
  - now rewrite (wild_prefix lit EmptyString Hlit).
  - rewrite (wild_prefix lit (String c f) Hlit).
    change (includes (String c f) lit)
      with (startsWith (String c f) lit || includes f lit).
    now rewrite <- IH.
Qed.

(** After a globstar, a pattern part only has to match the last part of a
    path without hidden parts. *)
Lemma matchOne_last (p : string) (file : list string) :
  file <> [] ->
  existsb startsWithDot file = false ->
  partMatch p (last file EmptyString) = true ->
  matchOne [ GLOBSTAR; Part p ] file = true.
Proof.
  intros Hne Hdot Hlast.
  destruct file as [|f0 file]; [contradiction|]. clear Hne.
  cbn [matchOne].
  revert f0 Hdot Hlast. induction file as [|f1 file IH]; intros f0 Hdot Hlast.
  - cbn [last] in Hlast. cbn [matchOne]. now rewrite Hlast.
  - cbn [existsb] in Hdot. apply orb_false_iff in Hdot as [Hd0 Hdot].
    rewrite Hd0. cbn [negb andb].
    change (last (f0 :: f1 :: file) EmptyString) with (last (f1 :: file) EmptyString) in Hlast.
    rewrite (IH f1 Hdot Hlast). apply orb_true_r.
Qed.

End GlobFacts.

(** A path without hidden parts whose last part contains test, Test, spec
    or Spec matches a test pattern. *)
Lemma named_like_a_test (filename : string) :
  let name := last (slashSplit filename) EmptyString in
  existsb startsWithDot (slashSplit filename) = false ->
  JS.includes name "test" || JS.includes name "Test"
    || JS.includes name "spec" || JS.includes name "Spec" = true ->
  matchesTestPattern filename = true.
Proof.
  cbv zeta. intros Hdot Hname.
  assert (Hsplit : slashSplit filename <> []).
  { unfold slashSplit. destruct filename as [|c filename]; [discriminate|].
    simpl. destruct (Ascii.eqb c "/"); [discriminate|].
    destruct (slashSplit_aux false filename); discriminate. }
  assert (Hlastdot : startsWithDot (last (slashSplit filename) EmptyString) = false).
  { destruct (existsb_exists startsWithDot (slashSplit filename)) as [_ Hex].
    destruct (startsWithDot (last (slashSplit filename) EmptyString)) eqn:Hd;
      [|reflexivity].
    rewrite Hex in Hdot; [discriminate|].
    exists (last (slashSplit filename) EmptyString). split; [|exact Hd].
    destruct (exists_last Hsplit) as [l' [a ->]]. rewrite last_last.
    apply in_or_app. right. now left. }
  assert (Hpat : forall lit,
            In lit [ "test"; "Test"; "spec"; "Spec" ] ->
            JS.includes (last (slashSplit filename) EmptyString) lit = true ->
            minimatch filename ("**/*" ++ lit ++ "*") = true).
  { intros lit Hin Hinc.
    assert (Hpart : partMatch (String "*" (lit ++ "*"))
                      (last (slashSplit filename) EmptyString) = true).
    { unfold partMatch. cbn [JS.startsWith Ascii.eqb Bool.eqb andb].
      replace (JS.startsWith (lit ++ "*") EmptyString) with true
        by (now destruct (lit ++ "*")%string).
      rewrite Hlastdot, wild_substring, Hinc.
      - destruct (last (slashSplit filename) EmptyString); [|reflexivity].
        simpl in Hin. destruct Hin as [<-|[<-|[<-|[<-|[]]]]]; discriminate Hinc.
      - simpl in Hin. destruct Hin as [<-|[<-|[<-|[<-|[]]]]]; reflexivity. }
    simpl in Hin. destruct Hin as [<-|[<-|[<-|[<-|[]]]]];
      apply (matchOne_last _ _ Hsplit Hdot Hpart). }
  unfold matchesTestPattern. apply existsb_exists.
  repeat (apply orb_true_iff in Hname as [Hname|Hname]).
  - exists "**/*test*". split; [simpl; tauto | now apply (Hpat "test"); [simpl; tauto|]].
  - exists "**/*Test*". split; [simpl; tauto | now apply (Hpat "Test"); [simpl; tauto|]].
  - exists "**/*spec*". split; [simpl; tauto | now apply (Hpat "spec"); [simpl; tauto|]].
  - exists "**/*Spec*". split; [simpl; tauto | now apply (Hpat "Spec"); [simpl; tauto|]].
Qed.

(* ------------------------------------------------------------------ *)
(** ** Traces *)
(* ------------------------------------------------------------------ *)

Section TraceFacts.

Context {A B : Type}.
Variable P : Call -> bool.

Lemma emits_ret (a : A) : emits P (ret a).
Proof. intros t; exists []; simpl; now rewrite app_nil_r. Qed.

Lemma emits_throw (e : Error) : emits P (@throw A e).
Proof. intros t; exists []; simpl; now rewrite app_nil_r. Qed.

Lemma emits_liftOutcome (o : Outcome A) : emits P (liftOutcome o).
Proof. intros t; exists []; simpl; now rewrite app_nil_r. Qed.

Lemma emits_request (c : Call) (answer : option A) (e : Error) :
  P c = true -> emits P (request c answer e).
Proof. intros Hc t; exists [c]; simpl; now rewrite Hc. Qed.

Lemma emits_unresolved (c : Call) (answered : bool) (e : Error) :
  P c = true -> emits P (@unresolved A c answered e).
Proof. intros Hc t; exists [c]; simpl; now rewrite Hc. Qed.

Lemma emits_bind (m : M A) (k : A -> M B) :
  emits P m -> (forall a, emits P (k a)) -> emits P (bind m k).
Proof.
  intros Hm Hk t. unfold bind.
  destruct (Hm t) as [l [Hl Pl]].
  destruct (m t) as [[a|e|] t'] eqn:E; simpl in Hl; subst t'.
  - destruct (Hk a (t ++ l)) as [l' [Hl' Pl']].
    exists (l ++ l'). rewrite Hl', app_assoc, forallb_app, Pl, Pl'. now split.
  - exists l. now split.
  - exists l. now split.
Qed.

Lemma emits_tryCatch (m : M A) (handler : Error -> M A) :
  emits P m -> (forall e, emits P (handler e)) -> emits P (tryCatch m handler).
Proof.
  intros Hm Hh t. unfold tryCatch.
  destruct (Hm t) as [l [Hl Pl]].
  destruct (m t) as [[a|e|] t'] eqn:E; simpl in Hl; subst t'.
  - exists l. now split.
  - destruct (Hh e (t ++ l)) as [l' [Hl' Pl']].
    exists (l ++ l'). rewrite Hl', app_assoc, forallb_app, Pl, Pl'. now split.
  - exists l. now split.
Qed.

Lemma settles_ret (a : A) : settles (ret a).
Proof. intros t; discriminate. Qed.

Lemma settles_throw (e : Error) : settles (@throw A e).
Proof. intros t; discriminate. Qed.

Lemma settles_request (c : Call) (answer : option A) (e : Error) :
  settles (request c answer e).
Proof. intros t; unfold request; destruct answer; discriminate. Qed.

Lemma settles_bind (m : M A) (k : A -> M B) :
  settles m -> (forall a, settles (k a)) -> settles (bind m k).
Proof.
  intros Hm Hk t. unfold bind. specialize (Hm t).
  destruct (m t) as [[a|e|] t']; [apply Hk | discriminate | now cbn in Hm].
Qed.

Lemma settles_tryCatch (m : M A) (handler : Error -> M A) :
  settles m -> (forall e, settles (handler e)) -> settles (tryCatch m handler).
Proof.
  intros Hm Hh t. unfold tryCatch. specialize (Hm t).
  destruct (m t) as [[a|e|] t']; [discriminate | apply Hh | now cbn in Hm].
Qed.

Lemma emits_weaken (Q : Call -> bool) (m : M A) :
  (forall c, P c = true -> Q c = true) -> emits P m -> emits Q m.
Proof.
  intros HPQ Hm t. destruct (Hm t) as [l [Hl Pl]].
  exists l; split; [exact Hl|].
  rewrite forallb_forall in *. auto.
Qed.

End TraceFacts.

Lemma emits_perform (P : Call -> bool) (c : Call) (ok : bool) (e : Error) :
  P c = true -> emits P (perform c ok e).
Proof. apply emits_request. Qed.

Lemma settles_perform (c : Call) (ok : bool) (e : Error) : settles (perform c ok e).
Proof. apply settles_request. Qed.

Lemma tryCatch_rethrow {A} (m : M A) (t : list Call) :
  tryCatch m (fun error => throw error) t = m t.
Proof. unfold tryCatch, throw. now destruct (m t) as [[a|e|] t']. Qed.

Lemma filter_none (P : Call -> bool) (l : list Call) :
  forallb (fun c => negb (P c)) l = true -> filter P l = [].
Proof.
  induction l as [|c l IH]; simpl; [reflexivity|].
  intros H. apply andb_true_iff in H as [Hc Hl].
  apply negb_true_iff in Hc. rewrite Hc. auto.
Qed.

Lemma filter_all (P : Call -> bool) (l : list Call) :
  forallb P l = true -> filter P l = l.
Proof.
  induction l as [|c l IH]; simpl; [reflexivity|].
  intros H. apply andb_true_iff in H as [Hc Hl]. rewrite Hc, IH; auto.
Qed.

Lemma forallb_impl (P Q : Call -> bool) (l : list Call) :
  (forall c, P c = true -> Q c = true) -> forallb P l = true -> forallb Q l = true.
Proof. rewrite !forallb_forall. auto. Qed.

(* ------------------------------------------------------------------ *)
(** ** The calls of each step *)
(* ------------------------------------------------------------------ *)

Lemma emits_ask (P : Call -> bool) w c : P c = true -> emits P (ask w c).
Proof. intros HP t. unfold ask. now apply emits_request. Qed.

Lemma emits_processReason (P : Call -> bool) w provider prompt jsonResponse :
  P (ProcessReason prompt jsonResponse) = true ->
  emits P (processReason w provider prompt jsonResponse).
Proof.
  intros HP. unfold processReason.
  apply emits_bind; [now apply emits_ask|]. intros text.
  destruct provider; [apply emits_ret|].
  destruct (String.eqb text EmptyString); [apply emits_throw | apply emits_ret].
Qed.

Lemma emits_getAIProvider (P : Call -> bool) cfg : emits P (getAIProvider cfg).
Proof.
  unfold getAIProvider.
  destruct (String.eqb (API_KEY cfg) EmptyString); [apply emits_throw|].
  destruct (String.eqb (AI_PROVIDER cfg) "gemini"); apply emits_ret.
Qed.

Lemma emits_getAIResponse cfg w file_to t d chunk :
  emits isReviewRequest (getAIResponse cfg w (ReviewPrompt file_to t d chunk)).
Proof.
  unfold getAIResponse.
  apply emits_tryCatch; [|intros; apply emits_throw].
  apply emits_bind; [apply emits_getAIProvider|]. intros provider.
  apply emits_bind; [now apply emits_processReason|]. intros response.
  destruct (JSON_parse w response); [apply emits_liftOutcome | apply emits_throw].
Qed.

Lemma emits_analyzeChunks cfg w prDetails file chunks comments :
  emits isReviewRequest (analyzeChunks cfg w prDetails file chunks comments).
Proof.
  revert comments; induction chunks as [|chunk chunks IH]; intros comments; simpl.
  - apply emits_ret.
  - apply emits_bind; [apply emits_getAIResponse|]. intros aiResponse.
    destruct aiResponse as [reviews|]; [|apply IH].
    destruct (truthyValue (Some reviews)); [|apply IH].
    apply emits_bind; [apply emits_liftOutcome|]. intros newComments. apply IH.
Qed.

Lemma emits_analyzeFiles cfg w prDetails parsedDiff comments :
  emits isReviewRequest (analyzeFiles cfg w prDetails parsedDiff comments).
Proof.
  revert comments; induction parsedDiff as [|file parsedDiff IH]; intros comments.
  - apply emits_ret.
  - simpl. destruct (isDeleted file); [apply IH|].
    apply emits_bind; [apply emits_analyzeChunks | intros; apply IH].
Qed.

Lemma emits_analyzeCode cfg w parsedDiff prDetails :
  emits isReviewRequest (analyzeCode cfg w parsedDiff prDetails).
Proof. apply emits_analyzeFiles. Qed.

(** Nothing but the webhook can leave a promise pending. *)
Lemma settles_liftOutcome {A} (o : Outcome A) : o <> Pending -> settles (liftOutcome o).
Proof. intros Ho t. exact Ho. Qed.

Lemma getProperty_settles (v : json) (name : string) : getProperty v name <> Pending.
Proof. destruct v; discriminate. Qed.

Lemma Number_settles w (value : option json) : Number w value <> Pending.
Proof.
  destruct value as [[]|]; cbn; try discriminate;
    destruct (ObjectToNumber w _); discriminate.
Qed.

Lemma createComment_settles w file chunk reviews :
  createComment w file chunk reviews <> Pending.
Proof.
  destruct reviews; try discriminate. cbn [createComment].
  induction items as [|item items IH]; [discriminate|].
  cbn [flatMap]. unfold commentOf at 1.
  destruct (negb (truthy (to file))).
  - cbn [andThen]. destruct (flatMap (commentOf w file) items); [discriminate.. | contradiction].
  - assert (Hp := getProperty_settles item "reviewComment").
    destruct (getProperty item "reviewComment"); [|discriminate | contradiction].
    assert (Hq := getProperty_settles item "lineNumber").
    cbn [andThen].
    destruct (getProperty item "lineNumber") as [lineNumber| |]; [|discriminate | contradiction].
    cbn [andThen]. assert (Hn := Number_settles w lineNumber).
    destruct (Number w lineNumber); [|discriminate | contradiction].
    cbn [andThen]. destruct (flatMap (commentOf w file) items); [discriminate.. | contradiction].
Qed.

Lemma settles_ask w c : settles (ask w c).
Proof. intros t. unfold ask. apply settles_request. Qed.

Lemma settles_processReason w provider prompt jsonResponse :
  settles (processReason w provider prompt jsonResponse).
Proof.
  unfold processReason. apply settles_bind; [apply settles_ask|]. intros text.
  destruct provider; [apply settles_ret|].
  destruct (String.eqb text EmptyString); [apply settles_throw | apply settles_ret].
Qed.

Lemma settles_getAIProvider cfg : settles (getAIProvider cfg).
Proof.
  unfold getAIProvider.
  destruct (String.eqb (API_KEY cfg) EmptyString); [apply settles_throw|].
  destruct (String.eqb (AI_PROVIDER cfg) "gemini"); apply settles_ret.
Qed.

Lemma settles_getAIResponse cfg w prompt : settles (getAIResponse cfg w prompt).
Proof.
  unfold getAIResponse.
  apply settles_tryCatch; [|intros; apply settles_throw].
  apply settles_bind; [apply settles_getAIProvider|]. intros provider.
  apply settles_bind; [apply settles_processReason|]. intros response.
  destruct (JSON_parse w response); [|apply settles_throw].
  apply settles_liftOutcome, getProperty_settles.
Qed.

Lemma settles_analyzeChunks cfg w prDetails file chunks comments :
  settles (analyzeChunks cfg w prDetails file chunks comments).
Proof.
  revert comments; induction chunks as [|chunk chunks IH]; intros comments; simpl.
  - apply settles_ret.
  - apply settles_bind; [apply settles_getAIResponse|]. intros aiResponse.
    destruct aiResponse as [reviews|]; [|apply IH].
    destruct (truthyValue (Some reviews)); [|apply IH].
    apply settles_bind; [|intros; apply IH].
    apply settles_liftOutcome, createComment_settles.
Qed.

Lemma settles_analyzeFiles cfg w prDetails parsedDiff comments :
  settles (analyzeFiles cfg w prDetails parsedDiff comments).
Proof.
  revert comments; induction parsedDiff as [|file parsedDiff IH]; intros comments.
  - apply settles_ret.
  - simpl. destruct (isDeleted file); [apply IH|].
    apply settles_bind; [apply settles_analyzeChunks | intros; apply IH].
Qed.

Lemma settles_analyzeCode cfg w parsedDiff prDetails :
  settles (analyzeCode cfg w parsedDiff prDetails).
Proof. apply settles_analyzeFiles. Qed.

Lemma getPRDetails_run w eventData n login prData userName t :
  pullNumberAndAuthor eventData = Ok (n, login) ->
  pulls_get w = Some prData ->
  users_getByUsername w = Some userName ->
  getPRDetails w eventData t =
    (Ok (prDetailsOf eventData n login prData userName),
     t ++ [ PullsGet (repository_owner_login eventData) (repository_name eventData) n;
            UsersGetByUsername login ]).
Proof.
  intros Hn Hpr Hu.
  unfold getPRDetails, bind, liftOutcome, request, ret.
  rewrite Hn, Hpr, Hu. cbn. now rewrite <- app_assoc.
Qed.

Lemma emits_extractTestExemptionReason cfg w description :
  emits isExemptionRequest (extractTestExemptionReason cfg w description).
Proof.
  unfold extractTestExemptionReason.
  apply emits_tryCatch; [|intros; apply emits_ret].
  apply emits_bind; [apply emits_getAIProvider|]. intros provider.
  apply emits_bind; [now apply emits_processReason|]. intros response.
  destruct (String.eqb response EmptyString); apply emits_ret.
Qed.

(** [extractTestExemptionReason] in closed form: nothing is asked without a
    key; a rejected request and an empty answer both give [null]. *)
Lemma extractTestExemptionReason_run cfg w description t :
  extractTestExemptionReason cfg w description t =
    if String.eqb (API_KEY cfg) EmptyString then (Ok None, t)
    else
      (Ok match backend w (aiRequests t) with
          | Rejects => None
          | Resolves text =>
              if String.eqb text EmptyString then None else Some (JS.trim text)
          end,
       t ++ [ ProcessReason (ExemptionPrompt description) false ]).
Proof.
  unfold extractTestExemptionReason, tryCatch, bind, getAIProvider, processReason, bind,
    ask, request, ret, throw.
  destruct (String.eqb (API_KEY cfg) EmptyString); [reflexivity|].
  destruct (String.eqb (AI_PROVIDER cfg) "gemini");
    destruct (backend w (aiRequests t)) as [|text]; cbn beta iota; try reflexivity;
    destruct (String.eqb text EmptyString) eqn:Htext; cbn beta iota;
    rewrite ?Htext; reflexivity.
Qed.

Lemma extractTestExemptionReason_total cfg w description t :
  exists r, fst (extractTestExemptionReason cfg w description t) = Ok r.
Proof.
  rewrite extractTestExemptionReason_run.
  destruct (String.eqb (API_KEY cfg) EmptyString); cbn [fst]; eauto.
Qed.

(** The exemption details never fail; the backend is asked only when a
    keyword is present. *)
Lemma getTestExemptionDetails_run cfg w description t :
  exists ex l,
    getTestExemptionDetails cfg w description t = (Ok ex, t ++ l) /\
    isExempt ex = hasTestExemption description /\
    forallb isExemptionRequest l = true /\
    (hasTestExemption description = false ->
       l = [] /\ ex = {| isExempt := false; reason := EmptyString |}).
Proof.
  unfold getTestExemptionDetails.
  destruct (hasTestExemption description) eqn:Hex; simpl.
  - unfold bind, ret.
    destruct (emits_extractTestExemptionReason cfg w description t) as [l [Hl Pl]].
    destruct (extractTestExemptionReason_total cfg w description t) as [r Hr].
    destruct (extractTestExemptionReason cfg w description t) as [o t'].
    simpl in Hl, Hr; subst o t'.
    eexists; exists l; repeat split; try reflexivity; [exact Pl | discriminate..].
  - exists {| isExempt := false; reason := EmptyString |}, [].
    unfold ret. rewrite app_nil_r. repeat split; reflexivity.
Qed.

(* ------------------------------------------------------------------ *)
(** ** The event gate and the test check *)
(* ------------------------------------------------------------------ *)

Lemma gate_finds_pull_number eventData :
  shouldProcessPR eventData = true ->
  exists n login, pullNumberAndAuthor eventData = Ok (n, login).
Proof.
  unfold shouldProcessPR, issueIsPullRequest, pullNumberAndAuthor.
  destruct (pullRequestIssue eventData) as [i|]; [eauto|].
  destruct (comment eventData) as [commentBody|]; [discriminate|].
  destruct (pull_request eventData) as [pr|]; [eauto | discriminate].
Qed.

Lemma gate_rejects cfg w eventData :
  shouldProcessPR eventData = false -> run cfg w eventData = (Ok tt, []).
Proof.
  intros H. unfold run, main. rewrite tryCatch_rethrow.
  unfold bind, testPhase. now rewrite H.
Qed.

(** [testPhase] once the event is accepted and the three reads succeed. *)
Lemma testPhase_reached cfg w eventData prData userName files :
  shouldProcessPR eventData = true ->
  pulls_get w = Some prData ->
  users_getByUsername w = Some userName ->
  pulls_get_diff w = Some (Some files) ->
  exists n login ex l,
    pullNumberAndAuthor eventData = Ok (n, login) /\
    isExempt ex = hasTestExemption (orEmpty (snd prData)) /\
    forallb isExemptionRequest l = true /\
    (hasTestExemption (orEmpty (snd prData)) = false ->
       l = [] /\ ex = {| isExempt := false; reason := EmptyString |}) /\
    let pr := prDetailsOf eventData n login prData userName in
    let testAnalysis := analyzeTests files in
    let stage hasIssues := Some (mkStage pr files testAnalysis ex hasIssues) in
    let t0 := fetchCalls pr ++ l in
    testPhase cfg w eventData [] =
      if testsRequiredAndAbsent testAnalysis && negb (isExempt ex) then
        if issues_createComment_ok w then
          if webhookSent cfg w then
            (if webhook_responds w then Pending
             else Ok (if AVALIAR_TEST_PR cfg then None else stage true),
             t0 ++ [ warningCall pr testAnalysis;
                     SendWebhook (WEBHOOK_URL cfg)
                       (webhookData eventData pr files testAnalysis ex) ])
          else
            (Ok (if AVALIAR_TEST_PR cfg then None else stage true),
             t0 ++ [ warningCall pr testAnalysis ])
        else (Throw PlatformFault, t0 ++ [ warningCall pr testAnalysis ])
      else (Ok (stage false), t0).
Proof.
  intros Hgate Hpr Hu Hdiff.
  destruct (gate_finds_pull_number _ Hgate) as [n [login Hn]].
  destruct (getTestExemptionDetails_run cfg w (orEmpty (snd prData))
              (fetchCalls (prDetailsOf eventData n login prData userName)))
    as [ex [l [Hex [Hisex [Pl Hl]]]]].
  exists n, login, ex, l. repeat split; try assumption; try (now apply Hl).
  cbv zeta. unfold testPhase. rewrite Hgate. cbn [negb].
  unfold bind at 1. rewrite (getPRDetails_run w eventData n login prData userName [] Hn Hpr Hu).
  unfold bind at 1. unfold getDiff, request. rewrite Hdiff.
  unfold bind at 1.
  change (description (prDetailsOf eventData n login prData userName))
    with (orEmpty (snd prData)).
  change (([] ++ [PullsGet (repository_owner_login eventData) (repository_name eventData) n;
                  UsersGetByUsername login]) ++
          [PullsGetDiff (owner (prDetailsOf eventData n login prData userName))
             (repo (prDetailsOf eventData n login prData userName))
             (pull_number (prDetailsOf eventData n login prData userName))])
    with (fetchCalls (prDetailsOf eventData n login prData userName)).
  rewrite Hex.
  destruct (testsRequiredAndAbsent (analyzeTests files) && negb (isExempt ex)); [|reflexivity].
  unfold bind, perform, request, sendWebhook, unresolved, tryCatch, ret, throw, warningCall,
    webhookSent.
  destruct (issues_createComment_ok w); [|reflexivity].
  destruct (String.eqb (WEBHOOK_URL cfg) EmptyString) eqn:Hurl; cbn [negb andb].
  - destruct (AVALIAR_TEST_PR cfg); reflexivity.
  - destruct (URL_valid w (WEBHOOK_URL cfg)); cbn [negb];
      [destruct (webhook_responds w); cbn; rewrite <- app_assoc|];
      destruct (AVALIAR_TEST_PR cfg); reflexivity.
Qed.

(* ------------------------------------------------------------------ *)
(** ** The review and the approval *)
(* ------------------------------------------------------------------ *)

Lemma run_phases cfg w eventData :
  run cfg w eventData =
    match testPhase cfg w eventData [] with
    | (Ok (Some s), t0) => reviewPhase cfg w s t0
    | (Ok None, t0) => (Ok tt, t0)
    | (Throw e, t0) => (Throw e, t0)
    | (Pending, t0) => (Pending, t0)
    end.
Proof.
  unfold run, main. rewrite tryCatch_rethrow. unfold bind.
  destruct (testPhase cfg w eventData []) as [[[s|]|e|] t0]; reflexivity.
Qed.

Lemma reviewPhase_tests_only cfg w s t :
  AVALIAR_TEST_PR cfg = true ->
  reviewPhase cfg w s t =
    if stage_hasIssues s then (Ok tt, t)
    else (reviewOutcome w, t ++ [ approvalCall s ]).
Proof.
  intros Hflag. unfold reviewPhase, bind, ret. rewrite Hflag. cbn [negb].
  destruct (stage_hasIssues s); cbn [negb]; [reflexivity|].
  unfold createReviewComment, perform, request, reviewOutcome, approvalCall.
  destruct (pulls_createReview_ok w); reflexivity.
Qed.

Lemma reviewPhase_reviewed cfg w s t comments t1 :
  AVALIAR_TEST_PR cfg = false ->
  analyzeCode cfg w (filteredDiff cfg (stage_parsedDiff s)) (stage_prDetails s) t
    = (Ok comments, t1) ->
  reviewPhase cfg w s t =
    if (0 <? length comments)%nat then (reviewOutcome w, t1 ++ [ commentsCall s comments ])
    else if stage_hasIssues s then (Ok tt, t1)
    else (reviewOutcome w, t1 ++ [ approvalCall s ]).
Proof.
  intros Hflag Hcode. unfold reviewPhase. rewrite Hflag. cbn [negb].
  unfold bind at 1. unfold bind at 1. rewrite Hcode.
  destruct (0 <? length comments)%nat.
  - unfold bind, createReviewComment, perform, request, ret, reviewOutcome, commentsCall.
    destruct (pulls_createReview_ok w); reflexivity.
  - unfold ret. destruct (stage_hasIssues s); cbn [negb]; [reflexivity|].
    unfold createReviewComment, perform, request, reviewOutcome, approvalCall.
    destruct (pulls_createReview_ok w); reflexivity.
Qed.

Lemma reviewPhase_aborted cfg w s t e t1 :
  AVALIAR_TEST_PR cfg = false ->
  analyzeCode cfg w (filteredDiff cfg (stage_parsedDiff s)) (stage_prDetails s) t
    = (Throw e, t1) ->
  reviewPhase cfg w s t = (Throw e, t1).
Proof.
  intros Hflag Hcode. unfold reviewPhase. rewrite Hflag. cbn [negb].
  unfold bind at 1. unfold bind at 1. now rewrite Hcode.
Qed.

(** What a stage handed to the review says about the calls made so far. *)
Lemma testPhase_stage cfg w eventData s t0 :
  testPhase cfg w eventData [] = (Ok (Some s), t0) ->
  stage_testAnalysis s = analyzeTests (stage_parsedDiff s) /\
  stage_hasIssues s =
    testsRequiredAndAbsent (stage_testAnalysis s)
    && negb (isExempt (stage_testExemptionDetails s)) /\
  filter isIssueComment t0 =
    (if stage_hasIssues s then [ warningCall (stage_prDetails s) (stage_testAnalysis s) ]
     else []) /\
  filter isReview t0 = [] /\
  filter isReviewRequest t0 = [] /\
  isExempt (stage_testExemptionDetails s)
    = hasTestExemption (description (stage_prDetails s)) /\
  (stage_hasIssues s = true -> AVALIAR_TEST_PR cfg = false).
Proof.
  intros H.
  destruct (shouldProcessPR eventData) eqn:Hgate.
  2:{ unfold testPhase in H. rewrite Hgate in H. discriminate. }
  destruct (gate_finds_pull_number _ Hgate) as [n [login Hn]].
  destruct (pulls_get w) as [prData|] eqn:Hpr.
  2:{ unfold testPhase, bind, getPRDetails, liftOutcome, request in H.
      rewrite Hgate, Hn, Hpr in H. discriminate. }
  destruct (users_getByUsername w) as [userName|] eqn:Hu.
  2:{ unfold testPhase, bind, getPRDetails, liftOutcome, request in H.
      rewrite Hgate, Hn, Hpr, Hu in H. discriminate. }
  destruct (pulls_get_diff w) as [[files|]|] eqn:Hdiff.
  2,3: unfold testPhase in H; rewrite Hgate in H; cbn [negb] in H;
       unfold bind at 1 in H;
       rewrite (getPRDetails_run w eventData n login prData userName [] Hn Hpr Hu) in H;
       unfold bind, getDiff, request in H; rewrite Hdiff in H; discriminate.
  destruct (testPhase_reached cfg w eventData prData userName files Hgate Hpr Hu Hdiff)
    as [n' [login' [ex [l [_ [Hisex [Pl [_ Hrun]]]]]]]].
  cbv zeta in Hrun. rewrite Hrun in H. clear Hrun.
  assert (Hl : forall P, (forall c, isExemptionRequest c = true -> P c = false) ->
                         filter P l = []).
  { intros P HP. apply filter_none.
    apply forallb_impl with (P := isExemptionRequest); [|exact Pl].
    intros c Hc. now rewrite (HP c Hc). }
  assert (Hi : forall c, isExemptionRequest c = true -> isIssueComment c = false)
    by (intros [] Hc; try discriminate; reflexivity).
  assert (Hr : forall c, isExemptionRequest c = true -> isReview c = false)
    by (intros [] Hc; try discriminate; reflexivity).
  assert (Hq : forall c, isExemptionRequest c = true -> isReviewRequest c = false)
    by (intros [] Hc; try discriminate; destruct prompt; [discriminate | reflexivity]).
  destruct (testsRequiredAndAbsent (analyzeTests files) && negb (isExempt ex)) eqn:Hwarn.
  - destruct (issues_createComment_ok w); [|discriminate].
    destruct (webhookSent cfg w);
      [destruct (webhook_responds w); [discriminate|]|];
      (destruct (AVALIAR_TEST_PR cfg); [discriminate|]);
      inversion H; subst; clear H;
      cbn [stage_testAnalysis stage_parsedDiff stage_hasIssues
             stage_testExemptionDetails stage_prDetails];
      rewrite Hwarn; unfold fetchCalls;
      cbn [app filter isIssueComment isReview isReviewRequest];
      rewrite !filter_app, (Hl _ Hi), (Hl _ Hr), (Hl _ Hq);
      repeat split; try reflexivity; exact Hisex.
  - inversion H; subst; clear H. cbn [stage_testAnalysis stage_parsedDiff stage_hasIssues
      stage_testExemptionDetails stage_prDetails].
    rewrite Hwarn. unfold fetchCalls. cbn [app filter isIssueComment isReview isReviewRequest].
    rewrite (Hl _ Hi), (Hl _ Hr), (Hl _ Hq).
    repeat split; try reflexivity; [exact Hisex | discriminate].
Qed.

Lemma exemption_requests_filtered (P : Call -> bool) (l : list Call) :
  (forall c, isExemptionRequest c = true -> P c = false) ->
  forallb isExemptionRequest l = true -> filter P l = [].
Proof.
  intros HP Pl. apply filter_none.
  apply forallb_impl with (P := isExemptionRequest); [|exact Pl].
  intros c Hc. now rewrite (HP c Hc).
Qed.

Lemma exemption_request_kinds (c : Call) :
  isExemptionRequest c = true ->
  isIssueComment c = false /\ isReview c = false /\ isReviewRequest c = false /\
  isBackendCall c = true.
Proof.
  destruct c; try discriminate. destruct prompt; [discriminate|]. now repeat split.
Qed.

Lemma settles_reviewPhase cfg w s : settles (reviewPhase cfg w s).
Proof.
  unfold reviewPhase, createReviewComment.
  apply settles_bind.
  - destruct (negb (AVALIAR_TEST_PR cfg)); [|apply settles_ret].
    apply settles_bind; [apply settles_analyzeCode|].
    intros comments. destruct (0 <? length comments)%nat; [|apply settles_ret].
    apply settles_bind; [apply settles_perform | intros; apply settles_ret].
  - intros hasIssues. destruct (negb hasIssues); [apply settles_perform | apply settles_ret].
Qed.

Lemma emits_reviewPhase cfg w s :
  emits (fun c => isReviewRequest c || isReview c) (reviewPhase cfg w s).
Proof.
  unfold reviewPhase.
  apply emits_bind.
  - destruct (negb (AVALIAR_TEST_PR cfg)); [|apply emits_ret].
    apply emits_bind.
    + apply emits_weaken with (P := isReviewRequest); [|apply emits_analyzeCode].
      intros c Hc; now rewrite Hc.
    + intros comments. destruct (0 <? length comments)%nat; [|apply emits_ret].
      apply emits_bind; [|intros; apply emits_ret].
      now apply emits_perform.
  - intros hasIssues. destruct (negb hasIssues); [|apply emits_ret].
    now apply emits_perform.
Qed.

(** Every step of [main] only adds to the trace. *)
Ltac emits_any :=
  repeat first
    [ apply emits_ret
    | apply emits_throw
    | apply emits_liftOutcome
    | apply emits_request; reflexivity
    | apply emits_perform; reflexivity
    | apply emits_unresolved; reflexivity
    | apply emits_processReason; reflexivity
    | apply emits_getAIProvider
    | apply emits_bind; [|intros]
    | apply emits_tryCatch; [|intros]
    | match goal with
      | |- emits _ (if ?b then _ else _) => destruct b
      | |- emits _ (match ?x with _ => _ end) => destruct x
      | |- emits _ (let '(_, _) := ?x in _) => destruct x
      end ].

Lemma emits_anyCall {A} (P : Call -> bool) (m : M A) : emits P m -> emits anyCall m.
Proof. apply emits_weaken. reflexivity. Qed.

Lemma emits_testPhase cfg w eventData : emits anyCall (testPhase cfg w eventData).
Proof.
  unfold testPhase, getPRDetails, getDiff, getTestExemptionDetails, sendWebhook.
  emits_any.
Qed.

Lemma snd_bind_extends {A B} (P : Call -> bool) (m : M A) (k : A -> M B) t :
  (forall a, emits P (k a)) -> exists l, snd (bind m k t) = snd (m t) ++ l.
Proof.
  intros Hk. unfold bind. destruct (m t) as [[a|e|] t']; simpl.
  - destruct (Hk a t') as [l [Hl _]]. eauto.
  - exists []. now rewrite app_nil_r.
  - exists []. now rewrite app_nil_r.
Qed.

(** An accepted event makes the run read the pull request first. *)
Lemma run_starts cfg w eventData :
  shouldProcessPR eventData = true ->
  exists n rest,
    snd (run cfg w eventData) =
      PullsGet (repository_owner_login eventData) (repository_name eventData) n :: rest.
Proof.
  intros Hgate.
  destruct (gate_finds_pull_number _ Hgate) as [n [login Hn]].
  exists n. unfold run, main. rewrite tryCatch_rethrow.
  match goal with
  | |- exists rest, snd (bind ?m ?k []) = _ =>
      destruct (snd_bind_extends anyCall m k []) as [l1 Hl1]
  end.
  { intros [s|]; [|apply emits_ret].
    apply (emits_anyCall _ _ (emits_reviewPhase cfg w s)). }
  rewrite Hl1. clear Hl1.
  unfold testPhase. rewrite Hgate. cbn [negb].
  match goal with
  | |- exists rest, snd (bind ?m ?k []) ++ _ = _ =>
      destruct (snd_bind_extends anyCall m k []) as [l2 Hl2]
  end.
  { intros pr. unfold getDiff, getTestExemptionDetails, sendWebhook. emits_any. }
  rewrite Hl2. clear Hl2.
  unfold getPRDetails. unfold bind at 1. unfold liftOutcome. rewrite Hn.
  match goal with
  | |- exists rest, (snd (bind ?m ?k []) ++ _) ++ _ = _ =>
      destruct (snd_bind_extends anyCall m k []) as [l3 Hl3]
  end.
  { intros prData. emits_any. }
  rewrite Hl3. simpl. eauto.
Qed.

(* ================================================================== *)
(** * The claims *)
(* ================================================================== *)

(* ------------------------------------------------------------------ *)
(** ** Classifier *)
(* ------------------------------------------------------------------ *)

(** C5 (as amended).  A changed file needs tests if and only if its path
    matches none of the fixed glob patterns, its extension, taken from the
    last dot, is in the allow-list, and its path contains no fragment of the
    deny-list.  The patterns are matched with the case of their letters:
    a name is caught when it contains test, Test, spec or Spec (and no part
    of the path is hidden).  In particular a file that matches a pattern
    never needs tests. *)
Theorem needsTests_iff (file : File) :
  let filename := orEmpty (to file) in
  let name := last (slashSplit filename) EmptyString in
  (needsTests file = true <->
     matchesTestPattern filename = false /\
     In (extensionOf filename) testableExtensions /\
     (forall fragment, In fragment excludePatterns ->
        JS.includes filename fragment = false)) /\
  (matchesTestPattern filename = true -> needsTests file = false) /\
  (existsb startsWithDot (slashSplit filename) = false ->
   JS.includes name "test" || JS.includes name "Test"
     || JS.includes name "spec" || JS.includes name "Spec" = true ->
   needsTests file = false).
Proof.
  cbv zeta.
  assert (Hcaught : matchesTestPattern (orEmpty (to file)) = true -> needsTests file = false).
  { intros H. unfold needsTests. now rewrite H. }
  assert (Hnamed :
    existsb startsWithDot (slashSplit (orEmpty (to file))) = false ->
    JS.includes (last (slashSplit (orEmpty (to file))) EmptyString) "test"
      || JS.includes (last (slashSplit (orEmpty (to file))) EmptyString) "Test"
      || JS.includes (last (slashSplit (orEmpty (to file))) EmptyString) "spec"
      || JS.includes (last (slashSplit (orEmpty (to file))) EmptyString) "Spec" = true ->
    needsTests file = false).
  { intros Hdot Hname. apply Hcaught. now apply named_like_a_test. }
  split; [|split; [exact Hcaught | exact Hnamed]].
  clear Hcaught Hnamed. unfold needsTests.
  destruct (matchesTestPattern (orEmpty (to file))) eqn:Hpat.
  - split; [discriminate | intros [H _]; discriminate].
  - rewrite andb_true_iff, negb_true_iff. split.
    + intros [Hext Hdeny]. split; [reflexivity|]. split.
      * apply existsb_exists in Hext as [e [Hin He]].
        apply String.eqb_eq in He. now subst e.
      * intros fragment Hin.
        destruct (JS.includes (orEmpty (to file)) fragment) eqn:Hinc; [|reflexivity].
        assert (existsb (fun pattern => JS.includes (orEmpty (to file)) pattern)
                        excludePatterns = true)
          by (apply existsb_exists; eauto).
        congruence.
    + intros [_ [Hext Hdeny]]. split.
      * apply existsb_exists. exists (extensionOf (orEmpty (to file))).
        split; [exact Hext | apply String.eqb_refl].
      * destruct (existsb _ excludePatterns) eqn:Hex; [|reflexivity].
        apply existsb_exists in Hex as [fragment [Hin Hinc]].
        rewrite (Hdeny _ Hin) in Hinc. discriminate.
Qed.

Lemma needsTests_iff_witness : needsTests (fileAt "src/app.py") = true.
Proof.
  apply (proj2 (proj1 (needsTests_iff (fileAt "src/app.py")))).
  split; [reflexivity|]. split.
  - simpl. auto.
  - intros fragment Hin. simpl in Hin.
    repeat (destruct Hin as [<- | Hin]; [reflexivity|]). contradiction.
Defined.

(** C5, as stated, fails: the name TEST.py contains "test" when case is
    ignored, yet src/TEST.py is classified as needing tests. *)
Lemma needsTests_upper_case_name :
  JS.includes (JS.toLowerCase "TEST.py") "test" = true /\
  matchesTestPattern "src/TEST.py" = false /\
  needsTests (fileAt "src/TEST.py") = true.
Proof. repeat split; vm_compute; reflexivity. Qed.

(** C7.  A file whose path holds no dot never needs tests. *)
Theorem needsTests_no_extension (file : File) :
  (forall p, to file = Some p -> JS.includes p "." = false) ->
  needsTests file = false.
Proof.
  intros Hdot. unfold needsTests.
  destruct (matchesTestPattern (orEmpty (to file))); [reflexivity|].
  rewrite short_not_testable; [reflexivity|].
  apply extensionOf_no_dot.
  destruct (to file) as [p|]; [now apply Hdot | reflexivity].
Qed.

Lemma needsTests_no_extension_witness : needsTests (fileAt "Makefile") = false.
Proof.
  apply needsTests_no_extension.
  intros p Hp. simpl in Hp. injection Hp as <-. reflexivity.
Defined.

(* ------------------------------------------------------------------ *)
(** ** Matcher *)
(* ------------------------------------------------------------------ *)


(* ------------------------------------------------------------------ *)
(** ** Event gate *)
(* ------------------------------------------------------------------ *)

(** C8.  A comment event is processed if and only if the comment is on a
    pull request and its body is white space followed by /code_review,
    white space being what [trim] removes: any run of the white space and
    line terminator characters of the language, such as a no-break space.
    An event that is neither such a comment nor a pull request that was
    opened, reopened or synchronized ends the run at once: it returns
    normally and no call is made.  An accepted event starts with the read
    of the pull request. *)
Theorem event_gate :
  (forall eventData commentBody,
     comment eventData = Some commentBody ->
     (shouldProcessPR eventData = true <->
        issueIsPullRequest eventData = true /\
        exists ws rest,
          JS.blank ws = true /\
          commentBody = (ws ++ "/code_review" ++ rest)%string)) /\
  (forall cfg w eventData,
     ~ (exists commentBody,
          comment eventData = Some commentBody /\
          issueIsPullRequest eventData = true /\
          isCodeReviewCommand commentBody = true) ->
     ~ (pull_request eventData <> None /\
        exists a, action eventData = Some a /\ In a triggerActions) ->
     run cfg w eventData = (Ok tt, [])) /\
  (forall cfg w eventData,
     shouldProcessPR eventData = true ->
     exists n rest,
       snd (run cfg w eventData) =
         PullsGet (repository_owner_login eventData) (repository_name eventData) n :: rest).
Proof.
  split; [|split].
  - intros eventData commentBody Hc. unfold shouldProcessPR. rewrite Hc.
    rewrite <- isCodeReviewCommand_iff.
    destruct (issueIsPullRequest eventData), (isCodeReviewCommand commentBody);
      simpl; intuition congruence.
  - intros cfg w eventData Hcmd Hpr. apply gate_rejects.
    destruct (shouldProcessPR eventData) eqn:Hgate; [exfalso | reflexivity].
    unfold shouldProcessPR in Hgate.
    destruct (comment eventData) as [commentBody|] eqn:Hc.
    + apply Hcmd. exists commentBody.
      destruct (issueIsPullRequest eventData), (isCodeReviewCommand commentBody);
        try discriminate. now repeat split.
    + destruct (pull_request eventData) as [pr|]; [|discriminate].
      destruct (action eventData) as [a|]; [|discriminate].
      apply Hpr. split; [discriminate|]. exists a. split; [reflexivity|].
      apply existsb_exists in Hgate as [x [Hin Hx]].
      apply String.eqb_eq in Hx. now subst x.
  - intros cfg w eventData Hgate. now apply run_starts.
Qed.

Lemma event_gate_witness :
  shouldProcessPR nbspCommand = true /\
  run (exampleConfig true) (exampleWorld EmptyString [] [])
      (mkEvent (Some "labeled") None None (Some (mkPullRequest 7 "alice")) "acme" "widgets")
    = (Ok tt, []).
Proof.
  destruct event_gate as [Hcomment [Hother _]]. split.
  - apply (Hcomment nbspCommand (nbsp ++ "/code_review")%string); [reflexivity|].
    split; [reflexivity|]. exists nbsp, EmptyString. split; reflexivity.
  - apply Hother.
    + intros [commentBody [Hc _]]. discriminate.
    + intros [_ [a [Ha Hin]]]. injection Ha as <-. simpl in Hin.
      repeat (destruct Hin as [Hin | Hin]; [discriminate|]). contradiction.
Defined.

(** C10.  Once the gate has accepted an event, [getPRDetails] finds the
    number of the pull request: the branch that throws "Could not determine
    pull request number" is not taken, and when the platform answers the
    details carry that number. *)
Theorem accepted_event_has_pull_number (eventData : Event) :
  shouldProcessPR eventData = true ->
  exists n login,
    pullNumberAndAuthor eventData = Ok (n, login) /\
    (forall w t,
       fst (getPRDetails w eventData t) <> Throw CouldNotDeterminePullRequestNumber) /\
    (forall w t prData userName,
       pulls_get w = Some prData ->
       users_getByUsername w = Some userName ->
       exists pr, fst (getPRDetails w eventData t) = Ok pr /\ pull_number pr = n).
Proof.
  intros Hgate.
  destruct (gate_finds_pull_number _ Hgate) as [n [login Hn]].
  exists n, login. split; [exact Hn|]. split.
  - intros w t. unfold getPRDetails, bind, liftOutcome, request, ret. rewrite Hn.
    destruct (pulls_get w); [|discriminate].
    destruct (users_getByUsername w); discriminate.
  - intros w t prData userName Hpr Hu.
    rewrite (getPRDetails_run w eventData n login prData userName t Hn Hpr Hu).
    eexists; split; reflexivity.
Qed.

Lemma accepted_event_has_pull_number_witness :
  exists n login, pullNumberAndAuthor reviewCommand = Ok (n, login).
Proof.
  destruct (accepted_event_has_pull_number reviewCommand) as [n [login [H _]]].
  - reflexivity.
  - exists n, login. exact H.
Defined.

(* ------------------------------------------------------------------ *)
(** ** Backend failures *)
(* ------------------------------------------------------------------ *)

(** The [getResponse] method of either provider turns every failure into
    [null]: it never throws. *)
Lemma getResponse_recovers w provider prompt t :
  exists reviews, fst (getResponse w provider prompt t) = Ok reviews.
Proof.
  unfold getResponse, tryCatch, bind, ask, request, ret, throw, liftOutcome.
  destruct (backend w (aiRequests t)) as [|text]; [cbn; eauto|].
  destruct provider.
  - destruct (matchBraces text) as [m|]; [|cbn; eauto].
    destruct (JSON_parse w m) as [parsed|]; [|cbn; eauto].
    assert (Hp := getProperty_settles parsed "reviews").
    destruct (getProperty parsed "reviews") as [reviews|e|]; [|cbn; eauto | contradiction].
    destruct (negb (isArray reviews)); cbn; eauto.
  - match goal with
    | |- context [JSON_parse w ?res] => destruct (JSON_parse w res) as [parsed|]
    end; [|cbn; eauto].
    assert (Hp := getProperty_settles parsed "reviews").
    destruct (getProperty parsed "reviews") as [reviews|e|]; [cbn; eauto.. | contradiction].
Qed.

Lemma getResponse_of_rejection w provider prompt t :
  backend w (aiRequests t) = Rejects ->
  getResponse w provider prompt t = (Ok None, t ++ [ GetResponse prompt ]).
Proof.
  intros Hb. unfold getResponse, tryCatch, bind, ask, request, ret. now rewrite Hb.
Qed.

(** What [getAIResponse] does with a failure: it hands it on. *)
Lemma getAIResponse_rethrows cfg w prompt t :
  String.eqb (API_KEY cfg) EmptyString = false ->
  (backend w (aiRequests t) = Rejects ->
     getAIResponse cfg w prompt t = (Throw BackendFault, t ++ [ ProcessReason prompt true ])) /\
  (forall text,
     backend w (aiRequests t) = Resolves text ->
     text <> EmptyString ->
     JSON_parse w text = None ->
     getAIResponse cfg w prompt t = (Throw SyntaxError, t ++ [ ProcessReason prompt true ])).
Proof.
  intros Hkey. unfold getAIResponse. rewrite tryCatch_rethrow.
  unfold bind, getAIProvider, processReason, bind, ask, request, ret, throw.
  rewrite Hkey. split.
  - intros Hb. destruct (String.eqb (AI_PROVIDER cfg) "gemini"); now rewrite Hb.
  - intros text Hb Htext Hparse.
    apply String.eqb_neq in Htext.
    destruct (String.eqb (AI_PROVIDER cfg) "gemini"); rewrite Hb, ?Htext, Hparse; reflexivity.
Qed.

(** A hunk whose request is rejected ends the review of the file: the
    comments collected so far are dropped with it. *)
Lemma rejected_hunk_aborts_review cfg w prDetails file chunk chunks comments t :
  String.eqb (API_KEY cfg) EmptyString = false ->
  backend w (aiRequests t) = Rejects ->
  analyzeChunks cfg w prDetails file (chunk :: chunks) comments t =
    (Throw BackendFault, t ++ [ ProcessReason (createPrompt file chunk prDetails) true ]).
Proof.
  intros Hkey Hb. cbn [analyzeChunks]. unfold bind at 1.
  destruct (getAIResponse_rethrows cfg w (createPrompt file chunk prDetails) t Hkey)
    as [Hrej _].
  now rewrite (Hrej Hb).
Qed.

(** A review that throws ends the run with the same error, and no review
    has been posted. *)
Lemma failed_review_aborts_run cfg w eventData s t0 e t1 :
  AVALIAR_TEST_PR cfg = false ->
  testPhase cfg w eventData [] = (Ok (Some s), t0) ->
  analyzeCode cfg w (filteredDiff cfg (stage_parsedDiff s)) (stage_prDetails s) t0
    = (Throw e, t1) ->
  run cfg w eventData = (Throw e, t1) /\ filter isReview t1 = [].
Proof.
  intros Hflag Hphase Hcode.
  rewrite run_phases, Hphase, (reviewPhase_aborted _ _ _ _ _ _ Hflag Hcode).
  split; [reflexivity|].
  destruct (testPhase_stage _ _ _ _ _ Hphase) as [_ [_ [_ [Hrev _]]]].
  destruct (emits_analyzeCode cfg w (filteredDiff cfg (stage_parsedDiff s))
              (stage_prDetails s) t0) as [l [Hl Pl]].
  rewrite Hcode in Hl. cbn [snd] in Hl. subst t1.
  rewrite filter_app, Hrev, (filter_none isReview l); [reflexivity|].
  apply forallb_impl with (2 := Pl).
  intros [] Hc; try discriminate; reflexivity.
Qed.

(** C1.  The code does not recover from a backend failure on one hunk.  A
    pull request changes src/util.ts and src/util.test.ts, one hunk each.
    The reply for the first hunk carries a review comment.  When the reply
    for the second hunk is not JSON, or the request is rejected, or
    [reviews] is not an array, [main] ends with the error and no review is
    posted; with a well-formed second reply the comment is posted. *)
Theorem backend_failure_aborts_run :
  let files := [ changed "src/util.ts"; changed "src/util.test.ts" ] in
  let runWith second :=
    run (exampleConfig false)
        (exampleWorld EmptyString files [ Resolves oneReviewText; second ]) prOpened in
  (fst (runWith (Resolves "not json")) = Throw SyntaxError /\
   filter isReview (snd (runWith (Resolves "not json"))) = []) /\
  (fst (runWith Rejects) = Throw BackendFault /\
   filter isReview (snd (runWith Rejects)) = []) /\
  (fst (runWith (Resolves textReviewsText)) = Throw TypeError /\
   filter isReview (snd (runWith (Resolves textReviewsText))) = []) /\
  (fst (runWith (Resolves noReviewsText)) = Ok tt /\
   filter isReview (snd (runWith (Resolves noReviewsText))) =
     [ PullsCreateReview "acme" "widgets" 7 [ exampleComment ] COMMENT None ]).
Proof. cbv zeta. repeat split; vm_compute; reflexivity. Qed.

(* ------------------------------------------------------------------ *)
(** ** Outcome of a run *)
(* ------------------------------------------------------------------ *)



(** C2, as stated, fails: in tests-only mode, a pull request that changes
    src/util.ts together with src/util.test.ts gets no warning and no
    review request, and an approval is posted. *)
Lemma tests_only_covered_change_is_approved :
  let w := exampleWorld EmptyString
             [ changed "src/util.ts"; changed "src/util.test.ts" ] [] in
  AVALIAR_TEST_PR (exampleConfig true) = true /\
  filter isIssueComment (snd (run (exampleConfig true) w prOpened)) = [] /\
  filter isReviewRequest (snd (run (exampleConfig true) w prOpened)) = [] /\
  filter isApproval (snd (run (exampleConfig true) w prOpened)) =
    [ PullsCreateReview "acme" "widgets" 7 [] APPROVE (Some LGTM) ].
Proof. cbv zeta. repeat split; vm_compute; reflexivity. Qed.

(** C2 (as amended).  In tests-only mode, when the guard of the warning is
    false (no file needs tests, or the diff holds a test file, or the
    description holds an exemption keyword), the review of the code is
    skipped and the run posts one review, an approval without comments: the
    plain LGTM message, or the message with the exemption when tests are
    required and absent. *)
Theorem tests_only_without_warning_approves cfg w eventData prData userName files :
  AVALIAR_TEST_PR cfg = true ->
  shouldProcessPR eventData = true ->
  pulls_get w = Some prData ->
  users_getByUsername w = Some userName ->
  pulls_get_diff w = Some (Some files) ->
  testsRequiredAndAbsent (analyzeTests files)
    && negb (hasTestExemption (orEmpty (snd prData))) = false ->
  exists n login reason,
    pullNumberAndAuthor eventData = Ok (n, login) /\
    filter isIssueComment (snd (run cfg w eventData)) = [] /\
    filter isReviewRequest (snd (run cfg w eventData)) = [] /\
    filter isReview (snd (run cfg w eventData)) =
      [ PullsCreateReview (repository_owner_login eventData) (repository_name eventData) n
          [] APPROVE
          (Some (if testsRequiredAndAbsent (analyzeTests files)
                 then LGTMWithExemption reason else LGTM)) ] /\
    fst (run cfg w eventData) = reviewOutcome w.
Proof.
  intros Hflag Hgate Hpr Hu Hdiff Hguard.
  destruct (testPhase_reached cfg w eventData prData userName files Hgate Hpr Hu Hdiff)
    as [n [login [ex [l [Hn [Hisex [Pl [_ Hrun]]]]]]]].
  cbv zeta in Hrun. rewrite Hisex, Hguard in Hrun.
  exists n, login, (reason ex). split; [exact Hn|].
  rewrite run_phases, Hrun, (reviewPhase_tests_only _ _ _ _ Hflag).
  cbn [stage_hasIssues fst snd].
  assert (Hbody :
    approvalBody (mkStage (prDetailsOf eventData n login prData userName) files
                    (analyzeTests files) ex false)
    = if testsRequiredAndAbsent (analyzeTests files)
      then LGTMWithExemption (reason ex) else LGTM).
  { unfold approvalBody. cbn [stage_testAnalysis stage_testExemptionDetails].
    rewrite Hisex.
    destruct (testsRequiredAndAbsent (analyzeTests files)); [|reflexivity].
    cbn [andb] in Hguard |- *. apply negb_false_iff in Hguard. now rewrite Hguard. }
  unfold approvalCall. rewrite Hbody. cbn [stage_prDetails].
  rewrite !filter_app.
  rewrite (exemption_requests_filtered isIssueComment l), (exemption_requests_filtered isReview l),
    (exemption_requests_filtered isReviewRequest l);
    try exact Pl; try (intros c Hc; now apply exemption_request_kinds in Hc).
  repeat split; reflexivity.
Qed.

Lemma tests_only_without_warning_approves_witness :
  exists n login reason,
    pullNumberAndAuthor prOpened = Ok (n, login) /\
    filter isIssueComment
      (snd (run (exampleConfig true)
              (exampleWorld EmptyString [ changed "src/util.ts"; changed "src/util.test.ts" ] [])
              prOpened)) = [] /\
    filter isReviewRequest
      (snd (run (exampleConfig true)
              (exampleWorld EmptyString [ changed "src/util.ts"; changed "src/util.test.ts" ] [])
              prOpened)) = [] /\
    filter isReview
      (snd (run (exampleConfig true)
              (exampleWorld EmptyString [ changed "src/util.ts"; changed "src/util.test.ts" ] [])
              prOpened)) =
      [ PullsCreateReview "acme" "widgets" n [] APPROVE
          (Some (if testsRequiredAndAbsent
                      (analyzeTests [ changed "src/util.ts"; changed "src/util.test.ts" ])
                 then LGTMWithExemption reason else LGTM)) ] /\
    fst (run (exampleConfig true)
           (exampleWorld EmptyString [ changed "src/util.ts"; changed "src/util.test.ts" ] [])
           prOpened) = Ok tt.
Proof.
  apply (tests_only_without_warning_approves (exampleConfig true)
           (exampleWorld EmptyString [ changed "src/util.ts"; changed "src/util.test.ts" ] [])
           prOpened (Some "Add util", Some EmptyString) (Some "Alice")
           [ changed "src/util.ts"; changed "src/util.test.ts" ]);
    reflexivity.
Defined.

(** A changed file whose path contains "test", whatever the case, counts
    as a test file. *)
Lemma hasTests_of_test_named_path files file p :
  In file files ->
  to file = Some p ->
  JS.includes (JS.toLowerCase p) "test" = true ->
  hasTests (analyzeTests files) = true.
Proof.
  intros Hin Hto Hinc.
  assert (Htest : isTestFile file = true).
  { unfold isTestFile, truthy. rewrite Hto. cbn [orEmpty]. rewrite Hinc, orb_true_r.
    destruct p; [discriminate Hinc | reflexivity]. }
  unfold analyzeTests. cbn [hasTests]. rewrite length_map.
  assert (Hf : In file (filter isTestFile files)) by (apply filter_In; now split).
  destruct (filter isTestFile files); [contradiction | reflexivity].
Qed.

(** The warning is only ever posted under its guard. *)
Lemma no_warning_without_guard cfg w eventData files :
  pulls_get_diff w = Some (Some files) ->
  testsRequiredAndAbsent (analyzeTests files) = false ->
  filter isIssueComment (snd (run cfg w eventData)) = [].
Proof.
  intros Hdiff Hguard.
  destruct (shouldProcessPR eventData) eqn:Hgate.
  2:{ now rewrite gate_rejects. }
  destruct (gate_finds_pull_number _ Hgate) as [n [login Hn]].
  destruct (pulls_get w) as [prData|] eqn:Hpr.
  2:{ rewrite run_phases. unfold testPhase, bind, getPRDetails, liftOutcome, request.
      now rewrite Hgate, Hn, Hpr. }
  destruct (users_getByUsername w) as [userName|] eqn:Hu.
  2:{ rewrite run_phases. unfold testPhase, bind, getPRDetails, liftOutcome, request.
      now rewrite Hgate, Hn, Hpr, Hu. }
  destruct (testPhase_reached cfg w eventData prData userName files Hgate Hpr Hu Hdiff)
    as [n' [login' [ex [l [_ [_ [Pl [_ Hrun]]]]]]]].
  cbv zeta in Hrun. rewrite Hguard in Hrun. cbn [andb] in Hrun.
  rewrite run_phases, Hrun.
  match goal with
  | |- context [reviewPhase cfg w ?s ?t] =>
      destruct (emits_reviewPhase cfg w s t) as [l' [Hl' Pl']]
  end.
  rewrite Hl', !filter_app.
  rewrite (exemption_requests_filtered isIssueComment l);
    [|intros c Hc; now apply exemption_request_kinds in Hc | exact Pl].
  rewrite (filter_none isIssueComment l'); [reflexivity|].
  apply forallb_impl with (2 := Pl').
  intros [] Hc; try discriminate; reflexivity.
Qed.

(** C9.  When the diff holds a changed file whose path contains "test",
    whatever the case of the letters, [hasTests] is true and the run posts
    no warning.  Such a file need not be a test: contest/utils.py matches no
    test pattern and needs tests, and it counts as a test file. *)
Theorem test_named_path_suppresses_warning cfg w eventData files :
  pulls_get_diff w = Some (Some files) ->
  (exists file p,
     In file files /\ to file = Some p /\ JS.includes (JS.toLowerCase p) "test" = true) ->
  hasTests (analyzeTests files) = true /\
  filter isIssueComment (snd (run cfg w eventData)) = [] /\
  (matchesTestPattern "contest/utils.py" = false /\
   needsTests (fileAt "contest/utils.py") = true /\
   isTestFile (fileAt "contest/utils.py") = true).
Proof.
  intros Hdiff [file [p [Hin [Hto Hinc]]]].
  assert (Htests := hasTests_of_test_named_path files file p Hin Hto Hinc).
  split; [exact Htests|]. split.
  - apply no_warning_without_guard with (files := files); [exact Hdiff|].
    unfold testsRequiredAndAbsent. rewrite Htests. apply andb_false_r.
  - repeat split; vm_compute; reflexivity.
Qed.

Lemma test_named_path_suppresses_warning_witness :
  hasTests (analyzeTests [ changed "contest/utils.py" ]) = true /\
  filter isIssueComment
    (snd (run (exampleConfig true)
            (exampleWorld EmptyString [ changed "contest/utils.py" ] []) prOpened)) = [].
Proof.
  destruct (test_named_path_suppresses_warning (exampleConfig true)
              (exampleWorld EmptyString [ changed "contest/utils.py" ] []) prOpened
              [ changed "contest/utils.py" ] eq_refl) as [H1 [H2 _]].
  - exists (changed "contest/utils.py"), "contest/utils.py".
    split; [left; reflexivity|]. split; reflexivity.
  - split; assumption.
Defined.




(* ================================================================== *)
(** * Further properties of the pipeline *)
(* ================================================================== *)

(* ------------------------------------------------------------------ *)
(** ** How a run can end *)
(* ------------------------------------------------------------------ *)

(** [testPhase] when one of the three reads fails or the diff is empty. *)
Lemma testPhase_unreached cfg w eventData n login :
  shouldProcessPR eventData = true ->
  pullNumberAndAuthor eventData = Ok (n, login) ->
  let get := PullsGet (repository_owner_login eventData) (repository_name eventData) n in
  let user := UsersGetByUsername login in
  let diff := PullsGetDiff (repository_owner_login eventData) (repository_name eventData) n in
  (pulls_get w = None ->
     testPhase cfg w eventData [] = (Throw PlatformFault, [ get ])) /\
  (forall prData,
     pulls_get w = Some prData -> users_getByUsername w = None ->
     testPhase cfg w eventData [] = (Throw PlatformFault, [ get; user ])) /\
  (forall prData userName,
     pulls_get w = Some prData -> users_getByUsername w = Some userName ->
     pulls_get_diff w = None ->
     testPhase cfg w eventData [] = (Throw PlatformFault, [ get; user; diff ])) /\
  (forall prData userName,
     pulls_get w = Some prData -> users_getByUsername w = Some userName ->
     pulls_get_diff w = Some None ->
     testPhase cfg w eventData [] = (Ok None, [ get; user; diff ])).
Proof.
  intros Hgate Hn. cbv zeta. repeat split.
  - intros Hpr. unfold testPhase, bind, getPRDetails, liftOutcome, request.
    now rewrite Hgate, Hn, Hpr.
  - intros prData Hpr Hu. unfold testPhase, bind, getPRDetails, liftOutcome, request.
    now rewrite Hgate, Hn, Hpr, Hu.
  - intros prData userName Hpr Hu Hdiff. unfold testPhase. rewrite Hgate. cbn [negb].
    unfold bind at 1.
    rewrite (getPRDetails_run w eventData n login prData userName [] Hn Hpr Hu).
    unfold bind, getDiff, request. now rewrite Hdiff.
  - intros prData userName Hpr Hu Hdiff. unfold testPhase. rewrite Hgate. cbn [negb].
    unfold bind at 1.
    rewrite (getPRDetails_run w eventData n login prData userName [] Hn Hpr Hu).
    unfold bind, getDiff, request. now rewrite Hdiff.
Qed.

(** X1.  When the platform does not answer one of the three reads (pull
    request, author, diff), the run ends with the platform error right after
    that read: the trace is the reads made up to it and nothing else, so no
    comment, review, webhook or backend request.  When the diff comes back
    empty, the run returns normally after the three reads. *)
Theorem failed_read_writes_nothing cfg w eventData :
  shouldProcessPR eventData = true ->
  exists n login,
    pullNumberAndAuthor eventData = Ok (n, login) /\
    let get := PullsGet (repository_owner_login eventData) (repository_name eventData) n in
    let user := UsersGetByUsername login in
    let diff := PullsGetDiff (repository_owner_login eventData) (repository_name eventData) n in
    (pulls_get w = None ->
       run cfg w eventData = (Throw PlatformFault, [ get ])) /\
    (pulls_get w <> None -> users_getByUsername w = None ->
       run cfg w eventData = (Throw PlatformFault, [ get; user ])) /\
    (pulls_get w <> None -> users_getByUsername w <> None -> pulls_get_diff w = None ->
       run cfg w eventData = (Throw PlatformFault, [ get; user; diff ])) /\
    (pulls_get w <> None -> users_getByUsername w <> None -> pulls_get_diff w = Some None ->
       run cfg w eventData = (Ok tt, [ get; user; diff ])).
Proof.
  intros Hgate.
  destruct (gate_finds_pull_number _ Hgate) as [n [login Hn]].
  exists n, login. split; [exact Hn|]. cbv zeta.
  destruct (testPhase_unreached cfg w eventData n login Hgate Hn) as [H1 [H2 [H3 H4]]].
  rewrite run_phases. split; [|split; [|split]].
  - intros Hpr. now rewrite (H1 Hpr).
  - intros Hpr Hu. destruct (pulls_get w) as [prData|] eqn:Epr; [|contradiction].
    now rewrite (H2 prData eq_refl Hu).
  - intros Hpr Hu Hdiff. destruct (pulls_get w) as [prData|] eqn:Epr; [|contradiction].
    destruct (users_getByUsername w) as [userName|] eqn:Eu; [|contradiction].
    now rewrite (H3 prData userName eq_refl eq_refl Hdiff).
  - intros Hpr Hu Hdiff. destruct (pulls_get w) as [prData|] eqn:Epr; [|contradiction].
    destruct (users_getByUsername w) as [userName|] eqn:Eu; [|contradiction].
    now rewrite (H4 prData userName eq_refl eq_refl Hdiff).
Qed.

Lemma failed_read_writes_nothing_witness :
  run (exampleConfig false) emptyDiffWorld prOpened =
    (Ok tt, [ PullsGet "acme" "widgets" 7; UsersGetByUsername "alice";
              PullsGetDiff "acme" "widgets" 7 ]).
Proof.
  destruct (failed_read_writes_nothing (exampleConfig false) emptyDiffWorld prOpened eq_refl)
    as [n [login [Hn [_ [_ [_ H]]]]]].
  vm_compute in Hn. injection Hn as <- <-.
  apply H; [discriminate | discriminate | reflexivity].
Defined.

Lemma filter_reads (P : Call -> bool) (l : list Call) :
  (forall c, isRead c = true -> P c = false) ->
  forallb isRead l = true -> filter P l = [].
Proof.
  intros HP Hl. apply filter_none.
  apply forallb_impl with (2 := Hl). intros c Hc. now rewrite (HP c Hc).
Qed.

(** Either a run only reads, or the event was accepted and the three
    reads gave a non-empty diff. *)
Lemma run_settles_or_reaches cfg w eventData :
  (forallb isRead (snd (run cfg w eventData)) = true /\
   fst (run cfg w eventData) <> Pending) \/
  exists prData userName files,
    shouldProcessPR eventData = true /\
    pulls_get w = Some prData /\
    users_getByUsername w = Some userName /\
    pulls_get_diff w = Some (Some files).
Proof.
  destruct (shouldProcessPR eventData) eqn:Hgate.
  2:{ left. rewrite gate_rejects by exact Hgate. split; [reflexivity | discriminate]. }
  destruct (gate_finds_pull_number _ Hgate) as [n [login Hn]].
  destruct (testPhase_unreached cfg w eventData n login Hgate Hn) as [H1 [H2 [H3 H4]]].
  destruct (pulls_get w) as [prData|] eqn:Hpr.
  2:{ left. rewrite run_phases, (H1 eq_refl). split; [reflexivity | discriminate]. }
  destruct (users_getByUsername w) as [userName|] eqn:Hu.
  2:{ left. rewrite run_phases, (H2 prData eq_refl eq_refl).
      split; [reflexivity | discriminate]. }
  destruct (pulls_get_diff w) as [[files|]|] eqn:Hdiff.
  - right. exists prData, userName, files. now repeat split.
  - left. rewrite run_phases, (H4 prData userName eq_refl eq_refl eq_refl).
    split; [reflexivity | discriminate].
  - left. rewrite run_phases, (H3 prData userName eq_refl eq_refl eq_refl).
    split; [reflexivity | discriminate].
Qed.

Lemma run_reads_or_reaches cfg w eventData :
  forallb isRead (snd (run cfg w eventData)) = true \/
  exists prData userName files,
    shouldProcessPR eventData = true /\
    pulls_get w = Some prData /\
    users_getByUsername w = Some userName /\
    pulls_get_diff w = Some (Some files).
Proof.
  destruct (run_settles_or_reaches cfg w eventData) as [[H _] | H]; [now left | now right].
Qed.

(** The trace of a run that reached the test check: the three reads, the
    request for the exemption message if any, the warning and the webhook
    if the guard holds, and then what the review adds.  The run waits for
    ever exactly when the webhook was sent and answered. *)
Lemma run_reached cfg w eventData prData userName files :
  shouldProcessPR eventData = true ->
  pulls_get w = Some prData ->
  users_getByUsername w = Some userName ->
  pulls_get_diff w = Some (Some files) ->
  exists n login ex l tail,
    pullNumberAndAuthor eventData = Ok (n, login) /\
    isExempt ex = hasTestExemption (orEmpty (snd prData)) /\
    forallb isExemptionRequest l = true /\
    forallb (fun c => isReviewRequest c || isReview c) tail = true /\
    let pr := prDetailsOf eventData n login prData userName in
    let testAnalysis := analyzeTests files in
    let warned := testsRequiredAndAbsent testAnalysis && negb (isExempt ex) in
    let hook :=
      if issues_createComment_ok w && webhookSent cfg w
      then [ SendWebhook (WEBHOOK_URL cfg) (webhookData eventData pr files testAnalysis ex) ]
      else [] in
    let stalled :=
      warned && issues_createComment_ok w && webhookSent cfg w && webhook_responds w in
    snd (run cfg w eventData) =
      fetchCalls pr ++ l ++ (if warned then warningCall pr testAnalysis :: hook else [])
        ++ tail /\
    (warned = true -> filter isApproval tail = []) /\
    (warned && (AVALIAR_TEST_PR cfg || negb (issues_createComment_ok w)) = true ->
     tail = []) /\
    (stalled = true -> tail = [] /\ fst (run cfg w eventData) = Pending) /\
    (stalled = false -> fst (run cfg w eventData) <> Pending).
Proof.
  intros Hgate Hpr Hu Hdiff.
  destruct (testPhase_reached cfg w eventData prData userName files Hgate Hpr Hu Hdiff)
    as [n [login [ex [l [Hn [Hisex [Pl [_ Hrun]]]]]]]].
  cbv zeta in Hrun.
  assert (Hreview : forall s t0,
    testPhase cfg w eventData [] = (Ok (Some s), t0) ->
    exists tail,
      forallb (fun c => isReviewRequest c || isReview c) tail = true /\
      snd (run cfg w eventData) = t0 ++ tail /\
      (stage_hasIssues s = true -> filter isApproval tail = []) /\
      fst (run cfg w eventData) <> Pending).
  { intros s t0 Hphase. rewrite run_phases, Hphase.
    destruct (emits_reviewPhase cfg w s t0) as [tail [Htail Ptail]].
    exists tail. split; [exact Ptail|]. split; [exact Htail|].
    split; [|apply settles_reviewPhase].
    intros Hissues.
    destruct (testPhase_stage _ _ _ _ _ Hphase) as [_ [_ [_ [_ [_ [_ Hflag]]]]]].
    specialize (Hflag Hissues).
    destruct (emits_analyzeCode cfg w (filteredDiff cfg (stage_parsedDiff s))
                (stage_prDetails s) t0) as [l' [Hl' Pl']].
    assert (Hnone : filter isApproval l' = []).
    { apply filter_none. apply forallb_impl with (2 := Pl').
      intros [] Hc; try discriminate; reflexivity. }
    assert (Hset := settles_analyzeCode cfg w (filteredDiff cfg (stage_parsedDiff s))
                      (stage_prDetails s) t0).
    destruct (analyzeCode cfg w (filteredDiff cfg (stage_parsedDiff s))
                (stage_prDetails s) t0) as [[comments|e|] t1] eqn:Hcode;
      cbn [fst snd] in Hl', Hset; [| |contradiction]; subst t1.
    - rewrite (reviewPhase_reviewed _ _ _ _ _ _ Hflag Hcode), Hissues in Htail.
      destruct (0 <? length comments)%nat; cbn [snd] in Htail.
      + rewrite <- app_assoc in Htail. apply app_inv_head in Htail. subst tail.
        rewrite filter_app, Hnone. reflexivity.
      + apply app_inv_head in Htail. now subst tail.
    - rewrite (reviewPhase_aborted _ _ _ _ _ _ Hflag Hcode) in Htail.
      cbn [snd] in Htail. apply app_inv_head in Htail. now subst tail. }
  assert (Hnil : forallb (fun c => isReviewRequest c || isReview c) [] = true)
    by reflexivity.
  (* the warning was accepted and the webhook, if any, has not stalled the run *)
  assert (Hwarned : forall t',
    testPhase cfg w eventData [] =
      (Ok (if AVALIAR_TEST_PR cfg
           then None
           else Some (mkStage (prDetailsOf eventData n login prData userName) files
                        (analyzeTests files) ex true)), t') ->
    exists tail,
      forallb (fun c => isReviewRequest c || isReview c) tail = true /\
      snd (run cfg w eventData) = t' ++ tail /\
      filter isApproval tail = [] /\
      (AVALIAR_TEST_PR cfg = true -> tail = []) /\
      fst (run cfg w eventData) <> Pending).
  { intros t' Hphase. destruct (AVALIAR_TEST_PR cfg) eqn:Hflag.
    - exists []. rewrite run_phases, Hphase, app_nil_r.
      repeat split; try reflexivity. discriminate.
    - destruct (Hreview _ _ Hphase) as [tail [Ptail [Htail [Happ Hset]]]].
      exists tail. repeat split; try assumption; [now apply Happ | discriminate]. }
  destruct (testsRequiredAndAbsent (analyzeTests files) && negb (isExempt ex)) eqn:Hwarn.
  - destruct (issues_createComment_ok w) eqn:Hok.
    + destruct (webhookSent cfg w) eqn:Hsent.
      * destruct (webhook_responds w) eqn:Hresp.
        -- exists n, login, ex, l, []. cbv zeta. rewrite Hwarn.
           split; [exact Hn|]. split; [exact Hisex|]. split; [exact Pl|].
           split; [exact Hnil|]. rewrite run_phases, Hrun. cbn [fst snd andb].
           split; [now rewrite app_nil_r, <- app_assoc|].
           repeat split; try reflexivity. discriminate.
        -- destruct (Hwarned _ Hrun) as [tail [Ptail [Htail [Happ [Hflag Hset]]]]].
           exists n, login, ex, l, tail. cbv zeta. rewrite Hwarn.
           split; [exact Hn|]. split; [exact Hisex|]. split; [exact Pl|].
           split; [exact Ptail|]. cbn [andb].
           split; [rewrite Htail, <- !app_assoc; reflexivity|].
           split; [intros _; exact Happ|].
           split; [rewrite orb_false_r; exact Hflag|].
           split; [discriminate | intros _; exact Hset].
      * destruct (Hwarned _ Hrun) as [tail [Ptail [Htail [Happ [Hflag Hset]]]]].
        exists n, login, ex, l, tail. cbv zeta. rewrite Hwarn.
        split; [exact Hn|]. split; [exact Hisex|]. split; [exact Pl|].
        split; [exact Ptail|]. cbn [andb].
        split; [rewrite Htail, <- !app_assoc; reflexivity|].
        split; [intros _; exact Happ|].
        split; [rewrite orb_false_r; exact Hflag|].
        split; [discriminate | intros _; exact Hset].
    + exists n, login, ex, l, []. cbv zeta. rewrite Hwarn.
      split; [exact Hn|]. split; [exact Hisex|]. split; [exact Pl|].
      split; [exact Hnil|]. rewrite run_phases, Hrun. cbn [fst snd andb].
      split; [now rewrite app_nil_r, <- app_assoc|].
      repeat split; try reflexivity; discriminate.
  - destruct (Hreview _ _ Hrun) as [tail [Ptail [Htail [_ Hset]]]].
    exists n, login, ex, l, tail. cbv zeta. rewrite Hwarn.
    split; [exact Hn|]. split; [exact Hisex|]. split; [exact Pl|].
    split; [exact Ptail|]. cbn [andb].
    split; [rewrite Htail; now rewrite <- app_assoc|].
    split; [discriminate|]. split; [discriminate|].
    split; [discriminate | intros _; exact Hset].
Qed.

Lemma testPhase_writes cfg w eventData :
  emits (fun c => negb (isReview c) && (negb (isBackendCall c) || isExemptionRequest c))
        (testPhase cfg w eventData).
Proof.
  unfold testPhase, getPRDetails, getDiff, getTestExemptionDetails, sendWebhook.
  emits_any.
Qed.

Lemma missing_all_without_tests (files : list File) :
  hasTests (analyzeTests files) = false ->
  missingTests (analyzeTests files) = affectedFiles (analyzeTests files).
Proof.
  unfold analyzeTests. cbn [hasTests missingTests affectedFiles].
  destruct (map (fun file => orEmpty (to file)) (filter isTestFile files)) as [|t ts];
    [|discriminate].
  intros _. induction (map _ _) as [|f fs IH]; [reflexivity|].
  cbn [filter]. unfold isMissingTest at 1. cbn [existsb negb]. now rewrite IH.
Qed.

(* ------------------------------------------------------------------ *)
(** ** What a run posts *)
(* ------------------------------------------------------------------ *)

(** X2.  A run posts at most one issue comment.  When it posts one, the
    diff has files that need tests and no test file, the description has no
    exemption keyword, and the comment lists every file that needs tests. *)
Theorem warning_lists_affected_files cfg w eventData :
  filter isIssueComment (snd (run cfg w eventData)) = [] \/
  exists prData files n,
    pulls_get w = Some prData /\
    pulls_get_diff w = Some (Some files) /\
    filter isIssueComment (snd (run cfg w eventData)) =
      [ IssuesCreateComment (repository_owner_login eventData) (repository_name eventData) n
          (TestWarning (affectedFiles (analyzeTests files))) ] /\
    affectedFiles (analyzeTests files) <> [] /\
    hasTests (analyzeTests files) = false /\
    hasTestExemption (orEmpty (snd prData)) = false.
Proof.
  destruct (run_reads_or_reaches cfg w eventData)
    as [Hreads | [prData [userName [files [Hgate [Hpr [Hu Hdiff]]]]]]].
  { left. apply filter_reads with (2 := Hreads). intros [] Hc; try discriminate; reflexivity. }
  destruct (run_reached cfg w eventData prData userName files Hgate Hpr Hu Hdiff)
    as [n [login [ex [l [tail [_ [Hisex [Pl [Ptail [Htrace _]]]]]]]]]].
  cbv zeta in Htrace. rewrite Htrace, !filter_app.
  rewrite (exemption_requests_filtered isIssueComment l);
    [|intros c Hc; now apply exemption_request_kinds in Hc | exact Pl].
  rewrite (filter_none isIssueComment tail).
  2:{ apply forallb_impl with (2 := Ptail). intros [] Hc; try discriminate; reflexivity. }
  destruct (testsRequiredAndAbsent (analyzeTests files) && negb (isExempt ex)) eqn:Hwarn.
  - right. exists prData, files, n.
    apply andb_true_iff in Hwarn as [Hreq Hex]. apply negb_true_iff in Hex.
    unfold testsRequiredAndAbsent in Hreq. apply andb_true_iff in Hreq as [Haff Htests].
    apply negb_true_iff in Htests.
    split; [exact Hpr|]. split; [exact Hdiff|]. split; [|split; [|split]].
    + unfold warningCall. rewrite (missing_all_without_tests files Htests).
      cbn [fetchCalls filter isIssueComment app owner repo pull_number prDetailsOf].
      destruct (issues_createComment_ok w && webhookSent cfg w); reflexivity.
    + intros Hnil. rewrite Hnil in Haff. discriminate.
    + exact Htests.
    + now rewrite <- Hisex.
  - left. reflexivity.
Qed.

(** X3.  The webhook is sent at most once in a run, and only directly
    after a warning that the platform accepted, to the configured URL. *)
Theorem webhook_follows_warning cfg w eventData :
  filter isWebhook (snd (run cfg w eventData)) = [] \/
  exists before warning data after,
    isIssueComment warning = true /\
    snd (run cfg w eventData) =
      before ++ warning :: SendWebhook (WEBHOOK_URL cfg) data :: after /\
    filter isWebhook (snd (run cfg w eventData)) = [ SendWebhook (WEBHOOK_URL cfg) data ] /\
    WEBHOOK_URL cfg <> EmptyString /\
    issues_createComment_ok w = true.
Proof.
  destruct (run_reads_or_reaches cfg w eventData)
    as [Hreads | [prData [userName [files [Hgate [Hpr [Hu Hdiff]]]]]]].
  { left. apply filter_reads with (2 := Hreads). intros [] Hc; try discriminate; reflexivity. }
  destruct (run_reached cfg w eventData prData userName files Hgate Hpr Hu Hdiff)
    as [n [login [ex [l [tail [_ [_ [Pl [Ptail [Htrace _]]]]]]]]]].
  cbv zeta in Htrace.
  assert (Hl : filter isWebhook l = []).
  { apply exemption_requests_filtered; [|exact Pl].
    intros [] Hc; try discriminate; reflexivity. }
  assert (Htail : filter isWebhook tail = []).
  { apply filter_none. apply forallb_impl with (2 := Ptail).
    intros [] Hc; try discriminate; reflexivity. }
  destruct (testsRequiredAndAbsent (analyzeTests files) && negb (isExempt ex)).
  2:{ left. rewrite Htrace, !filter_app, Hl, Htail. reflexivity. }
  destruct (issues_createComment_ok w) eqn:Hok.
  2:{ left. rewrite Htrace, !filter_app, Hl, Htail. reflexivity. }
  destruct (webhookSent cfg w) eqn:Hsent.
  2:{ left. rewrite Htrace, !filter_app, Hl, Htail. reflexivity. }
  assert (Hurl : String.eqb (WEBHOOK_URL cfg) EmptyString = false).
  { unfold webhookSent in Hsent. apply andb_true_iff in Hsent as [Hsent _].
    now apply negb_true_iff in Hsent. }
  right. cbn [andb negb] in Htrace.
  exists (fetchCalls (prDetailsOf eventData n login prData userName) ++ l),
    (warningCall (prDetailsOf eventData n login prData userName) (analyzeTests files)),
    (webhookData eventData (prDetailsOf eventData n login prData userName) files
       (analyzeTests files) ex),
    tail.
  split; [|split; [|split; [|split]]].
  - reflexivity.
  - rewrite Htrace, <- !app_assoc. reflexivity.
  - rewrite Htrace, !filter_app, Hl, Htail. reflexivity.
  - intros Hempty. rewrite Hempty in Hurl. discriminate.
  - reflexivity.
Qed.

(** X4.  No run both posts the warning and approves: one of the two is
    absent from every trace. *)
Theorem warning_excludes_approval cfg w eventData :
  filter isIssueComment (snd (run cfg w eventData)) = [] \/
  filter isApproval (snd (run cfg w eventData)) = [].
Proof.
  destruct (run_reads_or_reaches cfg w eventData)
    as [Hreads | [prData [userName [files [Hgate [Hpr [Hu Hdiff]]]]]]].
  { left. apply filter_reads with (2 := Hreads). intros [] Hc; try discriminate; reflexivity. }
  destruct (run_reached cfg w eventData prData userName files Hgate Hpr Hu Hdiff)
    as [n [login [ex [l [tail [_ [_ [Pl [Ptail [Htrace [Happ _]]]]]]]]]]].
  cbv zeta in Htrace, Happ. rewrite Htrace, !filter_app.
  destruct (testsRequiredAndAbsent (analyzeTests files) && negb (isExempt ex)).
  - right. rewrite (Happ eq_refl).
    rewrite (exemption_requests_filtered isApproval l);
      [|intros [] Hc; try discriminate; reflexivity | exact Pl].
    cbn. destruct (issues_createComment_ok w && webhookSent cfg w); reflexivity.
  - left. rewrite (exemption_requests_filtered isIssueComment l);
      [|intros c Hc; now apply exemption_request_kinds in Hc | exact Pl].
    rewrite (filter_none isIssueComment tail); [reflexivity|].
    apply forallb_impl with (2 := Ptail). intros [] Hc; try discriminate; reflexivity.
Qed.

(** X5.  A run posts at most one review.  It is either a review with one
    or more comments, disposition COMMENT and no body, or an approval with
    no comment and a body. *)
Theorem one_review_per_run cfg w eventData :
  match filter isReview (snd (run cfg w eventData)) with
  | [] => True
  | [ PullsCreateReview _ _ _ comments COMMENT None ] => comments <> []
  | [ PullsCreateReview _ _ _ [] APPROVE (Some _) ] => True
  | _ => False
  end.
Proof.
  rewrite run_phases.
  destruct (testPhase_writes cfg w eventData []) as [l0 [Hl0 Pl0]].
  assert (Hnone0 : filter isReview l0 = []).
  { apply filter_none. apply forallb_impl with (2 := Pl0).
    intros c Hc. now apply andb_true_iff in Hc as [Hc _]. }
  destruct (testPhase cfg w eventData []) as [[[s|]|e|] t0] eqn:Hphase;
    cbn [snd app] in Hl0; subst t0; cbn [snd]; try now rewrite Hnone0.
  destruct (AVALIAR_TEST_PR cfg) eqn:Hflag.
  - rewrite (reviewPhase_tests_only _ _ _ _ Hflag).
    destruct (stage_hasIssues s); cbn [snd]; [now rewrite Hnone0|].
    rewrite filter_app, Hnone0. exact I.
  - destruct (emits_analyzeCode cfg w (filteredDiff cfg (stage_parsedDiff s))
                (stage_prDetails s) l0) as [l1 [Hl1 Pl1]].
    assert (Hnone1 : filter isReview l1 = []).
    { apply filter_none. apply forallb_impl with (2 := Pl1).
      intros [] Hc; try discriminate; reflexivity. }
    assert (Hset := settles_analyzeCode cfg w (filteredDiff cfg (stage_parsedDiff s))
                      (stage_prDetails s) l0).
    destruct (analyzeCode cfg w (filteredDiff cfg (stage_parsedDiff s))
                (stage_prDetails s) l0) as [[comments|e|] t1] eqn:Hcode;
      cbn [fst snd] in Hl1, Hset; [| |contradiction]; subst t1.
    + rewrite (reviewPhase_reviewed _ _ _ _ _ _ Hflag Hcode).
      destruct comments as [|c comments]; cbn [length Nat.ltb Nat.leb].
      * destruct (stage_hasIssues s); cbn [snd];
          rewrite !filter_app, Hnone0, Hnone1; exact I.
      * cbn [snd]. rewrite !filter_app, Hnone0, Hnone1. cbn. discriminate.
    + rewrite (reviewPhase_aborted _ _ _ _ _ _ Hflag Hcode). cbn [snd].
      now rewrite filter_app, Hnone0, Hnone1.
Qed.

(** X6.  In tests-only mode no hunk is ever sent to the AI backend: the
    only request a run can make is the one for the exemption message. *)
Theorem tests_only_never_reviews cfg w eventData :
  AVALIAR_TEST_PR cfg = true ->
  filter isReviewRequest (snd (run cfg w eventData)) = [] /\
  forallb isExemptionRequest (filter isBackendCall (snd (run cfg w eventData))) = true.
Proof.
  intros Hflag.
  assert (Hshape : exists l,
            forallb (fun c => negb (isReview c)
                              && (negb (isBackendCall c) || isExemptionRequest c)) l = true /\
            (snd (run cfg w eventData) = l \/
             exists approval, isReview approval = true /\
                              snd (run cfg w eventData) = l ++ [ approval ])).
  { rewrite run_phases.
    destruct (testPhase_writes cfg w eventData []) as [l0 [Hl0 Pl0]].
    exists l0. split; [exact Pl0|].
    destruct (testPhase cfg w eventData []) as [[[s|]|e|] t0];
      cbn [snd app] in Hl0; subst t0; cbn [snd]; try now left.
    rewrite (reviewPhase_tests_only _ _ _ _ Hflag).
    destruct (stage_hasIssues s); cbn [snd]; [now left|].
    right. eexists; split; [|reflexivity]. reflexivity. }
  destruct Hshape as [l [Pl Htrace]].
  assert (Hreq : filter isReviewRequest l = []).
  { apply filter_none. apply forallb_impl with (2 := Pl).
    intros [] Hc; try reflexivity. destruct prompt; [discriminate | reflexivity]. }
  assert (Hback : forallb isExemptionRequest (filter isBackendCall l) = true).
  { clear Hreq Htrace. induction l as [|c l IH]; [reflexivity|].
    cbn [forallb] in Pl. apply andb_true_iff in Pl as [Hc Pl].
    apply andb_true_iff in Hc as [_ Hc].
    cbn [filter]. destruct (isBackendCall c); [|now apply IH].
    cbn [forallb negb orb] in *. now rewrite Hc, IH. }
  destruct Htrace as [-> | [approval [Happroval ->]]]; [now split|].
  rewrite !filter_app, Hreq. cbn [filter].
  destruct approval; try discriminate. split; [reflexivity|].
  cbn. now rewrite app_nil_r.
Qed.

Lemma tests_only_never_reviews_witness :
  filter isReviewRequest
    (snd (run (exampleConfig true)
            (exampleWorld "skip tests" [ changed "src/util.ts" ] [ Resolves "fine" ])
            prOpened)) = [].
Proof.
  apply (proj1 (tests_only_never_reviews (exampleConfig true)
                  (exampleWorld "skip tests" [ changed "src/util.ts" ] [ Resolves "fine" ])
                  prOpened eq_refl)).
Defined.

(* ------------------------------------------------------------------ *)
(** ** The webhook *)
(* ------------------------------------------------------------------ *)


(* ------------------------------------------------------------------ *)
(** ** The exemption message *)
(* ------------------------------------------------------------------ *)

(** X8.  The exemption details never fail, for a description that is an
    ASCII text.  One without keyword gives "not exempt" with an empty reason
    and no request to the backend; one with a keyword gives "exempt" with a
    reason that is never empty, after at most one request.  Without an API
    key nothing is asked and the reason is the fixed fallback sentence. *)
Theorem exemption_reason_never_empty cfg w description t :
  JS.isASCII description = true ->
  exists ex l,
    getTestExemptionDetails cfg w description t = (Ok ex, t ++ l) /\
    isExempt ex = hasTestExemption description /\
    (isExempt ex = false -> reason ex = EmptyString /\ l = []) /\
    (isExempt ex = true ->
       reason ex <> EmptyString /\
       (l = [] \/ l = [ ProcessReason (ExemptionPrompt description) false ])) /\
    (String.eqb (API_KEY cfg) EmptyString = true ->
       l = [] /\ (isExempt ex = true -> reason ex = fallbackReason)).
Proof.
  intros _. unfold getTestExemptionDetails.
  destruct (hasTestExemption description) eqn:Hex; cbn [negb].
  2:{ exists {| isExempt := false; reason := EmptyString |}, [].
      unfold ret. rewrite app_nil_r. cbn [isExempt reason].
      repeat split; try reflexivity; discriminate. }
  unfold bind. rewrite extractTestExemptionReason_run.
  destruct (String.eqb (API_KEY cfg) EmptyString).
  { eexists; exists []. unfold ret. rewrite app_nil_r. cbn [isExempt reason truthy].
    split; [reflexivity|]. split; [reflexivity|]. split; [discriminate|].
    split; [intros _; split; [discriminate | now left] | now split]. }
  eexists; eexists. unfold ret. split; [reflexivity|]. cbn [isExempt reason].
  split; [reflexivity|]. split; [discriminate|]. split; [|discriminate].
  intros _. split; [|now right].
  destruct (backend w (aiRequests t)) as [|text]; [discriminate|].
  destruct (String.eqb text EmptyString); [discriminate|].
  cbn [truthy orEmpty].
  destruct (JS.trim text) eqn:Htrim; [discriminate|].
  cbn [String.eqb negb]. discriminate.
Qed.

Lemma exemption_reason_never_empty_witness :
  exists ex l,
    getTestExemptionDetails (exampleConfig true)
      (exampleWorld "skip tests" [] [ Resolves "   " ]) "skip tests" [] = (Ok ex, l) /\
    reason ex = fallbackReason.
Proof.
  destruct (exemption_reason_never_empty (exampleConfig true)
              (exampleWorld "skip tests" [] [ Resolves "   " ]) "skip tests" [] eq_refl)
    as [ex [l [Hrun _]]].
  exists ex, ([] ++ l). split; [exact Hrun|].
  vm_compute in Hrun. injection Hrun as <- _. reflexivity.
Defined.

(* ------------------------------------------------------------------ *)
(** ** The review of the hunks *)
(* ------------------------------------------------------------------ *)

(** One call of [getAIResponse]: without a key it throws before asking;
    with one it asks exactly once. *)
Lemma getAIResponse_call cfg w prompt t :
  (String.eqb (API_KEY cfg) EmptyString = true /\
   getAIResponse cfg w prompt t = (Throw ApiKeyRequired, t)) \/
  (String.eqb (API_KEY cfg) EmptyString = false /\
   snd (getAIResponse cfg w prompt t) = t ++ [ ProcessReason prompt true ]).
Proof.
  unfold getAIResponse. rewrite tryCatch_rethrow.
  unfold bind, getAIProvider, processReason, bind, ask, request, ret, throw.
  destruct (String.eqb (API_KEY cfg) EmptyString); [left; now split | right].
  split; [reflexivity|].
  destruct (String.eqb (AI_PROVIDER cfg) "gemini");
    destruct (backend w (aiRequests t)) as [|text]; cbn beta iota; try reflexivity;
    try destruct (String.eqb text EmptyString); cbn beta iota; try reflexivity;
    destruct (JSON_parse w text); reflexivity.
Qed.

(** One step of the loop over the hunks of a file. *)
Lemma analyzeChunks_step cfg w prDetails file chunk chunks comments t :
  analyzeChunks cfg w prDetails file (chunk :: chunks) comments t =
    match getAIResponse cfg w (createPrompt file chunk prDetails) t with
    | (Ok (Some reviews), t1) =>
        if truthyValue (Some reviews) then
          match createComment w file chunk reviews with
          | Ok newComments =>
              analyzeChunks cfg w prDetails file chunks (comments ++ newComments) t1
          | Throw e => (Throw e, t1)
          | Pending => (Pending, t1)
          end
        else analyzeChunks cfg w prDetails file chunks comments t1
    | (Ok None, t1) => analyzeChunks cfg w prDetails file chunks comments t1
    | (Throw e, t1) => (Throw e, t1)
    | (Pending, t1) => (Pending, t1)
    end.
Proof.
  cbn [analyzeChunks]. unfold bind at 1.
  destruct (getAIResponse cfg w (createPrompt file chunk prDetails) t)
    as [[[reviews|]|e|] t1]; try reflexivity.
  destruct (truthyValue (Some reviews)); [|reflexivity].
  unfold bind, liftOutcome. now destruct (createComment w file chunk reviews).
Qed.

Lemma analyzeFiles_step cfg w prDetails file parsedDiff comments t :
  analyzeFiles cfg w prDetails (file :: parsedDiff) comments t =
    if isDeleted file then analyzeFiles cfg w prDetails parsedDiff comments t
    else
      match analyzeChunks cfg w prDetails file (chunks file) comments t with
      | (Ok comments', t1) => analyzeFiles cfg w prDetails parsedDiff comments' t1
      | (Throw e, t1) => (Throw e, t1)
      | (Pending, t1) => (Pending, t1)
      end.
Proof.
  cbn [analyzeFiles]. destruct (isDeleted file); [reflexivity|]. reflexivity.
Qed.

(** The loop over the hunks of a file, a hunk at a time: the comments of
    the hunk are added to those collected, or its failure ends the loop. *)
Lemma analyzeChunks_cons cfg w prDetails file chunk chunks comments t :
  analyzeChunks cfg w prDetails file (chunk :: chunks) comments t =
    match reviewHunk cfg w prDetails (file, chunk) t with
    | (Ok newComments, t1) =>
        analyzeChunks cfg w prDetails file chunks (comments ++ newComments) t1
    | (Throw e, t1) => (Throw e, t1)
    | (Pending, t1) => (Pending, t1)
    end.
Proof.
  unfold reviewHunk. cbn [fst snd]. rewrite !analyzeChunks_step.
  destruct (getAIResponse cfg w (createPrompt file chunk prDetails) t)
    as [[[reviews|]|e|] t1]; try reflexivity.
  - destruct (truthyValue (Some reviews)).
    + destruct (createComment w file chunk reviews); reflexivity.
    + cbn [analyzeChunks ret]. now rewrite app_nil_r.
  - cbn [analyzeChunks ret]. now rewrite app_nil_r.
Qed.

Lemma reviewableHunks_cons (file : File) (parsedDiff : list File) :
  reviewableHunks (file :: parsedDiff) =
    (if isDeleted file then [] else map (fun chunk => (file, chunk)) (chunks file))
      ++ reviewableHunks parsedDiff.
Proof. reflexivity. Qed.

(** With a key, the review of a hunk makes its request and nothing else,
    and it settles. *)
Lemma reviewHunk_call cfg w prDetails hunkOf t :
  String.eqb (API_KEY cfg) EmptyString = false ->
  snd (reviewHunk cfg w prDetails hunkOf t) = t ++ [ reviewRequest prDetails hunkOf ] /\
  fst (reviewHunk cfg w prDetails hunkOf t) <> Pending.
Proof.
  intros Hkey. split; [|apply settles_analyzeChunks].
  unfold reviewHunk, reviewRequest. rewrite analyzeChunks_step.
  destruct (getAIResponse_call cfg w (createPrompt (fst hunkOf) (snd hunkOf) prDetails) t)
    as [[Hno _] | [_ Hcall]]; [congruence|].
  destruct (getAIResponse cfg w (createPrompt (fst hunkOf) (snd hunkOf) prDetails) t)
    as [[[reviews|]|e|] t1]; cbn [snd] in Hcall; subst t1; try reflexivity.
  destruct (truthyValue (Some reviews)); [|reflexivity].
  destruct (createComment w (fst hunkOf) (snd hunkOf) reviews); reflexivity.
Qed.

Lemma inTurn_app_ok cfg w prDetails hunks1 hunks2 t comments t1 result :
  inTurn cfg w prDetails hunks1 t (Ok comments, t1) ->
  inTurn cfg w prDetails hunks2 t1 result ->
  inTurn cfg w prDetails (hunks1 ++ hunks2) t result.
Proof.
  revert t. induction hunks1 as [|h hunks1 IH]; intros t H1 H2.
  - cbn in H1. destruct H1 as [<- _]. exact H2.
  - cbn [app inTurn] in *.
    destruct (fst (reviewHunk cfg w prDetails h t)); [now apply IH | discriminate H1 | exact H1].
Qed.

Lemma inTurn_app_throw cfg w prDetails hunks1 hunks2 t e t1 :
  inTurn cfg w prDetails hunks1 t (Throw e, t1) ->
  inTurn cfg w prDetails (hunks1 ++ hunks2) t (Throw e, t1).
Proof.
  revert t. induction hunks1 as [|h hunks1 IH]; intros t H1.
  - cbn in H1. destruct H1 as [_ [comments H1]]. discriminate H1.
  - cbn [app inTurn] in *.
    destruct (fst (reviewHunk cfg w prDetails h t)); [now apply IH | exact H1 | exact H1].
Qed.

Lemma analyzeChunks_inTurn cfg w prDetails file chunks comments t :
  String.eqb (API_KEY cfg) EmptyString = false ->
  inTurn cfg w prDetails (map (fun chunk => (file, chunk)) chunks) t
    (analyzeChunks cfg w prDetails file chunks comments t).
Proof.
  intros Hkey. revert comments t.
  induction chunks as [|chunk chunks IH]; intros comments t.
  - cbn. split; [reflexivity | now exists comments].
  - cbn [map inTurn]. rewrite analyzeChunks_cons.
    destruct (reviewHunk_call cfg w prDetails (file, chunk) t Hkey) as [Hcall Hset].
    destruct (reviewHunk cfg w prDetails (file, chunk) t) as [[newComments|e|] t1];
      cbn [fst snd] in *; subst t1; [apply IH | reflexivity | contradiction].
Qed.

Lemma analyzeFiles_inTurn cfg w prDetails parsedDiff comments t :
  String.eqb (API_KEY cfg) EmptyString = false ->
  inTurn cfg w prDetails (reviewableHunks parsedDiff) t
    (analyzeFiles cfg w prDetails parsedDiff comments t).
Proof.
  intros Hkey. revert comments t.
  induction parsedDiff as [|file parsedDiff IH]; intros comments t.
  - cbn. split; [reflexivity | now exists comments].
  - rewrite analyzeFiles_step, reviewableHunks_cons.
    destruct (isDeleted file); [apply IH|].
    assert (Hchunks := analyzeChunks_inTurn cfg w prDetails file (chunks file) comments t Hkey).
    assert (Hset := settles_analyzeChunks cfg w prDetails file (chunks file) comments t).
    destruct (analyzeChunks cfg w prDetails file (chunks file) comments t)
      as [[comments'|e|] t1]; cbn [fst] in Hset; [| |contradiction].
    + apply (inTurn_app_ok _ _ _ _ _ _ _ _ _ Hchunks). apply IH.
    + now apply inTurn_app_throw.
Qed.

(** What the walk says about the calls and the result. *)
Lemma inTurn_asked cfg w prDetails hunks t result :
  inTurn cfg w prDetails hunks t result ->
  exists asked unasked,
    hunks = asked ++ unasked /\
    snd result = t ++ map (reviewRequest prDetails) asked /\
    (forall before h after,
       asked = before ++ h :: after ->
       match fst (reviewHunk cfg w prDetails h
                    (t ++ map (reviewRequest prDetails) before)) with
       | Ok _ => True
       | Throw e => after = [] /\ fst result = Throw e
       | Pending => False
       end) /\
    (forall comments, fst result = Ok comments -> unasked = []) /\
    (forall e, fst result = Throw e ->
       exists before h,
         asked = before ++ [ h ] /\
         fst (reviewHunk cfg w prDetails h
                (t ++ map (reviewRequest prDetails) before)) = Throw e) /\
    fst result <> Pending.
Proof.
  revert t. induction hunks as [|h hunks IH]; intros t H.
  - cbn in H. destruct H as [Hsnd [comments Hfst]].
    exists [], []. cbn [map].
    split; [reflexivity|]. split; [now rewrite app_nil_r|]. split; [|split; [|split]].
    + intros [|x before] h after Heq; discriminate Heq.
    + reflexivity.
    + intros e He. rewrite Hfst in He. discriminate He.
    + rewrite Hfst. discriminate.
  - cbn [inTurn] in H.
    destruct (fst (reviewHunk cfg w prDetails h t)) as [newComments|e|] eqn:Hh;
      [| |contradiction].
    + destruct (IH _ H) as [asked [unasked [Hsplit [Hsnd [Heach [Hok [Hthrow Hset]]]]]]].
      exists (h :: asked), unasked. cbn [map app].
      split; [now rewrite Hsplit|].
      split; [now rewrite Hsnd, <- app_assoc|].
      split; [|split; [exact Hok | split; [|exact Hset]]].
      * intros [|x before] h0 after Heq; cbn [app] in Heq; injection Heq as <- Heq.
        -- cbn [map]. rewrite app_nil_r, Hh. exact I.
        -- cbn [map]. specialize (Heach before h0 after Heq).
           rewrite <- app_assoc in Heach. exact Heach.
      * intros e He. destruct (Hthrow e He) as [before [h0 [Heq Hfail]]].
        exists (h :: before), h0. split; [now rewrite Heq|].
        cbn [map]. rewrite <- app_assoc in Hfail. exact Hfail.
    + subst result. exists [ h ], hunks. cbn [map app fst snd].
      split; [reflexivity|]. split; [reflexivity|]. split; [|split; [|split]].
      * intros [|x before] h0 after Heq; cbn [app] in Heq; injection Heq as <- Heq.
        -- cbn [map]. rewrite app_nil_r, Hh. subst after. now split.
        -- destruct before; discriminate Heq.
      * intros comments H. discriminate H.
      * intros e0 He0. injection He0 as <-. exists [], h.
        split; [reflexivity|]. cbn [map]. now rewrite app_nil_r.
      * discriminate.
Qed.

(** X9.  With an API key, the review asks the backend once per hunk, in the
    order of the diff, leaving out the hunks of deleted files, and it stops
    at the first hunk that fails.  The requests made are those of the hunks
    [asked], a beginning of the list of hunks.  Each hunk asked is reviewed
    once the hunks before it gave their comments; if its review throws, it
    is the last hunk asked and the review ends with that exception.  A
    review that succeeds has asked for every hunk; one that throws ends with
    the failure of the last hunk asked. *)
Theorem one_request_per_hunk cfg w parsedDiff prDetails t :
  String.eqb (API_KEY cfg) EmptyString = false ->
  exists asked unasked,
    reviewableHunks parsedDiff = asked ++ unasked /\
    snd (analyzeCode cfg w parsedDiff prDetails t)
      = t ++ map (reviewRequest prDetails) asked /\
    (forall before h after,
       asked = before ++ h :: after ->
       match fst (reviewHunk cfg w prDetails h
                    (t ++ map (reviewRequest prDetails) before)) with
       | Ok _ => True
       | Throw e => after = [] /\ fst (analyzeCode cfg w parsedDiff prDetails t) = Throw e
       | Pending => False
       end) /\
    (forall comments,
       fst (analyzeCode cfg w parsedDiff prDetails t) = Ok comments -> unasked = []) /\
    (forall e,
       fst (analyzeCode cfg w parsedDiff prDetails t) = Throw e ->
       exists before h,
         asked = before ++ [ h ] /\
         fst (reviewHunk cfg w prDetails h
                (t ++ map (reviewRequest prDetails) before)) = Throw e) /\
    fst (analyzeCode cfg w parsedDiff prDetails t) <> Pending.
Proof.
  intros Hkey. apply inTurn_asked. unfold analyzeCode. now apply analyzeFiles_inTurn.
Qed.

Lemma one_request_per_hunk_witness :
  snd (analyzeCode (exampleConfig false)
         (exampleWorld EmptyString [] [ Resolves noReviewsText; Resolves "not json" ])
         [ changed "a.py"; changed "/dev/null"; changed "b.py"; changed "c.py" ]
         (prDetailsOf prOpened 7 "alice" (None, None) None) [])
  = map (reviewRequest (prDetailsOf prOpened 7 "alice" (None, None) None))
        [ (changed "a.py", hunk); (changed "b.py", hunk) ].
Proof.
  destruct (one_request_per_hunk (exampleConfig false)
              (exampleWorld EmptyString [] [ Resolves noReviewsText; Resolves "not json" ])
              [ changed "a.py"; changed "/dev/null"; changed "b.py"; changed "c.py" ]
              (prDetailsOf prOpened 7 "alice" (None, None) None) [] eq_refl)
    as [asked [unasked [Hsplit [Hsnd [_ [_ [Hthrow _]]]]]]].
  rewrite Hsnd. cbn [app]. f_equal.
  destruct (Hthrow SyntaxError) as [before [h [Heq Hfail]]]; [vm_compute; reflexivity|].
  clear Hthrow Hsnd. subst asked.
  change (reviewableHunks [ changed "a.py"; changed "/dev/null"; changed "b.py";
                            changed "c.py" ])
    with [ (changed "a.py", hunk); (changed "b.py", hunk); (changed "c.py", hunk) ]
    in Hsplit.
  destruct before as [|b0 [|b1 [|b2 before]]]; cbn [app] in Hsplit.
  - injection Hsplit as <- _. vm_compute in Hfail. discriminate Hfail.
  - injection Hsplit as <- <- _. reflexivity.
  - injection Hsplit as <- <- <- _. vm_compute in Hfail. discriminate Hfail.
  - injection Hsplit as _ _ _ Hrest. destruct before; discriminate Hrest.
Defined.

(** X10.  Without an API key the review fails with "API_KEY is required"
    before anything is asked, as soon as there is a hunk to review; with no
    hunk to review it succeeds with no comment. *)
Theorem review_without_key cfg w parsedDiff prDetails t :
  String.eqb (API_KEY cfg) EmptyString = true ->
  analyzeCode cfg w parsedDiff prDetails t =
    (match reviewableHunks parsedDiff with
     | [] => Ok []
     | _ :: _ => Throw ApiKeyRequired
     end, t).
Proof.
  intros Hkey. unfold analyzeCode.
  enough (Hfiles : forall comments,
    analyzeFiles cfg w prDetails parsedDiff comments t =
      (match reviewableHunks parsedDiff with
       | [] => Ok comments
       | _ :: _ => Throw ApiKeyRequired
       end, t)) by apply Hfiles.
  assert (Hchunks : forall file chunks comments,
    analyzeChunks cfg w prDetails file chunks comments t =
      (match chunks with [] => Ok comments | _ :: _ => Throw ApiKeyRequired end, t)).
  { intros file [|chunk chunks] comments; [reflexivity|].
    cbn [analyzeChunks]. unfold bind at 1.
    destruct (getAIResponse_call cfg w (createPrompt file chunk prDetails) t)
      as [[_ Hthrow] | [Hno _]]; [now rewrite Hthrow | congruence]. }
  induction parsedDiff as [|file parsedDiff IH]; intros comments; [reflexivity|].
  rewrite analyzeFiles_step, reviewableHunks_cons.
  destruct (isDeleted file); [apply IH|].
  rewrite Hchunks. destruct (chunks file) as [|chunk chunks]; [apply IH | reflexivity].
Qed.

Lemma review_without_key_witness :
  analyzeCode (mkConfig "gemini" EmptyString false EmptyString EmptyString)
    (exampleWorld EmptyString [] []) [ changed "a.py" ]
    (prDetailsOf prOpened 7 "alice" (None, None) None) []
  = (Throw ApiKeyRequired, []).
Proof.
  apply (review_without_key (mkConfig "gemini" EmptyString false EmptyString EmptyString)
           (exampleWorld EmptyString [] []) [ changed "a.py" ]
           (prDetailsOf prOpened 7 "alice" (None, None) None) [] eq_refl).
Defined.

(** The only exception the line of an element can raise is a TypeError. *)
Lemma lineOf_throws w (item : json) (e : Error) :
  lineOf w item = Throw e -> e = TypeError.
Proof.
  unfold lineOf. destruct item; cbn [getProperty]; try discriminate.
  - intros H. now injection H as <-.
  - destruct (lookup "lineNumber" fields) as [[]|]; cbn; try discriminate;
      destruct (ObjectToNumber w _); try discriminate; intros H; now injection H as <-.
Qed.

Lemma lineOf_settles w (item : json) : lineOf w item <> Pending.
Proof.
  unfold lineOf. destruct item; cbn [getProperty]; try discriminate.
  apply Number_settles.
Qed.

(** The callback of [createComment] on a file with a destination path. *)
Lemma commentOf_line w (file : File) (item : json) :
  truthy (to file) = true ->
  commentOf w file item =
    match lineOf w item with
    | Ok n => Ok [ {| body := property item "reviewComment";
                      path := orEmpty (to file);
                      line := n |} ]
    | Throw e => Throw e
    | Pending => Pending
    end.
Proof.
  intros Hto. unfold commentOf, lineOf, property. rewrite Hto. cbn [negb].
  destruct item; cbn [getProperty andThen]; try reflexivity;
    destruct (Number w _); reflexivity.
Qed.

Lemma flatMap_commentOf w (file : File) (items : list json) :
  truthy (to file) = true ->
  flatMap (commentOf w file) items =
    if forallb (converts w) items
    then Ok (map (fun item => {| body := property item "reviewComment";
                                 path := orEmpty (to file);
                                 line := match lineOf w item with
                                         | Ok n => n
                                         | _ => NaN
                                         end |}) items)
    else Throw TypeError.
Proof.
  intros Hto. induction items as [|item items IH]; [reflexivity|].
  cbn [flatMap forallb map]. rewrite (commentOf_line w file item Hto), IH.
  replace (converts w item)
    with (match lineOf w item with Ok _ => true | _ => false end) by reflexivity.
  assert (Hthrow := lineOf_throws w item). assert (Hset := lineOf_settles w item).
  destruct (lineOf w item) as [n|e|]; cbn [andThen andb]; [| |contradiction].
  - destruct (forallb (converts w) items); reflexivity.
  - now rewrite (Hthrow e eq_refl).
Qed.

(** X11.  [createComment] makes one comment per element of the array, in
    order, on the destination path of the file.  The body is the
    [reviewComment] of the element as it came, undefined when the element
    has none; the line is [Number] of its [lineNumber]: NaN when the element
    has none, the number itself for a number, the reading of the string for
    a string.  It gives no comment for a file without destination path.  It
    throws a TypeError when the value is not an array, and when the line of
    an element cannot be made: the element is [null], or its [lineNumber]
    is an array or object whose conversion throws. *)
Theorem createComment_cases w (file : File) (chunk : Chunk) (aiResponses : json) :
  (isArray (Some aiResponses) = false ->
     createComment w file chunk aiResponses = Throw TypeError) /\
  (forall items,
     aiResponses = JArr items ->
     (truthy (to file) = false -> createComment w file chunk aiResponses = Ok []) /\
     (truthy (to file) = true -> forallb (converts w) items = false ->
        createComment w file chunk aiResponses = Throw TypeError) /\
     (truthy (to file) = true -> forallb (converts w) items = true ->
        createComment w file chunk aiResponses =
          Ok (map (fun item => {| body := property item "reviewComment";
                                  path := orEmpty (to file);
                                  line := match lineOf w item with
                                          | Ok n => n
                                          | _ => NaN
                                          end |}) items))) /\
  (forall item,
     (item = JNull -> converts w item = false) /\
     (item <> JNull -> property item "lineNumber" = None -> lineOf w item = Ok NaN) /\
     (forall q, property item "lineNumber" = Some (JNum q) ->
                lineOf w item = Ok (Finite q)) /\
     (forall s, property item "lineNumber" = Some (JStr s) ->
                lineOf w item = Ok (StringToNumber w s))).
Proof.
  split; [|split].
  - destruct aiResponses; try reflexivity. discriminate.
  - intros items ->. cbn [createComment]. split; [|split].
    + intros Hto. induction items as [|item items IH]; [reflexivity|].
      cbn [flatMap]. unfold commentOf at 1. rewrite Hto. cbn [negb andThen]. now rewrite IH.
    + intros Hto Hconv. now rewrite (flatMap_commentOf w file items Hto), Hconv.
    + intros Hto Hconv. now rewrite (flatMap_commentOf w file items Hto), Hconv.
  - intros item. unfold converts, lineOf, property. repeat split.
    + intros ->. reflexivity.
    + intros Hnull. destruct item; cbn [getProperty]; try reflexivity; try contradiction.
      now intros ->.
    + intros q. destruct item; cbn [getProperty]; try discriminate. now intros ->.
    + intros s. destruct item; cbn [getProperty]; try discriminate. now intros ->.
Qed.

Lemma createComment_cases_witness :
  createComment (exampleWorld EmptyString [] []) (changed "src/util.ts") hunk
    (JArr [ JObj [ ("lineNumber", JStr "12") ]; JNum 3 ])
  = Ok [ {| body := None; path := "src/util.ts"; line := Finite 12 |};
         {| body := None; path := "src/util.ts"; line := NaN |} ].
Proof.
  destruct (createComment_cases (exampleWorld EmptyString [] []) (changed "src/util.ts") hunk
              (JArr [ JObj [ ("lineNumber", JStr "12") ]; JNum 3 ])) as [_ [H _]].
  destruct (H _ eq_refl) as [_ [_ Hok]].
  exact (Hok eq_refl eq_refl).
Defined.

Lemma createComment_paths w (file : File) (chunk : Chunk) (reviews : json) newComments :
  createComment w file chunk reviews = Ok newComments ->
  Forall (fun c => to file = Some (path c) /\ path c <> EmptyString) newComments.
Proof.
  destruct reviews; try discriminate. cbn [createComment].
  destruct (truthy (to file)) eqn:Hto.
  - rewrite (flatMap_commentOf w file items Hto).
    destruct (forallb (converts w) items); [|discriminate].
    intros H. injection H as <-. apply Forall_forall. intros c Hc.
    apply in_map_iff in Hc as [item [<- _]]. cbn [path].
    unfold truthy in Hto. destruct (to file) as [p|]; [|discriminate].
    cbn [orEmpty]. split; [reflexivity|]. intros ->. discriminate.
  - revert newComments. induction items as [|item items IH]; intros newComments H.
    + injection H as <-. constructor.
    + cbn [flatMap] in H. unfold commentOf at 1 in H. rewrite Hto in H.
      cbn [negb andThen] in H.
      destruct (flatMap (commentOf w file) items) as [cs|e|]; try discriminate.
      injection H as <-. now apply IH.
Qed.

(** X12.  Every comment the review returns is anchored to the destination
    path of a file of the diff that is not deleted, and that path is not
    empty. *)
Theorem comments_anchor_to_diff cfg w parsedDiff prDetails t comments :
  fst (analyzeCode cfg w parsedDiff prDetails t) = Ok comments ->
  Forall (fun c =>
            path c <> EmptyString /\
            exists file, In file parsedDiff /\ isDeleted file = false /\
                         to file = Some (path c))
         comments.
Proof.
  unfold analyzeCode.
  set (anchored := fun files (c : ReviewComment) =>
         path c <> EmptyString /\
         exists file, In file files /\ isDeleted file = false /\ to file = Some (path c)).
  change (fst (analyzeFiles cfg w prDetails parsedDiff [] t) = Ok comments ->
          Forall (anchored parsedDiff) comments).
  assert (Hchunks : forall files file chunks acc t result,
    In file files -> isDeleted file = false ->
    Forall (anchored files) acc ->
    fst (analyzeChunks cfg w prDetails file chunks acc t) = Ok result ->
    Forall (anchored files) result).
  { intros files file chunks. induction chunks as [|chunk chunks IH];
      intros acc t0 result Hin Hdel Hacc H.
    - cbn in H. injection H as <-. exact Hacc.
    - rewrite analyzeChunks_step in H.
      destruct (getAIResponse cfg w (createPrompt file chunk prDetails) t0)
        as [[[reviews|]|e|] t1]; [| now apply (IH acc t1) | discriminate | discriminate].
      destruct (truthyValue (Some reviews)); [|now apply (IH acc t1)].
      destruct (createComment w file chunk reviews) as [newComments|e|] eqn:Hnew;
        [|discriminate | discriminate].
      apply (IH (acc ++ newComments) t1 result Hin Hdel); [|exact H].
      apply Forall_app. split; [exact Hacc|].
      apply Forall_impl with (2 := createComment_paths _ _ _ _ _ Hnew).
      intros c [Hto Hne]. split; [exact Hne|]. exists file. now repeat split. }
  assert (Hfiles : forall files rest acc t result,
    (forall file, In file rest -> In file files) ->
    Forall (anchored files) acc ->
    fst (analyzeFiles cfg w prDetails rest acc t) = Ok result ->
    Forall (anchored files) result).
  { intros files rest. induction rest as [|file rest IH]; intros acc t0 result Hsub Hacc H.
    - cbn in H. injection H as <-. exact Hacc.
    - rewrite analyzeFiles_step in H.
      assert (Hsub' : forall f, In f rest -> In f files) by (intros f Hf; apply Hsub; now right).
      destruct (isDeleted file) eqn:Hdel; [now apply (IH acc t0)|].
      destruct (analyzeChunks cfg w prDetails file (chunks file) acc t0)
        as [[acc'|e|] t1] eqn:Hc; [|discriminate | discriminate].
      apply (IH acc' t1 result Hsub'); [|exact H].
      apply (Hchunks files file (chunks file) acc t0 acc'); auto.
      + apply Hsub. now left.
      + now rewrite Hc. }
  intros H. apply (Hfiles parsedDiff parsedDiff [] t comments); auto.
Qed.

Lemma comments_anchor_to_diff_witness :
  Forall (fun c =>
            path c <> EmptyString /\
            exists file, In file [ changed "src/util.ts" ] /\ isDeleted file = false /\
                         to file = Some (path c))
         [ exampleComment ].
Proof.
  apply (comments_anchor_to_diff (exampleConfig false)
           (exampleWorld EmptyString [] [ Resolves oneReviewText ])
           [ changed "src/util.ts" ]
           (prDetailsOf prOpened 7 "alice" (None, None) None) []).
  vm_compute. reflexivity.
Defined.

(* ------------------------------------------------------------------ *)
(** ** The test analysis *)
(* ------------------------------------------------------------------ *)

Section MoreStringFacts.

Import JS.

Lemma toLowerCase_app (a b : string) :
  toLowerCase (a ++ b) = (toLowerCase a ++ toLowerCase b)%string.
Proof. induction a as [|c a IH]; simpl; [reflexivity | now rewrite IH]. Qed.

Lemma includes_startsWith (s p : string) : startsWith s p = true -> includes s p = true.
Proof. intros H. destruct s; simpl in *; now rewrite H. Qed.

Lemma includes_app_r (a b p : string) : includes b p = true -> includes (a ++ b) p = true.
Proof.
  intros H. induction a as [|c a IH]; [exact H|].
  cbn [append]. change (includes (String c (a ++ b)) p)
    with (startsWith (String c (a ++ b)) p || includes (a ++ b) p).
  rewrite IH. apply orb_true_r.
Qed.

Lemma includes_app_l (a b p : string) : includes a p = true -> includes (a ++ b) p = true.
Proof.
  induction a as [|c a IH]; intros H.
  - simpl in H. rewrite orb_false_r in H. destruct p; [|discriminate].
    destruct b; reflexivity.
  - change (includes (String c a) p) with (startsWith (String c a) p || includes a p) in H.
    cbn [append]. change (includes (String c (a ++ b)) p)
      with (startsWith (String c (a ++ b)) p || includes (a ++ b) p).
    apply orb_true_iff in H as [H|H].
    + change (String c (a ++ b)) with (String c a ++ b)%string.
      now rewrite (startsWith_prefix _ b _ H).
    + rewrite (IH H). apply orb_true_r.
Qed.

(** [includes] is the substring relation. *)
Lemma includes_iff (s p : string) :
  includes s p = true <-> exists before after, s = (before ++ p ++ after)%string.
Proof.
  split.
  - induction s as [|c s IH]; intros H.
    + simpl in H. rewrite orb_false_r in H. destruct p; [|discriminate].
      exists EmptyString, EmptyString. reflexivity.
    + change (includes (String c s) p) with (startsWith (String c s) p || includes s p) in H.
      apply orb_true_iff in H as [H|H].
      * destruct (startsWith_split _ _ H) as [rest ->]. exists EmptyString, rest. reflexivity.
      * destruct (IH H) as [before [after ->]]. exists (String c before), after. reflexivity.
  - intros [before [after ->]]. apply includes_app_r, includes_startsWith, startsWith_app.
Qed.

(** The extension pattern removes a final extension whatever comes before. *)
Lemma stripExtension_ext (x ext : string) :
  ext <> EmptyString -> allChars notSlashOrDot ext = true ->
  stripExtension (x ++ "." ++ ext) = x.
Proof.
  intros Hne Hext. induction x as [|c x IH].
  - cbn [append stripExtension]. rewrite Hext.
    destruct ext; [contradiction | reflexivity].
  - cbn [append stripExtension] in *. rewrite IH, allChars_app.
    cbn [allChars notSlashOrDot]. cbn. now rewrite !andb_false_r.
Qed.

End MoreStringFacts.

(** X14.  A changed file is not reported as missing a test when the diff
    also changes a file whose path is the same path with the extension
    replaced by _test or .test and anything after it: util.ts is covered by
    util.test.ts, pkg/io.py by pkg/io_test.py. *)
Theorem companion_test_is_found (parsedDiff : list File) (base ext suffix rest : string) :
  In suffix [ "_test"; ".test" ] ->
  ext <> EmptyString ->
  JS.allChars JS.notSlashOrDot ext = true ->
  (exists file, In file parsedDiff /\ to file = Some (base ++ suffix ++ rest)%string) ->
  ~ In (base ++ "." ++ ext)%string (missingTests (analyzeTests parsedDiff)).
Proof.
  intros Hsuffix Hne Hext [testFile [Hin Hto]] Hmissing.
  assert (Hlower : JS.toLowerCase suffix = suffix /\ JS.includes suffix "test" = true).
  { simpl in Hsuffix. destruct Hsuffix as [<-|[<-|[]]]; split; reflexivity. }
  destruct Hlower as [Hlower Htest].
  assert (Hsuf : suffix <> EmptyString) by (intros ->; discriminate).
  assert (HisTest : isTestFile testFile = true).
  { unfold isTestFile, truthy. rewrite Hto. cbn [orEmpty].
    apply andb_true_iff. split.
    - apply negb_true_iff, String.eqb_neq. intros H.
      destruct base; [|discriminate]. destruct suffix; [contradiction | discriminate].
    - apply orb_true_iff. right.
      rewrite !toLowerCase_app, Hlower.
      apply includes_app_r, includes_app_l. exact Htest. }
  unfold analyzeTests in Hmissing. cbn [missingTests] in Hmissing.
  apply filter_In in Hmissing as [_ Hmiss].
  unfold isMissingTest in Hmiss. apply negb_true_iff in Hmiss.
  assert (Hfound :
    existsb (fun t =>
      existsb (fun pattern => JS.includes (JS.toLowerCase t) (JS.toLowerCase pattern))
              (possibleTestPatterns (base ++ "." ++ ext)))
      (map (fun file => orEmpty (to file)) (filter isTestFile parsedDiff)) = true).
  { apply existsb_exists. exists (base ++ suffix ++ rest)%string. split.
    - apply in_map_iff. exists testFile. split; [now rewrite Hto|].
      apply filter_In. now split.
    - apply existsb_exists. exists (base ++ suffix)%string. split.
      + unfold possibleTestPatterns. rewrite (stripExtension_ext base ext Hne Hext).
        simpl in Hsuffix. destruct Hsuffix as [<-|[<-|[]]]; simpl; tauto.
      + rewrite <- append_assoc, toLowerCase_app.
        apply includes_startsWith, startsWith_app. }
  congruence.
Qed.

Lemma companion_test_is_found_witness :
  ~ In "src/util.ts"
       (missingTests (analyzeTests [ fileAt "src/util.ts"; fileAt "src/util.test.ts" ])).
Proof.
  apply (companion_test_is_found [ fileAt "src/util.ts"; fileAt "src/util.test.ts" ]
           "src/util" "ts" ".test" ".ts").
  - right; left; reflexivity.
  - discriminate.
  - reflexivity.
  - exists (fileAt "src/util.test.ts"). split; [right; left; reflexivity | reflexivity].
Defined.

(** The text before lower-casing can be cut where its lower-case form is. *)
Lemma toLowerCase_split (s a b : string) :
  JS.toLowerCase s = (a ++ b)%string ->
  exists a' b', s = (a' ++ b')%string /\ JS.toLowerCase a' = a /\ JS.toLowerCase b' = b.
Proof.
  revert s. induction a as [|c a IH]; intros s H.
  - exists EmptyString, s. now repeat split.
  - destruct s as [|d s]; [discriminate|].
    cbn [JS.toLowerCase append] in H. injection H as Hc Hs.
    destruct (IH s Hs) as [a' [b' [-> [Ha Hb]]]].
    exists (String d a'), b'. cbn [JS.toLowerCase append]. now rewrite Hc, Ha.
Qed.

(** X15.  The exemption test ignores the case of the ASCII letters: a
    description that contains a keyword in any such spelling, anywhere, is
    exempt.  For a description that is an ASCII text the converse holds: it
    is exempt only if it contains a spelling of one of the keywords. *)
Theorem hasTestExemption_iff (description : string) :
  (forall keyword spelling before after,
     In keyword EXEMPTION_KEYWORDS ->
     JS.toLowerCase spelling = keyword ->
     description = (before ++ spelling ++ after)%string ->
     hasTestExemption description = true) /\
  (JS.isASCII description = true ->
   hasTestExemption description = true ->
   exists keyword spelling before after,
     In keyword EXEMPTION_KEYWORDS /\
     JS.toLowerCase spelling = keyword /\
     description = (before ++ spelling ++ after)%string).
Proof.
  assert (Hlower : forall keyword, In keyword EXEMPTION_KEYWORDS ->
                                   JS.toLowerCase keyword = keyword).
  { intros keyword Hin. simpl in Hin.
    repeat (destruct Hin as [<-|Hin]; [reflexivity|]). contradiction. }
  split.
  - intros keyword spelling before after Hin Hspell ->.
    unfold hasTestExemption. apply existsb_exists. exists keyword. split; [exact Hin|].
    rewrite (Hlower _ Hin), !toLowerCase_app, Hspell.
    apply includes_iff. eauto.
  - intros _ Hex. unfold hasTestExemption in Hex.
    apply existsb_exists in Hex as [keyword [Hin Hinc]].
    rewrite (Hlower _ Hin) in Hinc.
    apply includes_iff in Hinc as [before [after Heq]].
    destruct (toLowerCase_split _ _ _ Heq) as [before' [rest [-> [_ Hrest]]]].
    destruct (toLowerCase_split _ _ _ Hrest) as [spelling [after' [-> [Hspell _]]]].
    exists keyword, spelling, before', after'. now repeat split.
Qed.

Lemma hasTestExemption_iff_witness :
  hasTestExemption "Refactor only. SKIP Tests, please" = true.
Proof.
  apply (proj1 (hasTestExemption_iff "Refactor only. SKIP Tests, please")
           "skip tests" "SKIP Tests" "Refactor only. " ", please").
  - simpl. tauto.
  - reflexivity.
  - reflexivity.
Defined.

(* ------------------------------------------------------------------ *)
(** ** Paths and patterns *)
(* ------------------------------------------------------------------ *)

Section MoreGlobFacts.

Import JS.

Lemma plain_cons (c : ascii) (s : string) :
  plain (String c s) = true -> Ascii.eqb c "*" = false /\ plain s = true.
Proof.
  unfold plain. cbn [allChars]. intros H. apply andb_true_iff in H as [Hc Hs].
  split; [|exact Hs]. apply negb_true_iff in Hc. unfold isGlobMeta in Hc.
  cbn [existsb] in Hc. now apply orb_false_iff in Hc as [Hc _].
Qed.

Lemma wild_plain (s : string) : plain s = true -> wild s s = true.
Proof.
  induction s as [|c s IH]; intros H; [reflexivity|].
  apply plain_cons in H as [Hc Hs].
  change (wild (String c s) (String c s))
    with (if Ascii.eqb c "*" then
            (fix star (f : string) : bool :=
               wild s f || match f with
                           | EmptyString => false
                           | String _ f' => star f'
                           end) (String c s)
          else Ascii.eqb c c && wild s s).
  now rewrite Hc, Ascii.eqb_refl, IH.
Qed.

Lemma partMatch_plain (s : string) : plain s = true -> partMatch s s = true.
Proof.
  intros H. unfold partMatch.
  replace (startsWith s "*") with false; [now apply wild_plain|].
  destruct s as [|c s]; [reflexivity|].
  apply plain_cons in H as [Hc _]. cbn [startsWith].
  rewrite Ascii.eqb_sym, Hc. reflexivity.
Qed.

Lemma parse_plain (s : string) : plain s = true -> parse s = Part s.
Proof.
  intros H. unfold parse.
  destruct (String.eqb s "**") eqn:Hs; [|reflexivity].
  apply String.eqb_eq in Hs. subst s. discriminate H.
Qed.

Lemma slashSplit_aux_plain (afterSlash : bool) (s : string) :
  plain s = true -> forallb plain (slashSplit_aux afterSlash s) = true.
Proof.
  revert afterSlash; induction s as [|c s IH]; intros afterSlash H; [reflexivity|].
  assert (Hs : plain s = true).
  { unfold plain in *. cbn [allChars] in H. now apply andb_true_iff in H as [_ H]. }
  assert (Hc : negb (isGlobMeta c) = true).
  { unfold plain in H. cbn [allChars] in H. now apply andb_true_iff in H as [H _]. }
  cbn [slashSplit_aux]. destruct (Ascii.eqb c "/").
  - destruct afterSlash; [now apply IH|]. cbn [forallb]. now rewrite IH.
  - specialize (IH false Hs).
    destruct (slashSplit_aux false s) as [|h rest]; cbn [forallb] in *.
    + unfold plain. cbn [allChars]. now rewrite Hc.
    + apply andb_true_iff in IH as [Hh Hrest]. rewrite Hrest, andb_true_r.
      unfold plain in *. cbn [allChars]. now rewrite Hc, Hh.
Qed.

Lemma matchOne_plain (parts : list string) :
  forallb plain parts = true -> matchOne (map parse parts) parts = true.
Proof.
  induction parts as [|s parts IH]; intros H; [reflexivity|].
  cbn [forallb] in H. apply andb_true_iff in H as [Hs Hparts].
  cbn [map]. rewrite (parse_plain s Hs). cbn [matchOne].
  now rewrite (partMatch_plain s Hs), IH.
Qed.

(** A path without glob characters, used as a pattern, matches itself. *)
Lemma minimatch_plain (p : string) : plain p = true -> minimatch p p = true.
Proof.
  intros H. unfold minimatch.
  destruct (String.eqb p EmptyString) eqn:Hp; [reflexivity|].
  apply matchOne_plain. now apply slashSplit_aux_plain.
Qed.

(** A globstar that is not last: the rest of the pattern matches here, or
    the globstar swallows a part that is not hidden and goes on. *)
Lemma matchOne_globstar (p : part) (rest : list part) (f : string) (fs : list string) :
  matchOne (GLOBSTAR :: p :: rest) (f :: fs) =
    matchOne (p :: rest) (f :: fs)
    || (negb (startsWithDot f)
        && match fs with
           | [] => false
           | _ :: _ => matchOne (GLOBSTAR :: p :: rest) fs
           end).
Proof. destruct fs; reflexivity. Qed.

(** Inside a directory named by a pattern, whatever the file is called. *)
Lemma matchOne_directory (dir : string) (before after : list string) :
  partMatch dir dir = true ->
  after <> [] ->
  existsb startsWithDot (before ++ after) = false ->
  matchOne [ GLOBSTAR; Part dir; GLOBSTAR ] (before ++ dir :: after) = true.
Proof.
  intros Hdir Hafter Hdot.
  rewrite existsb_app in Hdot. apply orb_false_iff in Hdot as [Hbefore Hdots].
  assert (Hhere : matchOne [ Part dir; GLOBSTAR ] (dir :: after) = true).
  { cbn [matchOne]. rewrite Hdir. destruct after as [|a after]; [contradiction|].
    cbn [andb]. clear Hafter. induction (a :: after) as [|x xs IH]; [reflexivity|].
    cbn [existsb] in Hdots. apply orb_false_iff in Hdots as [Hx Hxs].
    cbn [forallb]. now rewrite Hx, IH. }
  induction before as [|b before IH].
  - cbn [app]. rewrite matchOne_globstar, Hhere. reflexivity.
  - cbn [existsb] in Hbefore. apply orb_false_iff in Hbefore as [Hb Hbefore].
    specialize (IH Hbefore).
    cbn [app]. rewrite matchOne_globstar, Hb. cbn [negb andb].
    destruct (before ++ dir :: after) as [|f fs] eqn:Hrest.
    + destruct before; discriminate Hrest.
    + rewrite IH. apply orb_true_r.
Qed.

End MoreGlobFacts.

(** X16.  A file inside a directory named test, tests, __tests__, testing,
    pytest or unittest never needs tests, whatever its own name, as long as
    no part of its path is hidden. *)
Theorem test_directory_never_needs_tests (file : File) (dir : string)
    (before after : list string) :
  In dir testDirectories ->
  slashSplit (orEmpty (to file)) = before ++ dir :: after ->
  after <> [] ->
  existsb startsWithDot (before ++ after) = false ->
  needsTests file = false.
Proof.
  intros Hdir Hsplit Hafter Hdot.
  assert (Hmatch : matchesTestPattern (orEmpty (to file)) = true).
  { unfold matchesTestPattern. apply existsb_exists.
    exists ("**/" ++ dir ++ "/**")%string.
    assert (Hne : orEmpty (to file) <> EmptyString).
    { intros Hempty. rewrite Hempty in Hsplit. cbn in Hsplit.
      destruct before as [|b [|b' before]]; try discriminate.
      injection Hsplit as _ Hrest. destruct after; [contradiction | discriminate]. }
    assert (Hpat : partMatch dir dir = true /\
                   In ("**/" ++ dir ++ "/**")%string TEST_PATTERNS /\
                   map parse (slashSplit ("**/" ++ dir ++ "/**"))
                     = [ GLOBSTAR; Part dir; GLOBSTAR ]).
    { simpl in Hdir.
      repeat (destruct Hdir as [<-|Hdir];
              [split; [reflexivity | split; [simpl; tauto | reflexivity]]|]).
      contradiction. }
    destruct Hpat as [Hpart [Hin Hparse]].
    split; [exact Hin|]. unfold minimatch.
    replace (String.eqb ("**/" ++ dir ++ "/**") EmptyString) with false by reflexivity.
    rewrite Hparse, Hsplit. now apply matchOne_directory. }
  unfold needsTests. now rewrite Hmatch.
Qed.

Lemma test_directory_never_needs_tests_witness :
  needsTests (fileAt "src/tests/helpers.py") = false.
Proof.
  apply (test_directory_never_needs_tests (fileAt "src/tests/helpers.py") "tests"
           [ "src" ] [ "helpers.py" ]).
  - simpl. tauto.
  - reflexivity.
  - discriminate.
  - reflexivity.
Defined.

(** X17.  A file whose destination path is listed as it is in the exclude
    input is left out of the review, for a path with no glob character and
    no part "." or "..". *)
Theorem listed_path_is_excluded cfg (parsedDiff : list File) (file : File) (p : string) :
  to file = Some p ->
  plain p = true ->
  existsb (fun part => String.eqb part "." || String.eqb part "..") (slashSplit p) = false ->
  In p (map JS.trim (JS.split "," (exclude cfg))) ->
  ~ In file (filteredDiff cfg parsedDiff).
Proof.
  intros Hto Hplain _ Hlisted Hin.
  unfold filteredDiff in Hin. apply filter_In in Hin as [_ Hkeep].
  apply negb_true_iff in Hkeep.
  assert (Hex : existsb (fun pattern => minimatch (orEmpty (to file)) pattern)
                        (map JS.trim (JS.split "," (exclude cfg))) = true).
  { apply existsb_exists. exists p. split; [exact Hlisted|].
    rewrite Hto. cbn [orEmpty]. now apply minimatch_plain. }
  congruence.
Qed.

Lemma listed_path_is_excluded_witness :
  ~ In (changed "yarn.lock")
       (filteredDiff (mkConfig "gemini" "key" false EmptyString "yarn.lock, dist/index.js")
          [ changed "src/util.ts"; changed "yarn.lock" ]).
Proof.
  apply (listed_path_is_excluded
           (mkConfig "gemini" "key" false EmptyString "yarn.lock, dist/index.js")
           [ changed "src/util.ts"; changed "yarn.lock" ] (changed "yarn.lock") "yarn.lock").
  - reflexivity.
  - reflexivity.
  - reflexivity.
  - left. reflexivity.
Defined.

(** X18.  With an empty exclude input the review gets every file of the
    diff that has a destination path, and only those. *)
Theorem empty_exclude_keeps_named_files cfg (parsedDiff : list File) :
  exclude cfg = EmptyString ->
  filteredDiff cfg parsedDiff = filter (fun file => truthy (to file)) parsedDiff.
Proof.
  intros Hexclude. unfold filteredDiff. rewrite Hexclude.
  apply filter_ext. intros file. cbn [JS.split map JS.trim JS.trimStart JS.trimEnd existsb].
  unfold minimatch. cbn [String.eqb]. rewrite orb_false_r.
  unfold truthy. now destruct (to file).
Qed.

Lemma empty_exclude_keeps_named_files_witness :
  filteredDiff (exampleConfig false) [ changed "a.py"; mkFile None [ hunk ] ]
  = [ changed "a.py" ].
Proof.
  rewrite (empty_exclude_keeps_named_files (exampleConfig false)
             [ changed "a.py"; mkFile None [ hunk ] ] eq_refl).
  reflexivity.
Defined.

(* ------------------------------------------------------------------ *)
(** ** The [getResponse] methods *)
(* ------------------------------------------------------------------ *)

Section BraceFacts.

Import JS.

Lemma fromFirstBrace_split (text s : string) :
  fromFirstBrace text = Some s ->
  exists before rest,
    text = (before ++ s)%string /\ s = String "{" rest /\
    allChars (fun c => negb (Ascii.eqb c "{")) before = true.
Proof.
  induction text as [|c text IH]; [discriminate|].
  cbn [fromFirstBrace]. destruct (Ascii.eqb c "{") eqn:Hc.
  - intros H. injection H as <-. apply Ascii.eqb_eq in Hc. subst c.
    exists EmptyString, text. now repeat split.
  - intros H. destruct (IH H) as [before [rest [-> [-> Hbefore]]]].
    exists (String c before), rest. cbn [append allChars]. now rewrite Hc, Hbefore.
Qed.

Lemma upToLastBrace_split (s r : string) :
  upToLastBrace s = Some r ->
  exists inner after,
    s = (r ++ after)%string /\ r = (inner ++ "}")%string /\
    allChars (fun c => negb (Ascii.eqb c "}")) after = true.
Proof.
  revert r; induction s as [|c s IH]; intros r; [discriminate|].
  cbn [upToLastBrace]. destruct (upToLastBrace s) as [r'|] eqn:Hr.
  - intros H. injection H as <-. destruct (IH r' eq_refl) as [inner [after [-> [-> Hafter]]]].
    exists (String c inner), after. now repeat split.
  - destruct (Ascii.eqb c "}") eqn:Hc; [|discriminate].
    intros H. injection H as <-. apply Ascii.eqb_eq in Hc. subst c.
    exists EmptyString, s. split; [reflexivity|]. split; [reflexivity|].
    clear IH. induction s as [|d s IHs]; [reflexivity|].
    cbn [upToLastBrace] in Hr. destruct (upToLastBrace s); [discriminate|].
    destruct (Ascii.eqb d "}") eqn:Hd; [discriminate|].
    cbn [allChars]. now rewrite Hd, IHs.
Qed.

Lemma upToLastBrace_found (a b : string) : upToLastBrace (a ++ String "}" b) <> None.
Proof.
  induction a as [|c a IH].
  - cbn [append upToLastBrace]. destruct (upToLastBrace b); discriminate.
  - cbn [append upToLastBrace]. destruct (upToLastBrace (a ++ String "}" b));
      [discriminate | contradiction].
Qed.

End BraceFacts.

(** X19.  The text the Gemini provider hands to [JSON.parse] runs from the
    first opening brace of the answer to the last closing brace after it;
    an answer with an opening brace followed somewhere by a closing one
    always yields such a text. *)
Theorem matchBraces_spans_braces (text : string) :
  (forall m, matchBraces text = Some m ->
     exists before inner after,
       text = (before ++ m ++ after)%string /\
       m = ("{" ++ inner ++ "}")%string /\
       JS.allChars (fun c => negb (Ascii.eqb c "{")) before = true /\
       JS.allChars (fun c => negb (Ascii.eqb c "}")) after = true) /\
  (forall a b c, text = (a ++ "{" ++ b ++ "}" ++ c)%string -> matchBraces text <> None).
Proof.
  split.
  - intros m H. unfold matchBraces in H.
    destruct (fromFirstBrace text) as [s|] eqn:Hs; [|discriminate].
    destruct (fromFirstBrace_split _ _ Hs) as [before [rest [-> [-> Hbefore]]]].
    destruct (upToLastBrace rest) as [r|] eqn:Hr; [|discriminate].
    injection H as <-.
    destruct (upToLastBrace_split _ _ Hr) as [inner [after [-> [-> Hafter]]]].
    exists before, inner, after. now repeat split.
  - intros a b c ->. unfold matchBraces.
    assert (Hfirst : forall a rest, exists s',
              fromFirstBrace (a ++ String "{" rest) = Some (String "{" s') /\
              exists a', s' = (a' ++ rest)%string).
    { clear. intros a rest. induction a as [|x a [s' [IH [a' Ha']]]].
      - exists rest. split; [reflexivity|]. now exists EmptyString.
      - cbn [append fromFirstBrace]. destruct (Ascii.eqb x "{") eqn:Hx.
        + apply Ascii.eqb_eq in Hx. subst x.
          exists (a ++ String "{" rest)%string. split; [reflexivity|].
          exists (a ++ "{")%string. now rewrite append_assoc.
        + exists s'. split; [exact IH|]. now exists a'. }
    destruct (Hfirst a (b ++ "}" ++ c)%string) as [s' [Hs [a' ->]]].
    cbn [append] in Hs |- *. rewrite Hs.
    assert (Hlast := upToLastBrace_found (a' ++ b) c).
    rewrite append_assoc in Hlast. cbn [append] in Hlast.
    destruct (upToLastBrace (a' ++ b ++ String "}" c)); [discriminate | contradiction].
Qed.

Lemma matchBraces_spans_braces_witness :
  matchBraces ("Sure: {" ++ quote ++ "reviews" ++ quote ++ ":[]} done")%string <> None.
Proof.
  apply (proj2 (matchBraces_spans_braces
                  ("Sure: {" ++ quote ++ "reviews" ++ quote ++ ":[]} done")%string)
           "Sure: " (quote ++ "reviews" ++ quote ++ ":[]")%string " done").
  reflexivity.
Defined.

(** X20.  The [getResponse] method of either provider never throws: it asks
    the backend once and turns every failure into [null].  The Gemini one
    only ever returns an array. *)
Theorem getResponse_never_throws w provider prompt t :
  exists reviews,
    getResponse w provider prompt t = (Ok reviews, t ++ [ GetResponse prompt ]) /\
    (backend w (aiRequests t) = Rejects -> reviews = None) /\
    (provider = GeminiProvider -> reviews = None \/ isArray reviews = true).
Proof.
  unfold getResponse, tryCatch, bind, ask, request, ret, throw, liftOutcome.
  destruct (backend w (aiRequests t)) as [|text].
  { exists None. repeat split. now left. }
  destruct provider.
  - destruct (matchBraces text) as [m|].
    2:{ exists None. repeat split; try discriminate. now left. }
    destruct (JSON_parse w m) as [parsed|].
    2:{ exists None. repeat split; try discriminate. now left. }
    assert (Hp := getProperty_settles parsed "reviews").
    destruct (getProperty parsed "reviews") as [reviews|e|]; [| |contradiction].
    2:{ exists None. repeat split; try discriminate. now left. }
    destruct (isArray reviews) eqn:Harr; cbn [negb].
    + exists reviews. repeat split; try discriminate. now right.
    + exists None. repeat split; try discriminate. now left.
  - match goal with
    | |- context [JSON_parse w ?res] => destruct (JSON_parse w res) as [parsed|]
    end.
    2:{ exists None. repeat split; discriminate. }
    assert (Hp := getProperty_settles parsed "reviews").
    destruct (getProperty parsed "reviews") as [reviews|e|]; [| |contradiction].
    + exists reviews. repeat split; discriminate.
    + exists None. repeat split; discriminate.
Qed.

Lemma getResponse_never_throws_witness :
  exists reviews,
    getResponse (exampleWorld EmptyString [] [ Resolves textReviewsText ]) GeminiProvider
      (ExemptionPrompt EmptyString) []
    = (Ok reviews, [ GetResponse (ExemptionPrompt EmptyString) ]) /\
    (reviews = None \/ isArray reviews = true).
Proof.
  destruct (getResponse_never_throws
              (exampleWorld EmptyString [] [ Resolves textReviewsText ]) GeminiProvider
              (ExemptionPrompt EmptyString) []) as [reviews [Hrun [_ Harray]]].
  exists reviews. split; [exact Hrun | exact (Harray eq_refl)].
Defined.
